(** * fixture-updater: shifting the UTC timestamps of a Django fixture

    A shallow embedding of [fixture-updater.py] and the properties its
    specification states about it.

    Modelling conventions.
    - A Python [str] is a [string]; its characters are the code points
      below 256.  On these, the regular-expression class [\d] is exactly
      the ASCII digits.
    - An aware [datetime] whose [tzinfo] is [UTC] is a record of its
      calendar fields, as CPython stores it; a [timedelta] is its total
      number of microseconds.
    - The value returned by [json.loads] is a tree without sharing, so a
      container object is identified by its path from [self.data].
    - A [dict] is the list of its entries in insertion order; the keys of
      a [dict] that [json.loads] returns are distinct, which the properties
      about whole runs assume as [distinct_keys].
    - A method of [FixtureUpdater] is a function from the object's state to
      an outcome (a value or a raised exception) and the state it leaves.
    - What the program takes from its environment is an argument of the
      model: the parsed fixture, the reading of [datetime.now(UTC)], the
      elapsed time, and [pad_year], whether the C library's [strftime]
      zero-pads [%Y] to four digits. *)

From Stdlib Require Import ZArith List String Ascii Bool Lia DecimalString.
Import ListNotations.

Local Open Scope string_scope.
Local Open Scope Z_scope.

(* ================================================================== *)
(** * Exceptions and outcomes *)

Inductive exn : Type :=
| ValueError
| OverflowError
| KeyError
| IndexError
| TypeError (msg : string)
| RuntimeError (msg : string)
| ArgumentTypeError (msg : string).

Inductive result (A : Type) : Type :=
| Ok (a : A)
| Raise (e : exn).

Arguments Ok {A} a.
Arguments Raise {A} e.

Definition rbind {A B : Type} (r : result A) (k : A -> result B) : result B :=
  match r with
  | Ok a => k a
  | Raise e => Raise e
  end.

Notation "'let?' x ':=' r 'in' k" := (rbind r (fun x => k))
  (at level 10, x pattern, r at level 100, k at level 200).

Definition obind {A B : Type} (o : option A) (k : A -> option B) : option B :=
  match o with
  | Some a => k a
  | None => None
  end.

Notation "'let*' x ':=' o 'in' k" := (obind o (fun x => k))
  (at level 10, x pattern, o at level 100, k at level 200).

(* ================================================================== *)
(** * Strings of decimal digits *)

Module PyStr.

Definition code (c : ascii) : Z := Z.of_N (N_of_ascii c).

(** [\d] on code points below 256. *)
Definition is_digit (c : ascii) : bool := (48 <=? code c) && (code c <=? 57).

Definition digit_val (c : ascii) : Z := code c - 48.

Definition digit_char (d : Z) : ascii := ascii_of_N (Z.to_N (48 + d)).

Fixpoint all_digits (s : string) : bool :=
  match s with
  | EmptyString => true
  | String c r => is_digit c && all_digits r
  end.

(** [int(s)] for a string of ASCII digits. *)
Fixpoint int_acc (acc : Z) (s : string) : Z :=
  match s with
  | EmptyString => acc
  | String c r => int_acc (acc * 10 + digit_val c) r
  end.

Definition int_of_digits (s : string) : Z := int_acc 0 s.

(** ["%0<w>d" % n] for [0 <= n < 10 ^ w]: the [w] low decimal digits of
    [n], most significant first. *)
Fixpoint zpad (w : nat) (n : Z) : string :=
  match w with
  | O => EmptyString
  | S w' => String (digit_char ((n / 10 ^ Z.of_nat w') mod 10)) (zpad w' n)
  end.

(** [s[:n]]. *)
Fixpoint take (n : nat) (s : string) : string :=
  match n, s with
  | S n', String c r => String c (take n' r)
  | _, _ => EmptyString
  end.

Definition len (s : string) : nat := String.length s.

End PyStr.

(* ================================================================== *)
(** * The proleptic Gregorian calendar of the [datetime] module *)

Module Calendar.

(** The helpers of the standard library's [datetime] module, under the
    names it gives them: [_is_leap], [_days_before_year], [_DAYS_IN_MONTH],
    [_DAYS_BEFORE_MONTH], [_days_in_month], [_days_before_month],
    [_ymd2ord] and [_ord2ymd]. *)

Definition MINYEAR : Z := 1.
Definition MAXYEAR : Z := 9999.
Definition MAXORDINAL : Z := 3652059.

Definition is_leap (year : Z) : bool :=
  (year mod 4 =? 0) && (negb (year mod 100 =? 0) || (year mod 400 =? 0)).

Definition days_before_year (year : Z) : Z :=
  let y := year - 1 in
  y * 365 + y / 4 - y / 100 + y / 400.

Definition DAYS_IN_MONTH (month : Z) : Z :=
  match month with
  | 1 => 31 | 2 => 28 | 3 => 31 | 4 => 30 | 5 => 31 | 6 => 30
  | 7 => 31 | 8 => 31 | 9 => 30 | 10 => 31 | 11 => 30 | 12 => 31
  | _ => -1
  end.

Definition DAYS_BEFORE_MONTH (month : Z) : Z :=
  match month with
  | 1 => 0 | 2 => 31 | 3 => 59 | 4 => 90 | 5 => 120 | 6 => 151
  | 7 => 181 | 8 => 212 | 9 => 243 | 10 => 273 | 11 => 304 | 12 => 334
  | _ => -1
  end.

(** A boolean used as a number. *)
Definition b2z (b : bool) : Z := if b then 1 else 0.

(** The days in a month, and the days before it, of a leap or common
    year. *)
Definition dim_of (leap : bool) (month : Z) : Z :=
  if (month =? 2) && leap then 29 else DAYS_IN_MONTH month.

Definition dbm_of (leap : bool) (month : Z) : Z :=
  DAYS_BEFORE_MONTH month + b2z ((month >? 2) && leap).

Definition days_in_month (year month : Z) : Z := dim_of (is_leap year) month.

Definition days_before_month (year month : Z) : Z := dbm_of (is_leap year) month.

Definition ymd2ord (year month day : Z) : Z :=
  days_before_year year + days_before_month year month + day.

(** The end of [_ord2ymd]: month and day from the zero-based day of the
    year [n]. *)
Definition ord2md (leapyear : bool) (n : Z) : Z * Z :=
  let month := Z.shiftr (n + 50) 5 in
  let preceding := dbm_of leapyear month in
  if preceding >? n then
    let month := month - 1 in
    let preceding := preceding - dim_of leapyear month in
    (month, n - preceding + 1)
  else (month, n - preceding + 1).

Definition ord2ymd (n : Z) : Z * Z * Z :=
  let n := n - 1 in
  let n400 := n / 146097 in
  let n := n mod 146097 in
  let year := n400 * 400 + 1 in
  let n100 := n / 36524 in
  let n := n mod 36524 in
  let n4 := n / 1461 in
  let n := n mod 1461 in
  let n1 := n / 365 in
  let n := n mod 365 in
  let year := year + n100 * 100 + n4 * 4 + n1 in
  if (n1 =? 4) || (n100 =? 4) then (year - 1, 12, 31)
  else
    let leapyear := (n1 =? 3) && (negb (n4 =? 24) || (n100 =? 3)) in
    let '(month, day) := ord2md leapyear n in
    (year, month, day).

(** The range checks of the [date] constructor. *)
Definition valid_date (year month day : Z) : bool :=
  (MINYEAR <=? year) && (year <=? MAXYEAR)
  && (1 <=? month) && (month <=? 12)
  && (1 <=? day) && (day <=? days_in_month year month).

(** Lexicographic order on year, month, day. *)
Definition ymd_lt (a b : Z * Z * Z) : Prop :=
  let '(y, m, d) := a in
  let '(y', m', d') := b in
  y < y' \/ (y = y' /\ (m < m' \/ (m = m' /\ d < d'))).

(** [ord2md] gives a month, a day of that month, and the day of the year
    it started from. *)
Definition ord2md_ok (leap : bool) (n : Z) : bool :=
  let '(m, d) := ord2md leap n in
  (1 <=? m) && (m <=? 12) && (1 <=? d) && (d <=? dim_of leap m)
  && (dbm_of leap m + d =? n + 1).

End Calendar.

(* ================================================================== *)
(** * Aware UTC [datetime] values and [timedelta] *)

Module Datetime.
Import Calendar.

(** A [datetime] whose [tzinfo] is [timezone.utc]. *)
Record datetime : Type := mkdt {
  year : Z;
  month : Z;
  day : Z;
  hour : Z;
  minute : Z;
  second : Z;
  microsecond : Z
}.

(** A [timedelta], as its total number of microseconds. *)
Definition timedelta : Type := Z.

(** The range checks of the [datetime] constructor; every [datetime]
    object satisfies them. *)
Definition valid (t : datetime) : bool :=
  valid_date (year t) (month t) (day t)
  && (0 <=? hour t) && (hour t <=? 23)
  && (0 <=? minute t) && (minute t <=? 59)
  && (0 <=? second t) && (second t <=? 59)
  && (0 <=? microsecond t) && (microsecond t <=? 999999).

(** [datetime(year, month, day, hour, minute, second, microsecond,
    tzinfo=UTC)]. *)
Definition make (y m d hh mm ss us : Z) : result datetime :=
  let t := mkdt y m d hh mm ss us in
  if valid t then Ok t else Raise ValueError.

Definition toordinal (t : datetime) : Z := ymd2ord (year t) (month t) (day t).

Definition US_PER_DAY : Z := 86400000000.

(** The microseconds since midnight. *)
Definition time_of_day (t : datetime) : Z :=
  (hour t * 3600 + minute t * 60 + second t) * 1000000 + microsecond t.

(** The instant, in microseconds; day 1 is 0001-01-01. *)
Definition to_micros (t : datetime) : Z :=
  toordinal t * US_PER_DAY + time_of_day t.

(** [a - b] for two aware datetimes with the same [tzinfo]. *)
Definition dt_sub (a b : datetime) : timedelta := to_micros a - to_micros b.

(** [t + delta]: the sum is normalised to days, seconds and microseconds
    and must fall on an ordinal of the supported years. *)
Definition dt_add (t : datetime) (delta : timedelta) : result datetime :=
  let total := to_micros t + delta in
  let days := total / US_PER_DAY in
  let rem := total mod US_PER_DAY in
  if (0 <? days) && (days <=? MAXORDINAL) then
    let '(y, m, d) := ord2ymd days in
    let secs := rem / 1000000 in
    let us := rem mod 1000000 in
    let hh := secs / 3600 in
    let rem60 := secs mod 3600 in
    Ok (mkdt y m d hh (rem60 / 60) (rem60 mod 60) us)
  else Raise OverflowError.

(** The first comparison that is not [Eq]. *)
Definition lex (c1 c2 : comparison) : comparison :=
  match c1 with
  | Eq => c2
  | _ => c1
  end.

(** Comparison of two datetimes with the same [tzinfo]: field by field. *)
Definition dt_cmp (a b : datetime) : comparison :=
  lex (year a ?= year b)
  (lex (month a ?= month b)
  (lex (day a ?= day b)
  (lex (hour a ?= hour b)
  (lex (minute a ?= minute b)
  (lex (second a ?= second b)
       (microsecond a ?= microsecond b)))))).

(** [a > b] *)
Definition dt_gt (a b : datetime) : bool :=
  match dt_cmp a b with
  | Gt => true
  | _ => false
  end.

(** The midnight that begins the date of [t]. *)
Definition midnight (t : datetime) : datetime :=
  mkdt (year t) (month t) (day t) 0 0 0 0.

End Datetime.

(* ================================================================== *)
(** * The two compiled patterns *)

Module Re.
Import PyStr.

(** The pattern objects; the program also uses them as the tag of a
    value's textual shape and compares them by identity. *)
Inductive pattern : Type :=
| DATETIME_FIELD_PATTERN
| DATE_FIELD_PATTERN.

(** [a is b] *)
Definition pattern_is (a b : pattern) : bool :=
  match a, b with
  | DATETIME_FIELD_PATTERN, DATETIME_FIELD_PATTERN => true
  | DATE_FIELD_PATTERN, DATE_FIELD_PATTERN => true
  | _, _ => false
  end.

(** [\d{n}]: the digits matched and the rest of the subject. *)
Fixpoint digits (n : nat) (s : string) : option (string * string) :=
  match n with
  | O => Some (EmptyString, s)
  | S n' =>
      match s with
      | String c r =>
          if is_digit c then
            let* (d, r') := digits n' r in Some (String c d, r')
          else None
      | EmptyString => None
      end
  end.

(** [\d{1,n}], greedy.  What follows it in the pattern is the literal
    [Z], which no digit matches, so giving digits back never helps and the
    greedy choice is the only one that can succeed. *)
Fixpoint digits_upto (n : nat) (s : string) : string * string :=
  match n, s with
  | S n', String c r =>
      if is_digit c then
        let '(d, r') := digits_upto n' r in (String c d, r')
      else (EmptyString, s)
  | _, _ => (EmptyString, s)
  end.

(** A literal character. *)
Definition lit (c : ascii) (s : string) : option string :=
  match s with
  | String c' r => if Ascii.eqb c c' then Some r else None
  | EmptyString => None
  end.

(** The character of code 10. *)
Definition newline : ascii := "010"%char.

(** [$] without [re.MULTILINE]: the end of the subject, or the position
    just before a newline that ends the subject. *)
Definition at_end (s : string) : bool :=
  match s with
  | EmptyString => true
  | String c EmptyString => Ascii.eqb c newline
  | _ => false
  end.

(** [(?P<date>\d{4}-\d{2}-\d{2})] *)
Definition date_group (s : string) : option (string * string) :=
  let* (y, r) := digits 4 s in
  let* r := lit "-" r in
  let* (m, r) := digits 2 r in
  let* r := lit "-" r in
  let* (d, r) := digits 2 r in
  Some (y ++ "-" ++ m ++ "-" ++ d, r).

(** [(?P<time>\d{2}:\d{2}:\d{2})] *)
Definition time_group (s : string) : option (string * string) :=
  let* (hh, r) := digits 2 s in
  let* r := lit ":" r in
  let* (mm, r) := digits 2 r in
  let* r := lit ":" r in
  let* (ss, r) := digits 2 r in
  Some (hh ++ ":" ++ mm ++ ":" ++ ss, r).

(** [Z$] *)
Definition zulu_end (s : string) : bool :=
  match lit "Z" s with
  | Some r => at_end r
  | None => false
  end.

(** [DATETIME_FIELD_PATTERN.match(value)]: the groups [date], [time] and
    [fraction] ([None] when the optional group did not take part). *)
Definition match_datetime (value : string)
  : option (string * string * option string) :=
  let* (date, r) := date_group value in
  let* r := lit "T" r in
  let* (time, r) := time_group r in
  match lit "." r with
  | Some r1 =>
      let '(fraction, r2) := digits_upto 6 r1 in
      match fraction with
      | EmptyString => None
      | _ => if zulu_end r2 then Some (date, time, Some fraction) else None
      end
  | None => if zulu_end r then Some (date, time, None) else None
  end.

(** [DATE_FIELD_PATTERN.match(value)]: the group [date]. *)
Definition match_date (value : string) : option string :=
  let* (date, r) := date_group value in
  if at_end r then Some date else None.

(** A subject that does not go on with a digit. *)
Definition no_digit_ahead (r : string) : bool :=
  match r with
  | String c _ => negb (is_digit c)
  | EmptyString => true
  end.

(** The text of a date with year [y], month [m] and day [d]. *)
Definition date_text (y m d : string) : string := y ++ "-" ++ m ++ "-" ++ d.

(** The text of a time of day. *)
Definition time_text (hh mm ss : string) : string := hh ++ ":" ++ mm ++ ":" ++ ss.

(** The optional group of the pattern, as text. *)
Definition fraction_text (f : string) : string :=
  match f with
  | EmptyString => EmptyString
  | _ => "." ++ f
  end.

(** [n] decimal digits. *)
Definition numeral (n : nat) (s : string) : bool :=
  Nat.eqb (len s) n && all_digits s.

End Re.

(* ================================================================== *)
(** * Parsing and rendering timestamps *)

Module Timestamp.
Import PyStr Calendar Datetime Re.

(** [datetime.fromisoformat] on the texts this program gives it:
    [YYYY-MM-DDTHH:MM:SS+00:00], with an optional [.ffffff] before the
    offset.  The fields are then checked by the [datetime] constructor. *)
Definition fromisoformat (s : string) : result datetime :=
  let fields :=
    let* (y, r) := digits 4 s in
    let* r := lit "-" r in
    let* (m, r) := digits 2 r in
    let* r := lit "-" r in
    let* (d, r) := digits 2 r in
    let* r := lit "T" r in
    let* (hh, r) := digits 2 r in
    let* r := lit ":" r in
    let* (mm, r) := digits 2 r in
    let* r := lit ":" r in
    let* (ss, r) := digits 2 r in
    let* (us, r) :=
      match lit "." r with
      | Some r1 => let* (f, r2) := digits 6 r1 in Some (int_of_digits f, r2)
      | None => Some (0, r)
      end in
    if String.eqb r "+00:00" then
      Some (int_of_digits y, int_of_digits m, int_of_digits d,
            int_of_digits hh, int_of_digits mm, int_of_digits ss, us)
    else None in
  match fields with
  | Some (y, m, d, hh, mm, ss, us) => make y m d hh mm ss us
  | None => Raise ValueError
  end.

(** [parse_utc_timestamp]: the datetime, the pattern that matched and the
    number of fractional digits, [None] when neither pattern matches; the
    [ValueError] of [fromisoformat] is not caught. *)
Definition parse_utc_timestamp (value : string)
  : result (option (datetime * pattern * nat)) :=
  match match_datetime value with
  | Some (date, time, fraction_group) =>
      let fraction :=
        match fraction_group with
        | Some f => f
        | None => EmptyString
        end in
      let padded_fraction := take 6 (fraction ++ "000000") in
      let timestamp := date ++ "T" ++ time ++ "." ++ padded_fraction ++ "+00:00" in
      let? parsed := fromisoformat timestamp in
      Ok (Some (parsed, DATETIME_FIELD_PATTERN, len fraction))
  | None =>
      match match_date value with
      | Some date =>
          let? parsed := fromisoformat (date ++ "T00:00:00+00:00") in
          Ok (Some (parsed, DATE_FIELD_PATTERN, 0%nat))
      | None => Ok None
      end
  end.

Section Rendering.

(** [strftime("%Y")] is left to the C library: it writes the year with
    four zero-padded digits on some platforms ([pad_year = true]) and
    without padding on others, glibc among them ([pad_year = false]).
    The two agree from year 1000 on. *)
Variable pad_year : bool.

Definition strftime_Y (y : Z) : string :=
  if pad_year then zpad 4 y
  else if y <? 10 then zpad 1 y
  else if y <? 100 then zpad 2 y
  else if y <? 1000 then zpad 3 y
  else zpad 4 y.

(** [value.date().isoformat()] *)
Definition isoformat_date (value : datetime) : string :=
  zpad 4 (year value) ++ "-" ++ zpad 2 (month value) ++ "-" ++ zpad 2 (day value).

(** [value.strftime("%Y-%m-%dT%H:%M:%S")] *)
Definition strftime_base (value : datetime) : string :=
  strftime_Y (year value) ++ "-" ++ zpad 2 (month value) ++ "-"
  ++ zpad 2 (day value) ++ "T" ++ zpad 2 (hour value) ++ ":"
  ++ zpad 2 (minute value) ++ ":" ++ zpad 2 (second value).

(** [value.astimezone(UTC)] returns [value] itself, its [tzinfo] being
    [UTC] already. *)
Definition format_utc_timestamp (value : datetime) (value_type : pattern)
    (fraction_len : nat) : string :=
  if pattern_is value_type DATE_FIELD_PATTERN then isoformat_date value
  else
    let base := strftime_base value in
    if (0 <? fraction_len)%nat then
      let micro := take fraction_len (zpad 6 (microsecond value)) in
      base ++ "." ++ micro ++ "Z"
    else base ++ "Z".

End Rendering.


End Timestamp.

(* ================================================================== *)
(** * The two textual shapes, as the specification words them *)

Module Shape.
Import PyStr Datetime Re.

(** A picture of a text: [9] stands for any decimal digit, every other
    character for itself. *)
Fixpoint matches_picture (picture s : string) : bool :=
  match picture, s with
  | EmptyString, EmptyString => true
  | String p picture', String c s' =>
      (if Ascii.eqb p "9" then is_digit c else Ascii.eqb p c)
      && matches_picture picture' s'
  | _, _ => false
  end.

(** Date-only: [YYYY-MM-DD]. *)
Definition is_date_only (s : string) : bool :=
  matches_picture "9999-99-99" s.

(** Full UTC instant: [YYYY-MM-DDTHH:MM:SS], optionally a dot and one to
    six fractional digits, then [Z]. *)
Definition datetime_pictures : list string :=
  [ "9999-99-99T99:99:99Z";
    "9999-99-99T99:99:99.9Z";
    "9999-99-99T99:99:99.99Z";
    "9999-99-99T99:99:99.999Z";
    "9999-99-99T99:99:99.9999Z";
    "9999-99-99T99:99:99.99999Z";
    "9999-99-99T99:99:99.999999Z" ].

Definition is_datetime (s : string) : bool :=
  existsb (fun picture => matches_picture picture s) datetime_pictures.

Definition supported (s : string) : bool := is_date_only s || is_datetime s.

(** The fields of a text of either shape, by position. *)
Definition text_year (s : string) : string := substring 0 4 s.
Definition text_month (s : string) : string := substring 5 2 s.
Definition text_day (s : string) : string := substring 8 2 s.
Definition text_hour (s : string) : string := substring 11 2 s.
Definition text_minute (s : string) : string := substring 14 2 s.
Definition text_second (s : string) : string := substring 17 2 s.

(** The fractional digits: what stands between the dot and the [Z]. *)
Definition text_fraction (s : string) : string :=
  substring 20 (String.length s - 21) s.

(** The instant a text of either shape denotes: its fields read as
    decimal numbers, the fraction right-padded with zeros to microseconds,
    midnight for a date. *)
Definition text_instant (s : string) : datetime :=
  mkdt (int_of_digits (text_year s)) (int_of_digits (text_month s))
       (int_of_digits (text_day s)) (int_of_digits (text_hour s))
       (int_of_digits (text_minute s)) (int_of_digits (text_second s))
       (int_of_digits (take 6 (text_fraction s ++ "000000"))).

(** The text without the newline that ends it, if one does. *)
Fixpoint chomp (s : string) : string :=
  match s with
  | EmptyString => EmptyString
  | String c EmptyString => if Ascii.eqb c newline then EmptyString else s
  | String c r => String c (chomp r)
  end.

(** The instant with the part of it that a rendering in the given shape
    and fraction length does not show set to zero. *)
Definition truncate_to (t : datetime) (value_type : pattern) (fraction_len : nat)
  : datetime :=
  match value_type with
  | DATE_FIELD_PATTERN => midnight t
  | DATETIME_FIELD_PATTERN =>
      let unit := 10 ^ Z.of_nat (6 - fraction_len) in
      mkdt (year t) (month t) (day t) (hour t) (minute t) (second t)
           (microsecond t - microsecond t mod unit)
  end.

End Shape.

(* ================================================================== *)
(** * JSON values and the places in them *)

Module Json.

(** What [json.loads] returns.  A [dict] keeps its keys in insertion
    order; a float is kept through its bits, the program never looks at
    one. *)
Local Unset Elimination Schemes.

Inductive json : Type :=
| JNull
| JBool (b : bool)
| JInt (n : Z)
| JFloat (bits : Z)
| JStr (s : string)
| JList (items : list json)
| JDict (entries : list (string * json)).

Local Set Elimination Schemes.

(** A key of a [dict] or an index of a [list]. *)
Inductive key : Type :=
| KStr (k : string)
| KIdx (i : nat).

(** The identity of a container: how it is reached from [self.data]. *)
Definition path : Type := list key.

Definition key_eqb (a b : key) : bool :=
  match a, b with
  | KStr x, KStr y => String.eqb x y
  | KIdx i, KIdx j => Nat.eqb i j
  | _, _ => false
  end.

Definition is_dict (v : json) : bool :=
  match v with
  | JDict _ => true
  | _ => false
  end.

Definition is_list (v : json) : bool :=
  match v with
  | JList _ => true
  | _ => false
  end.

(** Neither a [dict] nor a [list]. *)
Definition is_leaf (v : json) : bool := negb (is_dict v || is_list v).

Fixpoint dict_get (k : string) (entries : list (string * json)) : option json :=
  match entries with
  | [] => None
  | (k', v) :: rest => if String.eqb k' k then Some v else dict_get k rest
  end.

(** [d[k] = v]: an existing key keeps its place, a new one goes last. *)
Fixpoint dict_set (k : string) (v : json) (entries : list (string * json))
  : list (string * json) :=
  match entries with
  | [] => [(k, v)]
  | (k', v') :: rest =>
      if String.eqb k' k then (k', v) :: rest else (k', v') :: dict_set k v rest
  end.

(** [l[i] = v] *)
Fixpoint list_set (i : nat) (v : json) (l : list json) : option (list json) :=
  match l, i with
  | [], _ => None
  | _ :: rest, O => Some (v :: rest)
  | x :: rest, S i' =>
      match list_set i' v rest with
      | Some rest' => Some (x :: rest')
      | None => None
      end
  end.

(** The [TypeError] of an object that is not subscriptable, or of a key
    of the wrong type; the message is left out. *)
Definition not_subscriptable : exn := TypeError EmptyString.

(** [container[k]] *)
Definition getitem (container : json) (k : key) : result json :=
  match container, k with
  | JDict entries, KStr s =>
      match dict_get s entries with
      | Some v => Ok v
      | None => Raise KeyError
      end
  | JList items, KIdx i =>
      match nth_error items i with
      | Some v => Ok v
      | None => Raise IndexError
      end
  | _, _ => Raise not_subscriptable
  end.

(** [container[k] = v] *)
Definition setitem (container : json) (k : key) (v : json) : result json :=
  match container, k with
  | JDict entries, KStr s => Ok (JDict (dict_set s v entries))
  | JList items, KIdx i =>
      match list_set i v items with
      | Some items' => Ok (JList items')
      | None => Raise IndexError
      end
  | _, _ => Raise not_subscriptable
  end.

(** The value reached from [root] along a path. *)
Fixpoint get_at (p : path) (root : json) : result json :=
  match p with
  | [] => Ok root
  | k :: p' => let? child := getitem root k in get_at p' child
  end.

(** [container[k] = v] for the container reached from [root] along [p]:
    the tree after the assignment. *)
Fixpoint set_at (p : path) (k : key) (v : json) (root : json) : result json :=
  match p with
  | [] => setitem root k v
  | k0 :: p' =>
      let? child := getitem root k0 in
      let? child' := set_at p' k v child in
      setitem root k0 child'
  end.

(** [s] is not among the strings of [l]. *)
Definition fresh_key (s : string) (l : list string) : bool :=
  negb (existsb (String.eqb s) l).

Fixpoint distinct (l : list string) : bool :=
  match l with
  | [] => true
  | s :: l' => fresh_key s l' && distinct l'
  end.

(** The keys of every [dict] are distinct, as Python has them. *)
Fixpoint distinct_keys (v : json) : bool :=
  match v with
  | JDict entries =>
      distinct (map fst entries)
      && forallb (fun e => distinct_keys (snd e)) entries
  | JList items => forallb distinct_keys items
  | _ => true
  end.

(** A string leaf found by the scan: its container, its key or index
    there, and the string. *)
Definition node : Type := (path * key * string)%type.

(** What a loop over [enumerate(l)] yields in all, [f idx item] being what
    it yields at one item; the count starts at [idx]. *)
Fixpoint flat_mapi {A B : Type} (f : nat -> A -> list B) (idx : nat) (l : list A)
  : list B :=
  match l with
  | [] => []
  | x :: l' => (f idx x ++ flat_mapi f (S idx) l')%list
  end.

(** The generator [iter_string_nodes], as the list of what it yields;
    [here] is the identity of [value]. *)
Fixpoint iter_string_nodes (here : path) (value : json) {struct value}
  : list node :=
  match value with
  | JDict entries =>
      flat_map
        (fun e =>
           match snd e with
           | JStr s => [(here, KStr (fst e), s)]
           | _ => iter_string_nodes (here ++ [KStr (fst e)])%list (snd e)
           end) entries
  | JList l =>
      flat_mapi
        (fun idx item =>
           match item with
           | JStr s => [(here, KIdx idx, s)]
           | _ => iter_string_nodes (here ++ [KIdx idx])%list item
           end) 0%nat l
  | _ => []
  end.

(** A copy of a value with every string in it emptied: its containers,
    their keys and its other values. *)
Fixpoint skeleton (v : json) : json :=
  match v with
  | JStr _ => JStr EmptyString
  | JList items => JList (map skeleton items)
  | JDict entries => JDict (map (fun e => (fst e, skeleton (snd e))) entries)
  | _ => v
  end.

End Json.

(* ================================================================== *)
(** * The class [FixtureUpdater] *)

Module Updater.
Import PyStr Datetime Re Timestamp Json.

(** An element of [found_dates]: container, key, parsed datetime, shape
    and fraction length. *)
Record found : Type := mkfound {
  f_container : path;
  f_key : key;
  f_dt : datetime;
  f_type : pattern;
  f_fraction_len : nat
}.

(** The attributes of the object, and [written]: what [write_output] has
    stored at [output_path], if it has been called. *)
Record FixtureUpdater : Type := mkupdater {
  target_latest_dt : option datetime;
  data : json;
  found_dates : list found;
  latest_dt : option datetime;
  latest_type : option pattern;
  latest_fraction_len : nat;
  delta : option timedelta;
  updated_count : nat;
  elapsed_ms : Z;
  written : option json
}.

(** [FixtureUpdater(fixture_path, output_path, target_latest_dt)] *)
Definition init (target : option datetime) : FixtureUpdater :=
  mkupdater target (JList []) [] None None 0%nat None 0%nat 0 None.

Definition set_data (v : json) (s : FixtureUpdater) : FixtureUpdater :=
  mkupdater (target_latest_dt s) v (found_dates s) (latest_dt s)
    (latest_type s) (latest_fraction_len s) (delta s) (updated_count s)
    (elapsed_ms s) (written s).

Definition set_found_dates (v : list found) (s : FixtureUpdater) : FixtureUpdater :=
  mkupdater (target_latest_dt s) (data s) v (latest_dt s)
    (latest_type s) (latest_fraction_len s) (delta s) (updated_count s)
    (elapsed_ms s) (written s).

Definition set_latest (e : found) (s : FixtureUpdater) : FixtureUpdater :=
  mkupdater (target_latest_dt s) (data s) (found_dates s) (Some (f_dt e))
    (Some (f_type e)) (f_fraction_len e) (delta s) (updated_count s)
    (elapsed_ms s) (written s).

Definition set_delta (v : timedelta) (s : FixtureUpdater) : FixtureUpdater :=
  mkupdater (target_latest_dt s) (data s) (found_dates s) (latest_dt s)
    (latest_type s) (latest_fraction_len s) (Some v) (updated_count s)
    (elapsed_ms s) (written s).

Definition set_updated_count (v : nat) (s : FixtureUpdater) : FixtureUpdater :=
  mkupdater (target_latest_dt s) (data s) (found_dates s) (latest_dt s)
    (latest_type s) (latest_fraction_len s) (delta s) v
    (elapsed_ms s) (written s).

Definition set_elapsed_ms (v : Z) (s : FixtureUpdater) : FixtureUpdater :=
  mkupdater (target_latest_dt s) (data s) (found_dates s) (latest_dt s)
    (latest_type s) (latest_fraction_len s) (delta s) (updated_count s)
    v (written s).

Definition set_written (v : json) (s : FixtureUpdater) : FixtureUpdater :=
  mkupdater (target_latest_dt s) (data s) (found_dates s) (latest_dt s)
    (latest_type s) (latest_fraction_len s) (delta s) (updated_count s)
    (elapsed_ms s) (Some v).

(** A method: from the state of the object to a value or a raised
    exception, and the state left behind. *)
Definition M (A : Type) : Type := FixtureUpdater -> result A * FixtureUpdater.

Definition ret {A : Type} (a : A) : M A := fun s => (Ok a, s).

Definition raise {A : Type} (e : exn) : M A := fun s => (Raise e, s).

Definition bind {A B : Type} (m : M A) (k : A -> M B) : M B :=
  fun s =>
    match m s with
    | (Ok a, s') => k a s'
    | (Raise e, s') => (Raise e, s')
    end.

Definition lift {A : Type} (r : result A) : M A := fun s => (r, s).

Definition gets {A : Type} (f : FixtureUpdater -> A) : M A := fun s => (Ok (f s), s).

Definition modify (f : FixtureUpdater -> FixtureUpdater) : M unit :=
  fun s => (Ok tt, f s).

Notation "x <- m ;; k" := (bind m (fun x => k))
  (at level 61, m at next level, right associativity).

Notation "m ;;; k" := (bind m (fun _ => k))
  (at level 61, right associativity).

(** A [for] loop. *)
Fixpoint for_each {A : Type} (l : list A) (body : A -> M unit) : M unit :=
  match l with
  | [] => ret tt
  | x :: l' => body x ;;; for_each l' body
  end.

(** [enumerate(l)], counting from [idx]. *)
Fixpoint enumerate_from {A : Type} (idx : nat) (l : list A) : list (nat * A) :=
  match l with
  | [] => []
  | x :: l' => (idx, x) :: enumerate_from (S idx) l'
  end.

(** [str(n)] *)
Definition str_of_nat (n : nat) : string :=
  NilZero.string_of_uint (Nat.to_uint n).

Definition quote : string := String "034"%char EmptyString.

Definition msg_not_array : string :=
  "Fixture JSON must be an array at the top level.".

Definition msg_not_object (idx : nat) : string :=
  "Fixture item at index " ++ str_of_nat idx ++ " is not an object.".

Definition msg_no_fields (idx : nat) : string :=
  "Fixture item at index " ++ str_of_nat idx ++ " is missing a valid "
  ++ quote ++ "fields" ++ quote ++ " object.".

(** [item.get("fields")] on a [dict]. *)
Definition get_fields (entries : list (string * json)) : json :=
  match dict_get "fields" entries with
  | Some v => v
  | None => JNull
  end.

(** An item as the input format wants it: an object whose [fields] key
    holds an object. *)
Definition well_formed_item (item : json) : bool :=
  match item with
  | JDict entries =>
      match dict_get "fields" entries with
      | Some (JDict _) => true
      | _ => false
      end
  | _ => false
  end.

(** The checks of [load_fixture] on one item. *)
Definition check_item (idx : nat) (item : json) : result unit :=
  match item with
  | JDict entries =>
      if is_dict (get_fields entries) then Ok tt
      else Raise (TypeError (msg_no_fields idx))
  | _ => Raise (TypeError (msg_not_object idx))
  end.

Fixpoint check_items (l : list (nat * json)) : result unit :=
  match l with
  | [] => Ok tt
  | (idx, item) :: l' => let? _ := check_item idx item in check_items l'
  end.

(** [load_fixture]; [fixture] is what
    [json.loads(self.fixture_path.read_text())] gives. *)
Definition load_fixture (fixture : result json) : M unit :=
  loaded <- lift fixture ;;
  match loaded with
  | JList items =>
      lift (check_items (enumerate_from 0 items)) ;;;
      modify (set_data loaded)
  | _ => raise (TypeError msg_not_array)
  end.

(** The body of the inner loop of [collect_dates]. *)
Definition collect_node (n : node) : M unit :=
  let '(container, key, item) := n in
  parsed <- lift (parse_utc_timestamp item) ;;
  match parsed with
  | Some (dt, value_type, fraction_len) =>
      modify (fun s =>
        set_found_dates
          (found_dates s ++ [mkfound container key dt value_type fraction_len])%list
          s)
  | None => ret tt
  end.

(** The body of the outer loop: [obj] is [self.data[idx]]. *)
Definition collect_object (entry : nat * json) : M unit :=
  let '(idx, obj) := entry in
  fields <- lift (getitem obj (KStr "fields")) ;;
  for_each (iter_string_nodes [KIdx idx; KStr "fields"] fields) collect_node.

(** The objects [for obj in self.data] goes through. *)
Definition objects (d : json) : result (list (nat * json)) :=
  match d with
  | JList items => Ok (enumerate_from 0 items)
  | _ => Raise not_subscriptable
  end.

Definition collect_dates : M unit :=
  d <- gets data ;;
  objs <- lift (objects d) ;;
  for_each objs collect_object.

(** The place in the tree an element of [found_dates] names. *)
Definition location (e : found) : path := (f_container e ++ [f_key e])%list.

(** The place of a node the scan yields: its container followed by its
    key. *)
Definition node_place (n : node) : path := (fst (fst n) ++ [snd (fst n)])%list.

(** An element of [found_dates] that records a string leaf of [root] and
    what that string parses to. *)
Definition recorded (root : json) (e : found) : Prop :=
  exists item,
    get_at (location e) root = Ok (JStr item)
    /\ parse_utc_timestamp item
       = Ok (Some (f_dt e, f_type e, f_fraction_len e)).

(** An element of [found_dates] whose container is under the [fields] of
    an item. *)
Definition under_fields (e : found) : Prop :=
  exists idx rel, f_container e = ([KIdx idx; KStr "fields"] ++ rel)%list.

(** An element recorded from one of the nodes [ns]. *)
Definition from_nodes (ns : list node) (e : found) : Prop :=
  exists item,
    In (f_container e, f_key e, item) ns
    /\ parse_utc_timestamp item = Ok (Some (f_dt e, f_type e, f_fraction_len e)).

(** Elements that name the same place carry the same datetime, shape and
    fraction length. *)
Definition coherent (l : list found) : Prop :=
  forall e e', In e l -> In e' l -> location e = location e' ->
    f_dt e = f_dt e' /\ f_type e = f_type e'
    /\ f_fraction_len e = f_fraction_len e'.

(** The instant an element of [found_dates] was parsed to, in
    microseconds. *)
Definition instant (e : found) : Z := to_micros (f_dt e).

(** [max(l, key=itemgetter(2))]: a later element replaces the current
    maximum only when it is strictly greater. *)
Fixpoint max_from (best : found) (l : list found) : found :=
  match l with
  | [] => best
  | x :: l' => max_from (if dt_gt (f_dt x) (f_dt best) then x else best) l'
  end.

Definition max_by_dt (l : list found) : result found :=
  match l with
  | [] => Raise ValueError
  | x :: l' => Ok (max_from x l')
  end.

(** [target_latest_dt or datetime.now(UTC)]: the target given, or else
    the reading of the clock. *)
Definition target_of (target : option datetime) (now : datetime) : datetime :=
  match target with
  | Some t => t
  | None => now
  end.

(** [compute_shift]; [now] is what [datetime.now(UTC)] gives when it is
    called. *)
Definition compute_shift (now : datetime) : M unit :=
  l <- gets found_dates ;;
  latest <- lift (max_by_dt l) ;;
  modify (set_latest latest) ;;;
  t <- gets target_latest_dt ;;
  let target := target_of t now in
  modify (set_delta (dt_sub target (f_dt latest))).

(** The state of a fresh object after [load_fixture] and [collect_dates]
    have gone through: the tree loaded and the timestamps found. *)
Definition scanned (target : option datetime) (root : json) (l : list found)
  : FixtureUpdater :=
  set_found_dates l (set_data root (init target)).

(** The state after [compute_shift] as well. *)
Definition planned (target : option datetime) (now : datetime) (root : json)
    (x : found) (l : list found) : FixtureUpdater :=
  set_delta (dt_sub (target_of target now) (f_dt (max_from x l)))
    (set_latest (max_from x l) (scanned target root (x :: l))).

(** The state the loop of [apply_shift] leaves, the tree being [root']. *)
Definition applied (target : option datetime) (now : datetime) (root : json)
    (x : found) (l : list found) (root' : json) : FixtureUpdater :=
  set_data root' (planned target now root x l).

(** The state a whole run leaves. *)
Definition finished (target : option datetime) (now : datetime) (elapsed : Z)
    (root : json) (x : found) (l : list found) (root' : json) : FixtureUpdater :=
  set_elapsed_ms elapsed
    (set_written root'
       (set_updated_count (List.length (x :: l))
          (applied target now root x l root'))).

Section Platform.

Variable pad_year : bool.

(** The body of the loop of [apply_shift]. *)
Definition shift_one (d : timedelta) (e : found) : M unit :=
  shifted <- lift (dt_add (f_dt e) d) ;;
  let text := format_utc_timestamp pad_year shifted (f_type e) (f_fraction_len e) in
  root <- gets data ;;
  root' <- lift (set_at (f_container e) (f_key e) (JStr text) root) ;;
  modify (set_data root').

Definition apply_shift : M nat :=
  d <- gets delta ;;
  match d with
  | None => raise (RuntimeError "Cannot apply shift before computing delta.")
  | Some d =>
      l <- gets found_dates ;;
      for_each l (shift_one d) ;;;
      l <- gets found_dates ;;
      ret (List.length l)
  end.

(** [write_output]: the tree is serialised to [output_path]. *)
Definition write_output : M unit :=
  d <- gets data ;;
  modify (set_written d).

(** [run]; [elapsed] is the time the clock measures, in milliseconds. *)
Definition run (fixture : result json) (now : datetime) (elapsed : Z) : M unit :=
  load_fixture fixture ;;;
  collect_dates ;;;
  l <- gets found_dates ;;
  match l with
  | [] => modify (set_elapsed_ms elapsed)
  | _ =>
      compute_shift now ;;;
      n <- apply_shift ;;
      modify (set_updated_count n) ;;;
      write_output ;;;
      modify (set_elapsed_ms elapsed)
  end.

(** An argument of a logging call. *)
Inductive log_arg : Type :=
| ArgInt (n : Z)
| ArgStr (s : string)
| ArgDays (d : timedelta)
| ArgOutputPath.

(** A call of [logger.info]: the format and its arguments. *)
Definition log_record : Type := (string * list log_arg)%type.

Definition msg_no_changes : string :=
  "No matching UTC date strings found. No changes made.".

(** [report]: the calls of [logger.info] it makes, and how it ends. *)
Definition report (s : FixtureUpdater) : list log_record * result unit :=
  match latest_dt s, latest_type s, delta s with
  | Some latest, Some ty, Some d =>
      let logged :=
        [ ("Dates moved up by %.1f days", [ArgDays d]);
          ("Updated %d date value(s).", [ArgInt (Z.of_nat (updated_count s))]);
          ("Most recent original timestamp: %s",
           [ArgStr (format_utc_timestamp pad_year latest ty
                      (latest_fraction_len s))]) ] in
      match dt_add latest d with
      | Ok moved =>
          ((logged
            ++ [ ("New most recent timestamp:      %s",
                  [ArgStr (format_utc_timestamp pad_year moved ty
                             (latest_fraction_len s))]);
                 ("Wrote updated fixture to:       %s", [ArgOutputPath]);
                 ("Completed in %dms!", [ArgInt (elapsed_ms s)]) ])%list,
           Ok tt)
      | Raise e => (logged, Raise e)
      end
  | _, _, _ =>
      ([ (msg_no_changes, []);
         ("Completed in %dms!", [ArgInt (elapsed_ms s)]) ],
       Ok tt)
  end.

(** [main] after the arguments are parsed: [run], then [report]. *)
Definition main (target : option datetime) (fixture : result json)
    (now : datetime) (elapsed : Z)
  : list log_record * result unit * FixtureUpdater :=
  match run fixture now elapsed (init target) with
  | (Ok _, s) => (report s, s)
  | (Raise e, s) => (([], Raise e), s)
  end.

End Platform.

End Updater.

(* ================================================================== *)
(** * What the specification says, in the terms of the model *)

Module Spec.
Import PyStr Datetime Re Timestamp Shape Json Updater.

(** [parse], from the two shapes: a text of a shape denotes the instant
    of its fields, which the [datetime] constructor checks; any other text
    is not recognised. *)
Definition spec_parse (text : string) : result (option (datetime * pattern * nat)) :=
  if is_date_only text then
    if valid (text_instant text)
    then Ok (Some (text_instant text, DATE_FIELD_PATTERN, 0%nat))
    else Raise ValueError
  else if is_datetime text then
    if valid (text_instant text)
    then Ok (Some (text_instant text, DATETIME_FIELD_PATTERN,
                   len (text_fraction text)))
    else Raise ValueError
  else Ok None.

(** The shape of a supported text. *)
Definition shape_of (text : string) : pattern :=
  if is_date_only text then DATE_FIELD_PATTERN else DATETIME_FIELD_PATTERN.

(** The fraction length a rendering can be parsed back to: none for a
    date. *)
Definition shown_fraction_len (value_type : pattern) (fraction_len : nat) : nat :=
  match value_type with
  | DATE_FIELD_PATTERN => 0%nat
  | DATETIME_FIELD_PATTERN => fraction_len
  end.

(** A rendering in the given shape shows the whole of the instant. *)
Definition shown_in_full (t : datetime) (value_type : pattern) (fraction_len : nat)
  : bool :=
  match value_type with
  | DATE_FIELD_PATTERN =>
      (hour t =? 0) && (minute t =? 0) && (second t =? 0) && (microsecond t =? 0)
  | DATETIME_FIELD_PATTERN =>
      microsecond t mod 10 ^ Z.of_nat (6 - fraction_len) =? 0
  end.

(** The unit below which a rendering in the given shape shows nothing, in
    microseconds: a day for a date, the last fractional digit shown for a
    datetime. *)
Definition shown_unit (value_type : pattern) (fraction_len : nat) : Z :=
  match value_type with
  | DATE_FIELD_PATTERN => US_PER_DAY
  | DATETIME_FIELD_PATTERN => 10 ^ Z.of_nat (6 - fraction_len)
  end.

(** [strftime] writes the year of [t] with four digits. *)
Definition four_digit_year (pad_year : bool) (t : datetime) : bool :=
  pad_year || (1000 <=? year t).

(** A string that matches neither pattern. *)
Definition matches_neither (s : string) : bool :=
  match match_datetime s, match_date s with
  | None, None => true
  | _, _ => false
  end.

(** A value the run has no reason to change: a string that matches
    neither pattern, or a value that is neither a string nor a
    container. *)
Definition not_a_timestamp (v : json) : bool :=
  match v with
  | JStr s => matches_neither s
  | JList _ | JDict _ => false
  | _ => true
  end.

(** [m] is the greatest of the instants of [l]. *)
Definition greatest_instant (l : list found) (m : Z) : Prop :=
  (exists e, In e l /\ instant e = m) /\ (forall e, In e l -> instant e <= m).

(** What [report] logs when nothing was found. *)
Definition no_changes_report (elapsed : Z) : list log_record :=
  [ (msg_no_changes, []); ("Completed in %dms!", [ArgInt elapsed]) ].

(** The message of the structural error for the item at [idx]. *)
Definition item_error (idx : nat) (item : json) : string :=
  if is_dict item then msg_no_fields idx else msg_not_object idx.

End Spec.

(* ================================================================== *)
(** * Sample fixtures *)

Module Samples.
Import Datetime Re Json Updater.

Definition sample_now : datetime := mkdt 2024 6 1 0 0 0 0.

(** One object, with a datetime, a plain string, and a list holding a
    date and an object with a datetime of three fractional digits. *)
Definition sample_items : list json :=
  [ JDict
      [ ("model", JStr "app.thing");
        ("pk", JInt 1);
        ("fields",
         JDict
           [ ("created", JStr "2023-01-01T00:00:00Z");
             ("name", JStr "x");
             ("tags",
              JList
                [ JStr "2023-01-01";
                  JInt 3;
                  JDict [("when", JStr "2022-12-31T23:59:59.250Z")] ]) ]) ] ].


(** A second item that is no object. *)
Definition sample_bad_items : list json :=
  [ JDict [ ("fields", JDict []) ]; JInt 3 ].

Definition sample_found (t : datetime) : found :=
  mkfound [KIdx 0; KStr "fields"] (KStr "at") t DATE_FIELD_PATTERN 0.

Definition sample_found_dates : list found :=
  [ sample_found (mkdt 2023 1 1 0 0 0 0); sample_found (mkdt 2023 1 3 0 0 0 0) ].

End Samples.

(* ================================================================== *)
(** * Facts about the model *)

Module PyStrFacts.

Import PyStr.

Lemma append_assoc (a b c : string) : (a ++ b) ++ c = a ++ (b ++ c).
Proof. induction a as [|x a IH]; simpl; [reflexivity | now rewrite IH]. Qed.

Lemma append_nil_r (a : string) : a ++ EmptyString = a.
Proof. induction a as [|x a IH]; simpl; [reflexivity | now rewrite IH]. Qed.

Lemma len_append (a b : string) : len (a ++ b) = (len a + len b)%nat.
Proof. induction a as [|x a IH]; simpl; [reflexivity | now rewrite <- IH]. Qed.

Lemma take_append_exact (a b : string) : take (len a) (a ++ b) = a.
Proof. induction a as [|x a IH]; simpl; [now destruct b | now rewrite IH]. Qed.

Lemma take_all (n : nat) (s : string) : (len s <= n)%nat -> take n s = s.
Proof.
  revert n; induction s as [|c r IH]; intros [|n] H; simpl in *;
    try reflexivity; try lia.
  rewrite IH; [reflexivity | lia].
Qed.

Lemma take_append_more (n : nat) (a b : string) :
  take (len a + n) (a ++ b) = a ++ take n b.
Proof. induction a as [|x a IH]; simpl; [reflexivity | now rewrite IH]. Qed.

Lemma len_take (n : nat) (s : string) : len (take n s) = Nat.min n (len s).
Proof.
  revert s; induction n as [|n IH]; intros [|c r]; simpl; try reflexivity.
  now rewrite <- IH.
Qed.

Lemma all_digits_append (a b : string) :
  all_digits (a ++ b) = all_digits a && all_digits b.
Proof.
  induction a as [|x a IH]; simpl; [reflexivity|].
  now rewrite IH, andb_assoc.
Qed.

Lemma all_digits_take (n : nat) (s : string) :
  all_digits s = true -> all_digits (take n s) = true.
Proof.
  revert s; induction n as [|n IH]; intros [|c r]; simpl; try reflexivity.
  intros H; apply andb_true_iff in H as [Hc Hr].
  now rewrite Hc, IH.
Qed.

Lemma is_digit_range (c : ascii) :
  is_digit c = true <-> 0 <= digit_val c <= 9.
Proof.
  unfold is_digit, digit_val.
  rewrite andb_true_iff, !Z.leb_le. lia.
Qed.

Lemma digit_char_val (c : ascii) : is_digit c = true -> digit_char (digit_val c) = c.
Proof.
  intros H; apply is_digit_range in H.
  unfold digit_char, digit_val in *.
  replace (48 + (code c - 48)) with (code c) by lia.
  unfold code. now rewrite N2Z.id, ascii_N_embedding.
Qed.

Lemma digit_val_char (d : Z) : 0 <= d <= 9 -> digit_val (digit_char d) = d.
Proof.
  intros H. unfold digit_val, digit_char, code.
  rewrite N_ascii_embedding; lia.
Qed.

Lemma is_digit_char (d : Z) : 0 <= d <= 9 -> is_digit (digit_char d) = true.
Proof.
  intros H. apply is_digit_range. now rewrite digit_val_char.
Qed.

Lemma int_acc_shift (s : string) (acc : Z) :
  int_acc acc s = acc * 10 ^ Z.of_nat (len s) + int_of_digits s.
Proof.
  unfold int_of_digits. revert acc.
  induction s as [|c r IH]; intros acc; simpl len.
  - simpl. lia.
  - cbn [int_acc]. rewrite IH, (IH (0 * 10 + digit_val c)).
    rewrite Nat2Z.inj_succ, Z.pow_succ_r by lia. ring.
Qed.

Lemma int_of_digits_cons (c : ascii) (r : string) :
  int_of_digits (String c r) = digit_val c * 10 ^ Z.of_nat (len r) + int_of_digits r.
Proof.
  unfold int_of_digits at 1. cbn [int_acc]. rewrite int_acc_shift. ring.
Qed.

Lemma int_of_digits_append (a b : string) :
  int_of_digits (a ++ b) = int_of_digits a * 10 ^ Z.of_nat (len b) + int_of_digits b.
Proof.
  induction a as [|x a IH]; simpl append.
  - unfold int_of_digits at 2. simpl. lia.
  - rewrite !int_of_digits_cons, IH, len_append, Nat2Z.inj_add, Z.pow_add_r by lia.
    ring.
Qed.

Lemma int_of_digits_bound (s : string) :
  all_digits s = true -> 0 <= int_of_digits s < 10 ^ Z.of_nat (len s).
Proof.
  induction s as [|c r IH]; intros H.
  - unfold int_of_digits; simpl. lia.
  - simpl in H. apply andb_true_iff in H as [Hc Hr].
    apply is_digit_range in Hc. specialize (IH Hr).
    rewrite int_of_digits_cons. simpl len.
    rewrite Nat2Z.inj_succ, Z.pow_succ_r by lia. nia.
Qed.

Lemma zpad_len (w : nat) (n : Z) : len (zpad w n) = w.
Proof. induction w as [|w IH]; simpl; [reflexivity | now rewrite <- IH at 2]. Qed.

Lemma zpad_all_digits (w : nat) (n : Z) : all_digits (zpad w n) = true.
Proof.
  induction w as [|w IH]; simpl; [reflexivity|].
  rewrite IH, andb_true_r. apply is_digit_char.
  pose proof (Z.mod_pos_bound (n / 10 ^ Z.of_nat w) 10). lia.
Qed.

Lemma zpad_drop_high (w : nat) (a n : Z) :
  zpad w (a * 10 ^ Z.of_nat w + n) = zpad w n.
Proof.
  revert a; induction w as [|w IH]; intros a; [reflexivity|].
  cbn [zpad]. f_equal.
  - f_equal.
    rewrite Nat2Z.inj_succ, Z.pow_succ_r by lia.
    replace (a * (10 * 10 ^ Z.of_nat w) + n)
      with (n + (a * 10) * 10 ^ Z.of_nat w) by ring.
    rewrite Z.div_add by (apply Z.pow_nonzero; lia).
    rewrite Z.add_mod, Z.mod_mul, Z.add_0_r, Z.mod_mod by lia. reflexivity.
  - rewrite Nat2Z.inj_succ, Z.pow_succ_r by lia.
    replace (a * (10 * 10 ^ Z.of_nat w) + n)
      with ((a * 10) * 10 ^ Z.of_nat w + n) by ring.
    apply IH.
Qed.

Lemma zpad_int_of_digits (s : string) :
  all_digits s = true -> zpad (len s) (int_of_digits s) = s.
Proof.
  induction s as [|c r IH]; intros H; [reflexivity|].
  simpl in H. apply andb_true_iff in H as [Hc Hr].
  pose proof (int_of_digits_bound r Hr) as Hb.
  pose proof (proj1 (is_digit_range c) Hc) as Hd.
  simpl len. cbn [zpad]. rewrite int_of_digits_cons.
  f_equal.
  - replace (digit_val c * 10 ^ Z.of_nat (len r) + int_of_digits r)
      with (int_of_digits r + digit_val c * 10 ^ Z.of_nat (len r)) by ring.
    rewrite Z.div_add by (apply Z.pow_nonzero; lia).
    rewrite Z.div_small by lia. rewrite Z.add_0_l, Z.mod_small by lia.
    now apply digit_char_val.
  - rewrite zpad_drop_high. now apply IH.
Qed.

Lemma int_of_digits_zpad (w : nat) (n : Z) :
  0 <= n -> int_of_digits (zpad w n) = n mod 10 ^ Z.of_nat w.
Proof.
  intros Hn. induction w as [|w IH].
  - unfold int_of_digits; simpl. now rewrite Z.mod_1_r.
  - cbn [zpad]. rewrite int_of_digits_cons, zpad_len, IH.
    rewrite digit_val_char
      by (pose proof (Z.mod_pos_bound (n / 10 ^ Z.of_nat w) 10); lia).
    rewrite Nat2Z.inj_succ, Z.pow_succ_r by lia.
    assert (Hp : 0 < 10 ^ Z.of_nat w) by (apply Z.pow_pos_nonneg; lia).
    rewrite (Z.mul_comm 10), Z.rem_mul_r by lia. ring.
Qed.

Lemma int_of_digits_zpad_small (w : nat) (n : Z) :
  0 <= n < 10 ^ Z.of_nat w -> int_of_digits (zpad w n) = n.
Proof.
  intros H. rewrite int_of_digits_zpad by lia. apply Z.mod_small; lia.
Qed.

End PyStrFacts.

Module CalendarFacts.

Import PyStr Calendar.

Import PyStrFacts.

Lemma valid_date_iff (y m d : Z) :
  valid_date y m d = true <->
  1 <= y <= 9999 /\ 1 <= m <= 12 /\ 1 <= d <= days_in_month y m.
Proof.
  unfold valid_date, MINYEAR, MAXYEAR.
  rewrite !andb_true_iff, !Z.leb_le. tauto.
Qed.

Ltac split_month m :=
  let H := fresh in
  assert (H : m = 1 \/ m = 2 \/ m = 3 \/ m = 4 \/ m = 5 \/ m = 6 \/
              m = 7 \/ m = 8 \/ m = 9 \/ m = 10 \/ m = 11 \/ m = 12) by lia;
  repeat (destruct H as [H | H]; [subst m | ]); [.. | subst m].

Ltac months_compute :=
  cbv [dim_of dbm_of DAYS_IN_MONTH DAYS_BEFORE_MONTH b2z
       Z.eqb Z.gtb Z.compare Pos.eqb Pos.compare Pos.compare_cont
       andb orb negb].

Lemma is_leap_spec (y : Z) :
  is_leap y = true <-> (y mod 4 = 0 /\ (y mod 100 <> 0 \/ y mod 400 = 0)).
Proof.
  unfold is_leap.
  rewrite andb_true_iff, orb_true_iff, negb_true_iff, !Z.eqb_eq, Z.eqb_neq.
  tauto.
Qed.

Lemma days_before_year_succ (y : Z) :
  days_before_year (y + 1) = days_before_year y + 365 + b2z (is_leap y).
Proof.
  unfold days_before_year, b2z.
  destruct (is_leap y) eqn:L.
  - apply is_leap_spec in L. Z.div_mod_to_equations. lia.
  - assert (N : ~ (y mod 4 = 0 /\ (y mod 100 <> 0 \/ y mod 400 = 0)))
      by (rewrite <- is_leap_spec, L; discriminate).
    Z.div_mod_to_equations. lia.
Qed.

Lemma days_before_year_mono (y y' : Z) :
  y <= y' -> days_before_year y <= days_before_year y'.
Proof.
  intros H. pattern y'. apply Z.le_ind with (n := y); try assumption.
  - intros a b ->. reflexivity.
  - lia.
  - intros z _ IH. rewrite <- Z.add_1_r, days_before_year_succ.
    unfold b2z. destruct (is_leap z); lia.
Qed.

Lemma day_of_year_bounds (leap : bool) (m d : Z) :
  1 <= m <= 12 -> 1 <= d <= dim_of leap m ->
  1 <= dbm_of leap m + d <= 365 + b2z leap.
Proof.
  intros Hm. split_month m; destruct leap; months_compute; lia.
Qed.

Lemma day_of_year_lt (leap : bool) (m d m' d' : Z) :
  1 <= m <= 12 -> 1 <= m' <= 12 ->
  1 <= d <= dim_of leap m -> 1 <= d' <= dim_of leap m' ->
  m < m' -> dbm_of leap m + d < dbm_of leap m' + d'.
Proof.
  intros Hm Hm'.
  split_month m; split_month m'; destruct leap; months_compute; lia.
Qed.

Lemma ymd2ord_lt (y m d y' m' d' : Z) :
  valid_date y m d = true -> valid_date y' m' d' = true ->
  ymd_lt (y, m, d) (y', m', d') -> ymd2ord y m d < ymd2ord y' m' d'.
Proof.
  rewrite !valid_date_iff. unfold days_in_month, ymd2ord, days_before_month.
  intros (Hy & Hm & Hd) (Hy' & Hm' & Hd') [L | [-> [L | [-> L]]]].
  - pose proof (day_of_year_bounds _ _ _ Hm Hd).
    pose proof (day_of_year_bounds _ _ _ Hm' Hd').
    pose proof (days_before_year_succ y).
    pose proof (days_before_year_mono (y + 1) y'). lia.
  - pose proof (day_of_year_lt (is_leap y') m d m' d'). lia.
  - lia.
Qed.

Lemma ymd2ord_inj (y m d y' m' d' : Z) :
  valid_date y m d = true -> valid_date y' m' d' = true ->
  ymd2ord y m d = ymd2ord y' m' d' -> (y, m, d) = (y', m', d').
Proof.
  intros V V' E.
  destruct (Z.lt_trichotomy y y') as [L | [-> | L]].
  - pose proof (ymd2ord_lt _ _ _ _ _ _ V V' (or_introl L)). lia.
  - destruct (Z.lt_trichotomy m m') as [Lm | [-> | Lm]].
    + pose proof (ymd2ord_lt y' m d y' m' d' V V'
                    (or_intror (conj eq_refl (or_introl Lm)))). lia.
    + unfold ymd2ord in E. f_equal. lia.
    + pose proof (ymd2ord_lt y' m' d' y' m d V' V
                    (or_intror (conj eq_refl (or_introl Lm)))). lia.
  - pose proof (ymd2ord_lt _ _ _ _ _ _ V' V (or_introl L)). lia.
Qed.

Lemma ymd2ord_range (y m d : Z) :
  valid_date y m d = true -> 1 <= ymd2ord y m d <= MAXORDINAL.
Proof.
  intros V. pose proof V as V0. apply valid_date_iff in V0 as (Hy & Hm & Hd).
  unfold days_in_month in Hd.
  pose proof (day_of_year_bounds _ _ _ Hm Hd) as B.
  unfold ymd2ord, days_before_month, MAXORDINAL.
  pose proof (days_before_year_mono 1 y ltac:(lia)) as L1.
  pose proof (days_before_year_succ y) as S1.
  pose proof (days_before_year_mono (y + 1) 10000 ltac:(lia)) as L2.
  change (days_before_year 1) with 0 in L1.
  change (days_before_year 10000) with 3652059 in L2.
  lia.
Qed.

Lemma ord2md_ok_all (leap : bool) :
  forallb (fun k => ord2md_ok leap (Z.of_nat k))
          (seq 0 (if leap then 366 else 365)) = true.
Proof. destruct leap; vm_compute; reflexivity. Qed.

Lemma ord2md_spec (leap : bool) (n : Z) :
  0 <= n < 365 + b2z leap ->
  let '(m, d) := ord2md leap n in
  1 <= m <= 12 /\ 1 <= d <= dim_of leap m /\ dbm_of leap m + d = n + 1.
Proof.
  intros Hn.
  pose proof (ord2md_ok_all leap) as A.
  rewrite forallb_forall in A.
  specialize (A (Z.to_nat n)).
  rewrite Z2Nat.id in A by lia.
  assert (I : In (Z.to_nat n) (seq 0 (if leap then 366 else 365))).
  { apply in_seq. unfold b2z in Hn. destruct leap; lia. }
  specialize (A I). unfold ord2md_ok in A.
  destruct (ord2md leap n) as [m d].
  rewrite !andb_true_iff, !Z.leb_le, Z.eqb_eq in A. lia.
Qed.

Lemma days_before_year_decomp (a b c e : Z) :
  0 <= b <= 3 -> 0 <= c <= 24 -> 0 <= e <= 3 ->
  days_before_year (400 * a + 100 * b + 4 * c + e + 1)
  = 146097 * a + 36524 * b + 1461 * c + 365 * e.
Proof.
  intros Hb Hc He. unfold days_before_year. cbv zeta.
  replace (400 * a + 100 * b + 4 * c + e + 1 - 1)
    with (400 * a + 100 * b + 4 * c + e) by ring.
  assert (E4 : (400 * a + 100 * b + 4 * c + e) / 4 = 100 * a + 25 * b + c)
    by (Z.div_mod_to_equations; lia).
  assert (E100 : (400 * a + 100 * b + 4 * c + e) / 100 = 4 * a + b)
    by (Z.div_mod_to_equations; lia).
  assert (E400 : (400 * a + 100 * b + 4 * c + e) / 400 = a)
    by (Z.div_mod_to_equations; lia).
  rewrite E4, E100, E400. ring.
Qed.

Lemma is_leap_decomp (a b c e : Z) :
  0 <= b <= 3 -> 0 <= c <= 24 -> 0 <= e <= 3 ->
  is_leap (400 * a + 100 * b + 4 * c + e + 1)
  = (e =? 3) && (negb (c =? 24) || (b =? 3)).
Proof.
  intros Hb Hc He. apply eq_true_iff_eq.
  rewrite is_leap_spec.
  rewrite andb_true_iff, orb_true_iff, negb_true_iff, !Z.eqb_eq, Z.eqb_neq.
  Z.div_mod_to_equations. lia.
Qed.

(** [_ord2ymd] inverts [_ymd2ord] on every positive ordinal. *)
Lemma ord2ymd_spec (n : Z) :
  1 <= n ->
  let '(y, m, d) := ord2ymd n in
  1 <= y /\ 1 <= m <= 12 /\ 1 <= d <= days_in_month y m /\ ymd2ord y m d = n
  /\ (n <= MAXORDINAL -> y <= 9999).
Proof.
  intros Hn. unfold ord2ymd. cbv zeta.
  set (n0 := n - 1).
  set (a := n0 / 146097). set (r400 := n0 mod 146097).
  set (b := r400 / 36524). set (r100 := r400 mod 36524).
  set (c := r100 / 1461). set (r4 := r100 mod 1461).
  set (e := r4 / 365). set (r1 := r4 mod 365).
  assert (Ha : n0 = 146097 * a + r400 /\ 0 <= r400 < 146097)
    by (subst a r400; Z.div_mod_to_equations; lia).
  assert (Hb : r400 = 36524 * b + r100 /\ 0 <= r100 < 36524)
    by (subst b r100; Z.div_mod_to_equations; lia).
  assert (Hc : r100 = 1461 * c + r4 /\ 0 <= r4 < 1461)
    by (subst c r4; Z.div_mod_to_equations; lia).
  assert (He : r4 = 365 * e + r1 /\ 0 <= r1 < 365)
    by (subst e r1; Z.div_mod_to_equations; lia).
  assert (Ba : 0 <= a) by (subst a n0; Z.div_mod_to_equations; lia).
  clearbody a r400 b r100 c r4 e r1. subst n0.
  assert (Bb : 0 <= b <= 4) by lia.
  assert (Bc : 0 <= c <= 24) by lia.
  assert (Be : 0 <= e <= 4) by lia.
  unfold days_in_month, ymd2ord, days_before_month, MAXORDINAL.
  destruct ((e =? 4) || (b =? 4)) eqn:X.
  - apply orb_true_iff in X. rewrite !Z.eqb_eq in X.
    assert (Y : (b = 4 /\ c = 0 /\ e = 0 /\ r1 = 0)
                \/ (e = 4 /\ b <= 3 /\ c <= 23 /\ r1 = 0)) by lia.
    destruct Y as [(-> & -> & -> & ->) | (-> & Hb3 & Hc3 & ->)].
    + replace (a * 400 + 1 + 4 * 100 + 0 * 4 + 0 - 1)
        with (400 * a + 100 * 3 + 4 * 24 + 3 + 1) by ring.
      rewrite days_before_year_decomp, is_leap_decomp by lia.
      months_compute. lia.
    + replace (a * 400 + 1 + b * 100 + c * 4 + 4 - 1)
        with (400 * a + 100 * b + 4 * c + 3 + 1) by ring.
      rewrite days_before_year_decomp, is_leap_decomp by lia.
      replace (c =? 24) with false by (symmetry; apply Z.eqb_neq; lia).
      months_compute. lia.
  - apply orb_false_iff in X. rewrite !Z.eqb_neq in X.
    replace (a * 400 + 1 + b * 100 + c * 4 + e)
      with (400 * a + 100 * b + 4 * c + e + 1) by ring.
    set (leapyear := (e =? 3) && (negb (c =? 24) || (b =? 3))).
    assert (R : 0 <= r1 < 365 + b2z leapyear).
    { unfold b2z. destruct leapyear; lia. }
    pose proof (ord2md_spec leapyear r1 R) as M.
    destruct (ord2md leapyear r1) as [m d].
    rewrite days_before_year_decomp, is_leap_decomp by lia.
    fold leapyear. lia.
Qed.

Lemma ord2ymd_valid (n : Z) :
  1 <= n <= MAXORDINAL ->
  let '(y, m, d) := ord2ymd n in
  valid_date y m d = true /\ ymd2ord y m d = n.
Proof.
  intros Hn. pose proof (ord2ymd_spec n ltac:(lia)) as S.
  destruct (ord2ymd n) as [[y m] d].
  rewrite valid_date_iff. lia.
Qed.

Lemma ord2ymd_ymd2ord (y m d : Z) :
  valid_date y m d = true -> ord2ymd (ymd2ord y m d) = (y, m, d).
Proof.
  intros V. pose proof (ymd2ord_range _ _ _ V) as R.
  pose proof (ord2ymd_valid _ R) as S.
  destruct (ord2ymd (ymd2ord y m d)) as [[y' m'] d'].
  destruct S as [V' E]. now apply ymd2ord_inj.
Qed.

End CalendarFacts.

Module DatetimeFacts.

Import PyStr Calendar Datetime.

Import PyStrFacts CalendarFacts.

Lemma valid_iff (t : datetime) :
  valid t = true <->
  valid_date (year t) (month t) (day t) = true
  /\ 0 <= hour t <= 23 /\ 0 <= minute t <= 59 /\ 0 <= second t <= 59
  /\ 0 <= microsecond t <= 999999.
Proof.
  unfold valid. rewrite !andb_true_iff, !Z.leb_le. tauto.
Qed.

Lemma time_of_day_range (t : datetime) :
  valid t = true -> 0 <= time_of_day t < US_PER_DAY.
Proof.
  rewrite valid_iff. unfold time_of_day, US_PER_DAY. lia.
Qed.

Lemma toordinal_range (t : datetime) :
  valid t = true -> 1 <= toordinal t <= MAXORDINAL.
Proof.
  rewrite valid_iff. intros [V _]. now apply ymd2ord_range.
Qed.

Lemma to_micros_days (t : datetime) :
  valid t = true ->
  to_micros t / US_PER_DAY = toordinal t
  /\ to_micros t mod US_PER_DAY = time_of_day t.
Proof.
  intros V. pose proof (time_of_day_range t V) as R.
  unfold to_micros, US_PER_DAY in *.
  Z.div_mod_to_equations. lia.
Qed.

Lemma make_ok (y m d hh mm ss us : Z) (t : datetime) :
  make y m d hh mm ss us = Ok t ->
  t = mkdt y m d hh mm ss us /\ valid t = true.
Proof.
  unfold make. destruct (valid (mkdt y m d hh mm ss us)) eqn:V; intros E;
    inversion E; subst; auto.
Qed.

(** A sum that does not overflow is a datetime at the shifted instant. *)
Lemma dt_add_ok (t : datetime) (delta : timedelta) (r : datetime) :
  dt_add t delta = Ok r ->
  valid r = true /\ to_micros r = to_micros t + delta.
Proof.
  unfold dt_add. cbv zeta.
  set (total := to_micros t + delta).
  destruct ((0 <? total / US_PER_DAY) && (total / US_PER_DAY <=? MAXORDINAL))
    eqn:G; [|discriminate].
  apply andb_true_iff in G as [G1 G2].
  apply Z.ltb_lt in G1. apply Z.leb_le in G2.
  pose proof (ord2ymd_valid (total / US_PER_DAY) ltac:(lia)) as S.
  destruct (ord2ymd (total / US_PER_DAY)) as [[y m] d].
  destruct S as [V E]. intros R. inversion R; subst r; clear R.
  assert (M : 0 <= total mod US_PER_DAY < US_PER_DAY)
    by (apply Z.mod_pos_bound; reflexivity).
  pose proof (Z.div_mod total US_PER_DAY ltac:(discriminate)) as D.
  split.
  - apply valid_iff. cbn [year month day hour minute second microsecond].
    split; [exact V|].
    unfold US_PER_DAY in *. Z.div_mod_to_equations. lia.
  - unfold to_micros, toordinal, time_of_day.
    cbn [year month day hour minute second microsecond].
    rewrite E. unfold US_PER_DAY in *. Z.div_mod_to_equations. lia.
Qed.

(** The overflow check of [dt_add], on the instant. *)
Lemma dt_add_defined (t : datetime) (delta : timedelta) :
  US_PER_DAY <= to_micros t + delta < (MAXORDINAL + 1) * US_PER_DAY ->
  exists r, dt_add t delta = Ok r.
Proof.
  intros H. unfold dt_add. cbv zeta.
  set (total := to_micros t + delta) in *.
  assert (G : (0 <? total / US_PER_DAY) && (total / US_PER_DAY <=? MAXORDINAL) = true).
  { apply andb_true_iff. rewrite Z.ltb_lt, Z.leb_le.
    unfold US_PER_DAY, MAXORDINAL in *. Z.div_mod_to_equations. lia. }
  rewrite G. destruct (ord2ymd (total / US_PER_DAY)) as [[y m] d]. eauto.
Qed.

Lemma to_micros_inj (a b : datetime) :
  valid a = true -> valid b = true -> to_micros a = to_micros b -> a = b.
Proof.
  intros Va Vb E.
  pose proof (to_micros_days a Va) as [Da Ta].
  pose proof (to_micros_days b Vb) as [Db Tb].
  rewrite E in Da, Ta. rewrite Da in Db. rewrite Ta in Tb.
  apply valid_iff in Va as (Va & Ha). apply valid_iff in Vb as (Vb & Hb).
  pose proof (ymd2ord_inj _ _ _ _ _ _ Va Vb Db) as I.
  destruct a, b. cbn in *. inversion I; subst.
  unfold time_of_day in Tb. cbn in Tb.
  assert (hour0 = hour1 /\ minute0 = minute1 /\ second0 = second1
          /\ microsecond0 = microsecond1) by lia.
  intuition congruence.
Qed.

(** Shifting the latest datetime by its distance to a target gives the
    target itself. *)
Lemma dt_add_sub (a target : datetime) :
  valid target = true -> dt_add a (dt_sub target a) = Ok target.
Proof.
  intros V.
  pose proof (toordinal_range _ V) as O.
  pose proof (time_of_day_range _ V) as T.
  destruct (dt_add_defined a (dt_sub target a)) as [r R].
  { unfold dt_sub. replace (to_micros a + (to_micros target - to_micros a))
      with (to_micros target) by ring.
    unfold to_micros, US_PER_DAY, MAXORDINAL in *. lia. }
  rewrite R. f_equal.
  apply dt_add_ok in R as [Vr E].
  apply to_micros_inj; trivial. unfold dt_sub in E. lia.
Qed.

Lemma dt_cmp_to_micros (a b : datetime) :
  valid a = true -> valid b = true ->
  dt_cmp a b = (to_micros a ?= to_micros b).
Proof.
  intros Va Vb.
  pose proof (time_of_day_range _ Va) as Ta.
  pose proof (time_of_day_range _ Vb) as Tb.
  apply valid_iff in Va as (Va & Ha). apply valid_iff in Vb as (Vb & Hb).
  assert (Dlt : forall x y, valid_date (year x) (month x) (day x) = true ->
                 valid_date (year y) (month y) (day y) = true ->
                 0 <= time_of_day x < US_PER_DAY ->
                 0 <= time_of_day y < US_PER_DAY ->
                 ymd_lt (year x, month x, day x) (year y, month y, day y) ->
                 to_micros x < to_micros y).
  { intros x y Vx Vy Tx Ty L.
    pose proof (ymd2ord_lt _ _ _ _ _ _ Vx Vy L).
    unfold to_micros, toordinal, US_PER_DAY in *. lia. }
  pose proof (Dlt a b Va Vb Ta Tb) as Lab.
  pose proof (Dlt b a Vb Va Tb Ta) as Lba.
  clear Dlt. unfold dt_cmp, lex, ymd_lt in *.
  destruct (Z.compare_spec (year a) (year b)) as [Ey | Ly | Ly];
    [ | symmetry; apply Z.compare_lt_iff; apply Lab; lia
      | symmetry; apply Z.compare_gt_iff; apply Lba; lia ].
  destruct (Z.compare_spec (month a) (month b)) as [Em | Lm | Lm];
    [ | symmetry; apply Z.compare_lt_iff; apply Lab; lia
      | symmetry; apply Z.compare_gt_iff; apply Lba; lia ].
  destruct (Z.compare_spec (day a) (day b)) as [Ed | Ld | Ld];
    [ | symmetry; apply Z.compare_lt_iff; apply Lab; lia
      | symmetry; apply Z.compare_gt_iff; apply Lba; lia ].
  clear Lab Lba.
  assert (O : toordinal a = toordinal b) by (unfold toordinal; congruence).
  unfold to_micros, time_of_day in *. rewrite O.
  destruct (Z.compare_spec (hour a) (hour b));
    [ | symmetry; apply Z.compare_lt_iff; lia
      | symmetry; apply Z.compare_gt_iff; lia ].
  destruct (Z.compare_spec (minute a) (minute b));
    [ | symmetry; apply Z.compare_lt_iff; lia
      | symmetry; apply Z.compare_gt_iff; lia ].
  destruct (Z.compare_spec (second a) (second b));
    [ | symmetry; apply Z.compare_lt_iff; lia
      | symmetry; apply Z.compare_gt_iff; lia ].
  destruct (Z.compare_spec (microsecond a) (microsecond b));
    symmetry;
    [ apply Z.compare_eq_iff | apply Z.compare_lt_iff | apply Z.compare_gt_iff ];
    lia.
Qed.

Lemma dt_gt_to_micros (a b : datetime) :
  valid a = true -> valid b = true ->
  dt_gt a b = (to_micros b <? to_micros a).
Proof.
  intros Va Vb. unfold dt_gt. rewrite dt_cmp_to_micros by assumption.
  unfold Z.ltb. rewrite (Z.compare_antisym (to_micros a) (to_micros b)).
  destruct (to_micros a ?= to_micros b); reflexivity.
Qed.

Lemma midnight_valid (t : datetime) : valid t = true -> valid (midnight t) = true.
Proof.
  rewrite !valid_iff. cbn. intuition lia.
Qed.

End DatetimeFacts.

Module ReFacts.

Import PyStr Calendar Datetime Re.

Import PyStrFacts CalendarFacts DatetimeFacts.

Lemma digits_app (n : nat) (a r : string) :
  len a = n -> all_digits a = true -> digits n (a ++ r) = Some (a, r).
Proof.
  unfold len. revert n; induction a as [|c a IH]; intros n L D; subst n;
    [reflexivity|].
  simpl in D. apply andb_true_iff in D as [Dc Da].
  simpl. rewrite Dc. now rewrite (IH _ eq_refl Da).
Qed.

Lemma digits_inv (n : nat) (s d r : string) :
  digits n s = Some (d, r) -> s = d ++ r /\ len d = n /\ all_digits d = true.
Proof.
  revert s d r; induction n as [|n IH]; intros s d r H; simpl in H.
  - inversion H; subst. auto.
  - destruct s as [|c s]; [discriminate|].
    destruct (is_digit c) eqn:Dc; [|discriminate].
    destruct (digits n s) as [[d' r']|] eqn:E; [|discriminate].
    inversion H; subst; clear H.
    destruct (IH _ _ _ E) as (-> & L & D).
    simpl. rewrite Dc, D. unfold len in *. auto.
Qed.

Lemma digits_upto_inv (n : nat) (s d r : string) :
  digits_upto n s = (d, r) ->
  s = d ++ r /\ (len d <= n)%nat /\ all_digits d = true.
Proof.
  revert s d r; induction n as [|n IH]; intros s d r H; simpl in H.
  - destruct s; inversion H; subst; simpl; auto.
  - destruct s as [|c s]; [inversion H; subst; simpl; auto with arith|].
    destruct (is_digit c) eqn:Dc.
    + destruct (digits_upto n s) as [d' r'] eqn:E.
      inversion H; subst; clear H.
      destruct (IH _ _ _ E) as (-> & L & D).
      simpl. rewrite Dc, D. unfold len in *. auto with arith.
    + inversion H; subst; simpl; auto with arith.
Qed.

Lemma digits_upto_app (n : nat) (a r : string) :
  (len a <= n)%nat -> all_digits a = true -> no_digit_ahead r = true ->
  digits_upto n (a ++ r) = (a, r).
Proof.
  revert n; induction a as [|c a IH]; intros n L D N.
  - destruct n; [now destruct r|].
    destruct r as [|c r]; [reflexivity|].
    simpl in N. apply negb_true_iff in N. simpl. now rewrite N.
  - simpl in D. apply andb_true_iff in D as [Dc Da].
    destruct n as [|n]; [simpl in L; lia|].
    simpl. rewrite Dc. rewrite IH; auto. simpl in L. unfold len in *. lia.
Qed.

Lemma lit_inv (c : ascii) (s r : string) : lit c s = Some r -> s = String c r.
Proof.
  destruct s as [|c' s]; simpl; [discriminate|].
  destruct (Ascii.eqb c c') eqn:E; [|discriminate].
  apply Ascii.eqb_eq in E. intros H; inversion H; now subst.
Qed.

Lemma lit_cons (c : ascii) (r : string) : lit c (String c r) = Some r.
Proof. simpl. now rewrite Ascii.eqb_refl. Qed.

Lemma at_end_inv (s : string) :
  at_end s = true -> s = EmptyString \/ s = String newline EmptyString.
Proof.
  destruct s as [|c [|c' s]]; simpl; auto; [|discriminate].
  intros H. apply Ascii.eqb_eq in H. subst. auto.
Qed.

Lemma numeral_iff (n : nat) (s : string) :
  numeral n s = true <-> len s = n /\ all_digits s = true.
Proof.
  unfold numeral. now rewrite andb_true_iff, Nat.eqb_eq.
Qed.

Lemma date_group_app (y m d r : string) :
  numeral 4 y = true -> numeral 2 m = true -> numeral 2 d = true ->
  date_group (date_text y m d ++ r) = Some (date_text y m d, r).
Proof.
  rewrite !numeral_iff. intros [Ly Dy] [Lm Dm] [Ld Dd].
  unfold date_group, date_text.
  rewrite ?append_assoc.
  rewrite (digits_app 4 y) by assumption. cbn [obind].
  change ("-" ++ ?x) with (String "-" x). rewrite lit_cons. cbn [obind].
  rewrite ?append_assoc.
  rewrite (digits_app 2 m) by assumption. cbn [obind].
  change ("-" ++ d ++ r) with (String "-" (d ++ r)). rewrite lit_cons. cbn [obind].
  rewrite (digits_app 2 d) by assumption. reflexivity.
Qed.

Lemma date_group_inv (s date r : string) :
  date_group s = Some (date, r) ->
  exists y m d, date = date_text y m d /\ s = date ++ r
    /\ numeral 4 y = true /\ numeral 2 m = true /\ numeral 2 d = true.
Proof.
  unfold date_group. intros H.
  destruct (digits 4 s) as [[y r1]|] eqn:E1; [|discriminate]. cbn [obind] in H.
  destruct (lit "-" r1) as [r2|] eqn:E2; [|discriminate]. cbn [obind] in H.
  destruct (digits 2 r2) as [[m r3]|] eqn:E3; [|discriminate]. cbn [obind] in H.
  destruct (lit "-" r3) as [r4|] eqn:E4; [|discriminate]. cbn [obind] in H.
  destruct (digits 2 r4) as [[d r5]|] eqn:E5; [|discriminate]. cbn [obind] in H.
  inversion H; subst; clear H.
  apply digits_inv in E1 as (-> & L1 & D1).
  apply lit_inv in E2 as ->.
  apply digits_inv in E3 as (-> & L3 & D3).
  apply lit_inv in E4 as ->.
  apply digits_inv in E5 as (-> & L5 & D5).
  exists y, m, d. rewrite !numeral_iff. unfold date_text.
  split; [reflexivity|]. split; [|auto].
  repeat (first [rewrite append_assoc | progress simpl]). reflexivity.
Qed.

Lemma time_group_app (hh mm ss r : string) :
  numeral 2 hh = true -> numeral 2 mm = true -> numeral 2 ss = true ->
  time_group (time_text hh mm ss ++ r) = Some (time_text hh mm ss, r).
Proof.
  rewrite !numeral_iff. intros [Lh Dh] [Lm Dm] [Ls Ds].
  unfold time_group, time_text.
  rewrite ?append_assoc.
  rewrite (digits_app 2 hh) by assumption. cbn [obind].
  change (":" ++ ?x) with (String ":" x). rewrite lit_cons. cbn [obind].
  rewrite ?append_assoc.
  rewrite (digits_app 2 mm) by assumption. cbn [obind].
  change (":" ++ ss ++ r) with (String ":" (ss ++ r)). rewrite lit_cons. cbn [obind].
  rewrite (digits_app 2 ss) by assumption. reflexivity.
Qed.

Lemma time_group_inv (s time r : string) :
  time_group s = Some (time, r) ->
  exists hh mm ss, time = time_text hh mm ss /\ s = time ++ r
    /\ numeral 2 hh = true /\ numeral 2 mm = true /\ numeral 2 ss = true.
Proof.
  unfold time_group. intros H.
  destruct (digits 2 s) as [[hh r1]|] eqn:E1; [|discriminate]. cbn [obind] in H.
  destruct (lit ":" r1) as [r2|] eqn:E2; [|discriminate]. cbn [obind] in H.
  destruct (digits 2 r2) as [[mm r3]|] eqn:E3; [|discriminate]. cbn [obind] in H.
  destruct (lit ":" r3) as [r4|] eqn:E4; [|discriminate]. cbn [obind] in H.
  destruct (digits 2 r4) as [[ss r5]|] eqn:E5; [|discriminate]. cbn [obind] in H.
  inversion H; subst; clear H.
  apply digits_inv in E1 as (-> & L1 & D1).
  apply lit_inv in E2 as ->.
  apply digits_inv in E3 as (-> & L3 & D3).
  apply lit_inv in E4 as ->.
  apply digits_inv in E5 as (-> & L5 & D5).
  exists hh, mm, ss. rewrite !numeral_iff. unfold time_text.
  split; [reflexivity|]. split; [|auto].
  repeat (first [rewrite append_assoc | progress simpl]). reflexivity.
Qed.

End ReFacts.

Module TimestampFacts.

Import PyStr Calendar Datetime Re Timestamp Shape.

Import PyStrFacts CalendarFacts DatetimeFacts ReFacts.

Ltac norm_text := rewrite ?append_assoc; cbn [append].
Ltac eat n a :=
  rewrite (digits_app n a) by (first [assumption | apply numeral_iff; assumption]);
  cbn [obind].
Ltac eat_lit := rewrite lit_cons; cbn [obind].

Lemma fromisoformat_text (y m d hh mm ss p : string) :
  numeral 4 y = true -> numeral 2 m = true -> numeral 2 d = true ->
  numeral 2 hh = true -> numeral 2 mm = true -> numeral 2 ss = true ->
  numeral 6 p = true ->
  fromisoformat (date_text y m d ++ "T" ++ time_text hh mm ss ++ "." ++ p ++ "+00:00")
  = make (int_of_digits y) (int_of_digits m) (int_of_digits d)
         (int_of_digits hh) (int_of_digits mm) (int_of_digits ss)
         (int_of_digits p).
Proof.
  rewrite !numeral_iff.
  intros [? ?] [? ?] [? ?] [? ?] [? ?] [? ?] [? ?].
  unfold fromisoformat, date_text, time_text. norm_text.
  eat 4%nat y. eat_lit. eat 2%nat m. eat_lit. eat 2%nat d. eat_lit.
  eat 2%nat hh. eat_lit. eat 2%nat mm. eat_lit. eat 2%nat ss. eat_lit.
  eat 6%nat p. reflexivity.
Qed.

Lemma fromisoformat_midnight (y m d : string) :
  numeral 4 y = true -> numeral 2 m = true -> numeral 2 d = true ->
  fromisoformat (date_text y m d ++ "T00:00:00+00:00")
  = make (int_of_digits y) (int_of_digits m) (int_of_digits d) 0 0 0 0.
Proof.
  rewrite !numeral_iff. intros [? ?] [? ?] [? ?].
  unfold fromisoformat, date_text. norm_text.
  eat 4%nat y. eat_lit. eat 2%nat m. eat_lit. eat 2%nat d. reflexivity.
Qed.

Lemma match_datetime_text (y m d hh mm ss f e : string) :
  numeral 4 y = true -> numeral 2 m = true -> numeral 2 d = true ->
  numeral 2 hh = true -> numeral 2 mm = true -> numeral 2 ss = true ->
  (len f <= 6)%nat -> all_digits f = true -> at_end e = true ->
  match_datetime (date_text y m d ++ "T" ++ time_text hh mm ss
                  ++ fraction_text f ++ "Z" ++ e)
  = Some (date_text y m d, time_text hh mm ss,
          match f with EmptyString => None | _ => Some f end).
Proof.
  intros Hy Hm Hd Hh Hmi Hs Lf Df He.
  unfold match_datetime.
  rewrite date_group_app by assumption. cbn [obind append].
  rewrite lit_cons. cbn [obind].
  rewrite time_group_app by assumption. cbn [obind].
  destruct f as [|c f].
  - cbn [fraction_text append lit]. cbn. unfold zulu_end. cbn [lit].
    cbn. now rewrite He.
  - cbn [fraction_text append]. rewrite lit_cons.
    change (String c (f ++ String "Z" e)) with (String c f ++ ("Z" ++ e)).
    rewrite digits_upto_app by (auto; reflexivity).
    unfold zulu_end. cbn. now rewrite He.
Qed.

Lemma match_date_text (y m d e : string) :
  numeral 4 y = true -> numeral 2 m = true -> numeral 2 d = true ->
  at_end e = true ->
  match_datetime (date_text y m d ++ e) = None
  /\ match_date (date_text y m d ++ e) = Some (date_text y m d).
Proof.
  intros Hy Hm Hd He. unfold match_datetime, match_date.
  rewrite date_group_app by assumption. cbn [obind].
  rewrite He. split; [|reflexivity].
  apply at_end_inv in He as [-> | ->]; reflexivity.
Qed.

Lemma parse_date_text (y m d e : string) :
  numeral 4 y = true -> numeral 2 m = true -> numeral 2 d = true ->
  at_end e = true ->
  parse_utc_timestamp (date_text y m d ++ e)
  = let? t := make (int_of_digits y) (int_of_digits m) (int_of_digits d) 0 0 0 0 in
    Ok (Some (t, DATE_FIELD_PATTERN, 0%nat)).
Proof.
  intros Hy Hm Hd He. unfold parse_utc_timestamp.
  destruct (match_date_text y m d e Hy Hm Hd He) as [-> ->].
  now rewrite fromisoformat_midnight.
Qed.

Lemma padded_fraction_numeral (f : string) :
  (len f <= 6)%nat -> all_digits f = true ->
  numeral 6 (take 6 (f ++ "000000")) = true.
Proof.
  intros L D. apply numeral_iff. split.
  - rewrite len_take, len_append. simpl len. lia.
  - apply all_digits_take. rewrite all_digits_append, D. reflexivity.
Qed.

Lemma parse_datetime_text (y m d hh mm ss f e : string) :
  numeral 4 y = true -> numeral 2 m = true -> numeral 2 d = true ->
  numeral 2 hh = true -> numeral 2 mm = true -> numeral 2 ss = true ->
  (len f <= 6)%nat -> all_digits f = true -> at_end e = true ->
  parse_utc_timestamp (date_text y m d ++ "T" ++ time_text hh mm ss
                       ++ fraction_text f ++ "Z" ++ e)
  = let? t := make (int_of_digits y) (int_of_digits m) (int_of_digits d)
                   (int_of_digits hh) (int_of_digits mm) (int_of_digits ss)
                   (int_of_digits (take 6 (f ++ "000000"))) in
    Ok (Some (t, DATETIME_FIELD_PATTERN, len f)).
Proof.
  intros Hy Hm Hd Hh Hmi Hs Lf Df He. unfold parse_utc_timestamp.
  rewrite match_datetime_text by assumption.
  pose proof (padded_fraction_numeral f Lf Df) as P.
  assert (F : (match match f with EmptyString => None | _ => Some f end with
               | Some f0 => f0 | None => EmptyString end) = f) by now destruct f.
  rewrite F.
  rewrite (fromisoformat_text y m d hh mm ss) by assumption.
  reflexivity.
Qed.

Ltac explode y L :=
  unfold len in L;
  repeat (destruct y as [|? y]; simpl in L;
          [try discriminate L | try discriminate L; try (injection L as L)]).

Ltac split_digits D :=
  cbn [all_digits] in D; repeat (apply andb_true_iff in D as [? D]).

Ltac use_digits :=
  repeat match goal with
         | H : is_digit ?c = true |- context [is_digit ?c] => rewrite H
         end.

Ltac explode_numeral H :=
  match type of H with
  | numeral _ ?y = true =>
      let L := fresh "L" in let D := fresh "D" in
      apply numeral_iff in H as [L D]; explode y L; split_digits D
  end.

Lemma matches_picture_cons (p : ascii) (picture : string) (c : ascii) (s : string) :
  matches_picture (String p picture) (String c s)
  = (if Ascii.eqb p "9" then is_digit c else Ascii.eqb p c)
    && matches_picture picture s.
Proof. reflexivity. Qed.

Ltac invert_picture H :=
  repeat match type of H with
         | matches_picture (String _ _) ?s = true =>
             destruct s as [|? s]; [discriminate H|];
             rewrite matches_picture_cons in H;
             let H1 := fresh "P" in
             apply andb_true_iff in H as [H1 H];
             match type of H1 with
             | (if Ascii.eqb ?p ?q then _ else _) = true =>
                 let b := eval vm_compute in (Ascii.eqb p q) in
                 change (Ascii.eqb p q) with b in H1; cbv iota in H1
             end;
             try (apply Ascii.eqb_eq in H1; subst)
         | matches_picture EmptyString ?s = true =>
             destruct s; [clear H | discriminate H]
         end.

Lemma digit_not_newline (c : ascii) :
  is_digit c = true -> Ascii.eqb c newline = false.
Proof.
  intros H. destruct (Ascii.eqb_spec c newline) as [-> | N]; [|reflexivity].
  discriminate H.
Qed.

Lemma date_only_components (s : string) :
  is_date_only s = true ->
  s = date_text (text_year s) (text_month s) (text_day s)
  /\ numeral 4 (text_year s) = true /\ numeral 2 (text_month s) = true
  /\ numeral 2 (text_day s) = true
  /\ text_hour s = EmptyString /\ text_minute s = EmptyString
  /\ text_second s = EmptyString /\ text_fraction s = EmptyString.
Proof.
  unfold is_date_only. intros H. invert_picture H.
  unfold numeral. cbn. use_digits. repeat split.
Qed.

Lemma datetime_components (s : string) :
  is_datetime s = true ->
  s = date_text (text_year s) (text_month s) (text_day s) ++ "T"
      ++ time_text (text_hour s) (text_minute s) (text_second s)
      ++ fraction_text (text_fraction s) ++ "Z"
  /\ numeral 4 (text_year s) = true /\ numeral 2 (text_month s) = true
  /\ numeral 2 (text_day s) = true /\ numeral 2 (text_hour s) = true
  /\ numeral 2 (text_minute s) = true /\ numeral 2 (text_second s) = true
  /\ (len (text_fraction s) <= 6)%nat /\ all_digits (text_fraction s) = true.
Proof.
  unfold is_datetime, datetime_pictures. cbn [existsb]. intros H.
  repeat (apply orb_true_iff in H as [H | H]); try discriminate H;
    invert_picture H; unfold numeral; cbn; use_digits; repeat split; lia.
Qed.

Lemma date_text_is_date_only (y m d : string) :
  numeral 4 y = true -> numeral 2 m = true -> numeral 2 d = true ->
  is_date_only (date_text y m d) = true
  /\ chomp (date_text y m d) = date_text y m d
  /\ chomp (date_text y m d ++ String newline EmptyString) = date_text y m d.
Proof.
  intros Hy Hm Hd.
  explode_numeral Hy. explode_numeral Hm. explode_numeral Hd.
  unfold is_date_only. cbn. use_digits.
  rewrite !digit_not_newline by assumption. repeat split.
Qed.

Lemma datetime_text_is_datetime (y m d hh mm ss f : string) :
  numeral 4 y = true -> numeral 2 m = true -> numeral 2 d = true ->
  numeral 2 hh = true -> numeral 2 mm = true -> numeral 2 ss = true ->
  (len f <= 6)%nat -> all_digits f = true ->
  let text := date_text y m d ++ "T" ++ time_text hh mm ss
              ++ fraction_text f ++ "Z" in
  is_datetime text = true
  /\ chomp text = text
  /\ chomp (text ++ String newline EmptyString) = text.
Proof.
  intros Hy Hm Hd Hh Hmi Hs Lf Df.
  explode_numeral Hy. explode_numeral Hm. explode_numeral Hd.
  explode_numeral Hh. explode_numeral Hmi. explode_numeral Hs.
  destruct f as [|f1 [|f2 [|f3 [|f4 [|f5 [|f6 [|f7 f]]]]]]];
    try (exfalso; simpl in Lf; lia);
    split_digits Df; unfold is_datetime; cbn; use_digits;
    rewrite ?digit_not_newline by assumption;
    rewrite ?andb_false_r; cbn [andb orb]; rewrite ?orb_true_r;
    repeat split.
Qed.

Lemma text_instant_date_only (s : string) :
  is_date_only s = true ->
  text_instant s
  = mkdt (int_of_digits (text_year s)) (int_of_digits (text_month s))
         (int_of_digits (text_day s)) 0 0 0 0.
Proof.
  intros H. apply date_only_components in H as (_ & _ & _ & _ & Eh & Em & Es & Ef).
  unfold text_instant. now rewrite Eh, Em, Es, Ef.
Qed.

(** The parse of a date-only text, possibly followed by a newline. *)
Lemma parse_date_only (s e : string) :
  is_date_only s = true -> at_end e = true ->
  parse_utc_timestamp (s ++ e)
  = if valid (text_instant s)
    then Ok (Some (text_instant s, DATE_FIELD_PATTERN, 0%nat))
    else Raise ValueError.
Proof.
  intros H He. rewrite (text_instant_date_only s H).
  apply date_only_components in H as (E & Hy & Hm & Hd & _).
  rewrite E at 1. rewrite parse_date_text by assumption.
  unfold make. now destruct (valid _).
Qed.

(** The parse of a datetime text, possibly followed by a newline. *)
Lemma parse_datetime (s e : string) :
  is_datetime s = true -> at_end e = true ->
  parse_utc_timestamp (s ++ e)
  = if valid (text_instant s)
    then Ok (Some (text_instant s, DATETIME_FIELD_PATTERN, len (text_fraction s)))
    else Raise ValueError.
Proof.
  intros H He.
  apply datetime_components in H as (E & Hy & Hm & Hd & Hh & Hmi & Hs & Lf & Df).
  rewrite E at 1. rewrite !append_assoc.
  rewrite parse_datetime_text by assumption.
  unfold make, text_instant. now destruct (valid _).
Qed.

Lemma match_date_inv (s date : string) :
  match_date s = Some date ->
  exists y m d e,
    s = date_text y m d ++ e /\ date = date_text y m d
    /\ numeral 4 y = true /\ numeral 2 m = true /\ numeral 2 d = true
    /\ at_end e = true.
Proof.
  unfold match_date. intros H.
  destruct (date_group s) as [[date' r]|] eqn:G; [|discriminate].
  cbn [obind] in H. destruct (at_end r) eqn:E; [|discriminate].
  inversion H; subst date'; clear H.
  apply date_group_inv in G as (y & m & d & -> & -> & Hy & Hm & Hd).
  exists y, m, d, r. repeat split; auto.
Qed.

Lemma zulu_end_inv (s : string) :
  zulu_end s = true -> exists e, s = "Z" ++ e /\ at_end e = true.
Proof.
  unfold zulu_end. destruct (lit "Z" s) as [r|] eqn:L; [|discriminate].
  apply lit_inv in L as ->. intros H. exists r. auto.
Qed.

Lemma match_datetime_inv (s date time : string) (fr : option string) :
  match_datetime s = Some (date, time, fr) ->
  exists y m d hh mm ss f e,
    s = date_text y m d ++ "T" ++ time_text hh mm ss
        ++ fraction_text f ++ "Z" ++ e
    /\ numeral 4 y = true /\ numeral 2 m = true /\ numeral 2 d = true
    /\ numeral 2 hh = true /\ numeral 2 mm = true /\ numeral 2 ss = true
    /\ (len f <= 6)%nat /\ all_digits f = true /\ at_end e = true.
Proof.
  unfold match_datetime. intros H.
  destruct (date_group s) as [[date' r]|] eqn:G; [|discriminate].
  cbn [obind] in H.
  destruct (lit "T" r) as [r1|] eqn:L1; [|discriminate]. cbn [obind] in H.
  destruct (time_group r1) as [[time' r2]|] eqn:T; [|discriminate].
  cbn [obind] in H.
  apply date_group_inv in G as (y & m & d & -> & -> & Hy & Hm & Hd).
  apply lit_inv in L1 as ->.
  apply time_group_inv in T as (hh & mm & ss & -> & -> & Hh & Hmi & Hs).
  exists y, m, d, hh, mm, ss.
  destruct (lit "." r2) as [r3|] eqn:L2.
  - apply lit_inv in L2 as ->.
    destruct (digits_upto 6 r3) as [f r4] eqn:U.
    apply digits_upto_inv in U as (-> & Lf & Df).
    destruct f as [|c f]; [discriminate|].
    destruct (zulu_end r4) eqn:Z; [|discriminate].
    apply zulu_end_inv in Z as (e & -> & He).
    exists (String c f), e. split; [|repeat split; auto].
    repeat (first [rewrite append_assoc | progress cbn [append fraction_text]]).
    reflexivity.
  - destruct (zulu_end r2) eqn:Z; [|discriminate].
    apply zulu_end_inv in Z as (e & -> & He).
    exists EmptyString, e. split; [|repeat split; auto; simpl; lia].
    repeat (first [rewrite append_assoc | progress cbn [append fraction_text]]).
    reflexivity.
Qed.

Lemma chomp_at_end (t e : string) :
  chomp t = t -> chomp (t ++ String newline EmptyString) = t ->
  at_end e = true -> chomp (t ++ e) = t.
Proof.
  intros H1 H2 He. apply at_end_inv in He as [-> | ->]; [|assumption].
  now rewrite append_nil_r.
Qed.

(** A text that is not of one of the two shapes, even without the newline
    that may end it, matches neither pattern. *)
Lemma parse_unsupported (s : string) :
  supported (chomp s) = false -> parse_utc_timestamp s = Ok None.
Proof.
  unfold supported. intros U. apply orb_false_iff in U as [U1 U2].
  unfold parse_utc_timestamp.
  destruct (match_datetime s) as [[[date time] fr]|] eqn:M.
  - exfalso.
    apply match_datetime_inv in M
      as (y & m & d & hh & mm & ss & f & e & -> & Hy & Hm & Hd & Hh & Hmi & Hs
          & Lf & Df & He).
    destruct (datetime_text_is_datetime y m d hh mm ss f Hy Hm Hd Hh Hmi Hs Lf Df)
      as (I & C1 & C2).
    set (text := date_text y m d ++ "T" ++ time_text hh mm ss
                 ++ fraction_text f ++ "Z") in *.
    assert (E : date_text y m d ++ "T" ++ time_text hh mm ss
                ++ fraction_text f ++ "Z" ++ e = text ++ e).
    { unfold text. now rewrite !append_assoc. }
    rewrite E, (chomp_at_end text e C1 C2 He), I in U2. discriminate.
  - destruct (match_date s) as [date|] eqn:M2; [|reflexivity].
    exfalso.
    apply match_date_inv in M2 as (y & m & d & e & -> & _ & Hy & Hm & Hd & He).
    destruct (date_text_is_date_only y m d Hy Hm Hd) as (I & C1 & C2).
    rewrite (chomp_at_end _ e C1 C2 He), I in U1. discriminate.
Qed.

Lemma fromisoformat_valid (s : string) (t : datetime) :
  fromisoformat s = Ok t -> valid t = true.
Proof.
  unfold fromisoformat.
  match goal with |- match ?f with _ => _ end = _ -> _ => destruct f as [p|] end;
    [|discriminate].
  destruct p as [[[[[[y m] d] hh] mm] ss] us].
  intros H. now apply make_ok in H as [_ V].
Qed.

Lemma parse_utc_timestamp_valid (s : string) (t : datetime) (ty : pattern)
    (fl : nat) :
  parse_utc_timestamp s = Ok (Some (t, ty, fl)) ->
  valid t = true /\ (fl <= 6)%nat.
Proof.
  unfold parse_utc_timestamp.
  destruct (match_datetime s) as [[[date time] fr]|] eqn:M.
  - destruct (fromisoformat _) as [t'|] eqn:F; [|discriminate].
    cbn [rbind]. intros H. inversion H; subst; clear H.
    split; [eapply fromisoformat_valid; eassumption|].
    unfold match_datetime in M.
    destruct (date_group s) as [[? ?]|]; [|discriminate]. cbn [obind] in M.
    destruct (lit "T" _) as [?|]; [|discriminate]. cbn [obind] in M.
    destruct (time_group _) as [[? ?]|]; [|discriminate]. cbn [obind] in M.
    destruct (lit "." _) as [?|].
    + destruct (digits_upto 6 _) as [f r] eqn:U.
      apply digits_upto_inv in U as (_ & L & _).
      destruct f; [discriminate|]. destruct (zulu_end r); [|discriminate].
      inversion M; subst. exact L.
    + destruct (zulu_end _); [|discriminate]. inversion M; subst. simpl. lia.
  - destruct (match_date s) as [date|]; [|discriminate].
    destruct (fromisoformat _) as [t'|] eqn:F; [|discriminate].
    cbn [rbind]. intros H. inversion H; subst; clear H.
    split; [eapply fromisoformat_valid; eassumption | lia].
Qed.

Lemma zpad_split (a b : nat) (n : Z) :
  zpad (a + b) n = zpad a (n / 10 ^ Z.of_nat b) ++ zpad b n.
Proof.
  induction a as [|a IH]; [reflexivity|].
  cbn [Nat.add zpad append]. rewrite IH. f_equal. f_equal.
  rewrite Nat2Z.inj_add, Z.pow_add_r by lia.
  rewrite Z.div_div by (try apply Z.pow_pos_nonneg; try apply Z.pow_nonzero; lia).
  now rewrite Z.mul_comm.
Qed.

Lemma take_zpad (k : nat) (n : Z) :
  (k <= 6)%nat -> take k (zpad 6 n) = zpad k (n / 10 ^ Z.of_nat (6 - k)).
Proof.
  intros L. replace 6%nat with (k + (6 - k))%nat at 1 by lia.
  rewrite zpad_split.
  rewrite <- (zpad_len k (n / 10 ^ Z.of_nat (6 - k))) at 1.
  apply take_append_exact.
Qed.

Lemma zeros_value (k : nat) : int_of_digits (take k "000000") = 0.
Proof.
  do 7 (destruct k as [|k]; [reflexivity|]). reflexivity.
Qed.

Lemma zeros_len (k : nat) : (k <= 6)%nat -> len (take k "000000") = k.
Proof. intros L. rewrite len_take. simpl len. lia. Qed.

Lemma strftime_Y_four (pad_year : bool) (y : Z) :
  pad_year = true \/ 1000 <= y -> strftime_Y pad_year y = zpad 4 y.
Proof.
  unfold strftime_Y. intros [-> | H]; [reflexivity|].
  destruct pad_year; [reflexivity|].
  destruct (y <? 10) eqn:A; [apply Z.ltb_lt in A; lia|].
  destruct (y <? 100) eqn:B; [apply Z.ltb_lt in B; lia|].
  destruct (y <? 1000) eqn:C; [apply Z.ltb_lt in C; lia|].
  reflexivity.
Qed.

Lemma zpad_numeral (w : nat) (s : string) :
  numeral w s = true -> zpad w (int_of_digits s) = s.
Proof.
  intros H. apply numeral_iff in H as [<- D]. now apply zpad_int_of_digits.
Qed.

Lemma padded_fraction_take (f : string) :
  (len f <= 6)%nat -> all_digits f = true ->
  take (len f) (zpad 6 (int_of_digits (take 6 (f ++ "000000")))) = f.
Proof.
  intros L D. rewrite zpad_numeral by now apply padded_fraction_numeral.
  replace 6%nat with (len f + (6 - len f))%nat at 1 by lia.
  rewrite take_append_more. apply take_append_exact.
Qed.

(** Rendering what a date-only text parses to gives the text back. *)
Lemma render_parsed_date (pad_year : bool) (s : string) (fl : nat) :
  is_date_only s = true ->
  format_utc_timestamp pad_year (text_instant s) DATE_FIELD_PATTERN fl = s.
Proof.
  intros H. rewrite (text_instant_date_only s H).
  apply date_only_components in H as (E & Hy & Hm & Hd & _).
  unfold format_utc_timestamp, isoformat_date.
  cbn [pattern_is year month day].
  rewrite !zpad_numeral by assumption. now rewrite E at 4.
Qed.

(** Rendering what a datetime text parses to gives the text back, where
    [strftime] writes the year with four digits. *)
Lemma render_parsed_datetime (pad_year : bool) (s : string) :
  is_datetime s = true ->
  pad_year = true \/ 1000 <= year (text_instant s) ->
  format_utc_timestamp pad_year (text_instant s) DATETIME_FIELD_PATTERN
    (len (text_fraction s)) = s.
Proof.
  intros H Y. unfold text_instant in *. cbn [year] in Y.
  apply datetime_components in H as (E & Hy & Hm & Hd & Hh & Hmi & Hs & Lf & Df).
  unfold format_utc_timestamp, strftime_base.
  cbn [pattern_is year month day hour minute second microsecond].
  revert E Hy Hm Hd Hh Hmi Hs Lf Df Y.
  generalize (text_year s), (text_month s), (text_day s), (text_hour s),
    (text_minute s), (text_second s), (text_fraction s).
  intros y m d hh mm ss f E Hy Hm Hd Hh Hmi Hs Lf Df Y. subst s.
  rewrite strftime_Y_four by assumption.
  rewrite !zpad_numeral by assumption.
  rewrite padded_fraction_take by assumption.
  unfold date_text, time_text.
  destruct f as [|c f];
    cbn [len String.length Nat.ltb Nat.leb fraction_text];
    repeat (first [rewrite append_assoc | progress cbn [append]]); reflexivity.
Qed.

Lemma numeral_zpad (w : nat) (n : Z) : numeral w (zpad w n) = true.
Proof.
  apply numeral_iff. split; [apply zpad_len | apply zpad_all_digits].
Qed.

Lemma days_in_month_le_31 (y m : Z) : 1 <= m <= 12 -> days_in_month y m <= 31.
Proof.
  intros Hm. unfold days_in_month.
  split_month m; destruct (is_leap y); months_compute; lia.
Qed.

Lemma valid_field_ranges (t : datetime) :
  valid t = true ->
  0 <= year t < 10 ^ Z.of_nat 4 /\ 0 <= month t < 10 ^ Z.of_nat 2
  /\ 0 <= day t < 10 ^ Z.of_nat 2 /\ 0 <= hour t < 10 ^ Z.of_nat 2
  /\ 0 <= minute t < 10 ^ Z.of_nat 2 /\ 0 <= second t < 10 ^ Z.of_nat 2
  /\ 0 <= microsecond t <= 999999.
Proof.
  intros V. apply valid_iff in V as (D & Hh & Hm & Hs & Hu).
  apply valid_date_iff in D as (Hy & Hmo & Hd).
  pose proof (days_in_month_le_31 (year t) (month t) Hmo).
  change (10 ^ Z.of_nat 4) with 10000. change (10 ^ Z.of_nat 2) with 100.
  lia.
Qed.

(** A rendered date parses to the midnight of the instant's date. *)
Lemma parse_rendered_date (pad_year : bool) (t : datetime) (fl : nat) :
  valid t = true ->
  parse_utc_timestamp (format_utc_timestamp pad_year t DATE_FIELD_PATTERN fl)
  = Ok (Some (midnight t, DATE_FIELD_PATTERN, 0%nat)).
Proof.
  intros V. pose proof (valid_field_ranges t V) as (Ry & Rm & Rd & _).
  unfold format_utc_timestamp, isoformat_date. cbn [pattern_is].
  change (zpad 4 (year t) ++ "-" ++ zpad 2 (month t) ++ "-" ++ zpad 2 (day t))
    with (date_text (zpad 4 (year t)) (zpad 2 (month t)) (zpad 2 (day t))).
  rewrite <- (append_nil_r (date_text _ _ _)).
  rewrite parse_date_text by (try apply numeral_zpad; reflexivity).
  rewrite !int_of_digits_zpad_small by assumption.
  unfold make. fold (midnight t). now rewrite (midnight_valid t V).
Qed.

Lemma truncated_fraction (us : Z) (fl : nat) :
  0 <= us <= 999999 -> (fl <= 6)%nat ->
  int_of_digits (take 6 (take fl (zpad 6 us) ++ "000000"))
  = us - us mod 10 ^ Z.of_nat (6 - fl).
Proof.
  intros R L. rewrite take_zpad by assumption.
  set (U := 10 ^ Z.of_nat (6 - fl)).
  assert (HU : 0 < U) by (apply Z.pow_pos_nonneg; lia).
  assert (HM : U * 10 ^ Z.of_nat fl = 1000000).
  { unfold U. rewrite <- Z.pow_add_r by lia.
    replace (Z.of_nat (6 - fl) + Z.of_nat fl) with 6 by lia. reflexivity. }
  pose proof (zpad_len fl (us / U)) as Lz.
  replace 6%nat with (len (zpad fl (us / U)) + (6 - fl))%nat at 1 by lia.
  rewrite take_append_more, int_of_digits_append, zeros_value.
  rewrite zeros_len by lia. fold U.
  rewrite int_of_digits_zpad_small.
  - pose proof (Z.div_mod us U ltac:(lia)). lia.
  - split; [apply Z.div_pos; lia|].
    apply Z.div_lt_upper_bound; lia.
Qed.

(** A rendered datetime parses to the instant cut to the digits shown,
    where [strftime] writes the year with four digits. *)
Lemma parse_rendered_datetime (pad_year : bool) (t : datetime) (fl : nat) :
  valid t = true -> (fl <= 6)%nat -> pad_year = true \/ 1000 <= year t ->
  parse_utc_timestamp (format_utc_timestamp pad_year t DATETIME_FIELD_PATTERN fl)
  = Ok (Some (truncate_to t DATETIME_FIELD_PATTERN fl,
              DATETIME_FIELD_PATTERN, fl)).
Proof.
  intros V L Y.
  pose proof (valid_field_ranges t V) as (Ry & Rm & Rd & Rh & Rmi & Rs & Ru).
  unfold format_utc_timestamp, strftime_base. cbn [pattern_is].
  rewrite strftime_Y_four by assumption.
  set (f := take fl (zpad 6 (microsecond t))).
  assert (Lf : len f = fl).
  { unfold f. rewrite len_take, zpad_len. lia. }
  assert (Df : all_digits f = true).
  { unfold f. apply all_digits_take, zpad_all_digits. }
  assert (E : (if (0 <? fl)%nat
               then (zpad 4 (year t) ++ "-" ++ zpad 2 (month t) ++ "-"
                     ++ zpad 2 (day t) ++ "T" ++ zpad 2 (hour t) ++ ":"
                     ++ zpad 2 (minute t) ++ ":" ++ zpad 2 (second t))
                    ++ "." ++ f ++ "Z"
               else (zpad 4 (year t) ++ "-" ++ zpad 2 (month t) ++ "-"
                     ++ zpad 2 (day t) ++ "T" ++ zpad 2 (hour t) ++ ":"
                     ++ zpad 2 (minute t) ++ ":" ++ zpad 2 (second t))
                    ++ "Z")
              = date_text (zpad 4 (year t)) (zpad 2 (month t)) (zpad 2 (day t))
                ++ "T"
                ++ time_text (zpad 2 (hour t)) (zpad 2 (minute t))
                             (zpad 2 (second t))
                ++ fraction_text f ++ "Z" ++ EmptyString).
  { unfold date_text, time_text.
    destruct f as [|c f']; simpl in Lf; subst fl;
      cbn [Nat.ltb Nat.leb fraction_text];
      repeat (first [rewrite append_assoc | progress cbn [append]]);
      reflexivity. }
  rewrite E.
  rewrite parse_datetime_text
    by (try apply numeral_zpad; try assumption; try reflexivity; lia).
  rewrite !int_of_digits_zpad_small by assumption.
  unfold f at 1. rewrite truncated_fraction by assumption.
  rewrite Lf. unfold make, truncate_to.
  match goal with |- context [valid ?x] => assert (Vx : valid x = true) end.
  { apply valid_iff in V as (D & Hh & Hm & Hs & Hu).
    apply valid_iff. cbn [year month day hour minute second microsecond].
    assert (0 < 10 ^ Z.of_nat (6 - fl)) by (apply Z.pow_pos_nonneg; lia).
    pose proof (Z.mod_pos_bound (microsecond t) (10 ^ Z.of_nat (6 - fl))).
    pose proof (Z.mod_le (microsecond t) (10 ^ Z.of_nat (6 - fl))).
    repeat split; try assumption; lia. }
  now rewrite Vx.
Qed.

End TimestampFacts.

Module JsonFacts.

Import PyStr Calendar Datetime Re Timestamp Shape Json.

Local Open Scope list_scope.

(** Induction on a JSON value, with the property at hand for every item
    of a container. *)
Lemma json_induction (P : json -> Prop) :
  P JNull -> (forall b, P (JBool b)) -> (forall n, P (JInt n)) ->
  (forall x, P (JFloat x)) -> (forall s, P (JStr s)) ->
  (forall items, Forall P items -> P (JList items)) ->
  (forall entries, Forall (fun e => P (snd e)) entries -> P (JDict entries)) ->
  forall v, P v.
Proof.
  intros Hnull Hbool Hint Hfloat Hstr Hlist Hdict.
  fix IH 1. intros [ | b | n | x | s | items | entries].
  - exact Hnull.
  - apply Hbool.
  - apply Hint.
  - apply Hfloat.
  - apply Hstr.
  - apply Hlist. induction items as [|item items IHitems]; constructor.
    + apply IH.
    + exact IHitems.
  - apply Hdict. induction entries as [|[k item] entries IHentries]; constructor.
    + apply IH.
    + exact IHentries.
Qed.

Lemma key_eqb_eq (a b : key) : key_eqb a b = true <-> a = b.
Proof.
  destruct a, b; simpl; try (split; [discriminate | congruence]).
  - rewrite String.eqb_eq. split; congruence.
  - rewrite Nat.eqb_eq. split; congruence.
Qed.

Lemma dict_get_set_same (k : string) (v : json) (es : list (string * json)) :
  dict_get k (dict_set k v es) = Some v.
Proof.
  induction es as [|[k' v'] es IH]; simpl.
  - now rewrite String.eqb_refl.
  - destruct (String.eqb k' k) eqn:E; simpl; rewrite E; auto.
Qed.

Lemma dict_get_set_other (k k' : string) (v : json) (es : list (string * json)) :
  k' <> k -> dict_get k' (dict_set k v es) = dict_get k' es.
Proof.
  intros N. induction es as [|[k0 v0] es IH]; simpl.
  - destruct (String.eqb_spec k k'); congruence.
  - destruct (String.eqb_spec k0 k) as [-> | N0]; simpl.
    + destruct (String.eqb_spec k k'); congruence.
    + now rewrite IH.
Qed.

Lemma list_set_same (i : nat) (v : json) (l l' : list json) :
  list_set i v l = Some l' -> nth_error l' i = Some v.
Proof.
  revert i l'; induction l as [|x l IH]; intros [|i] l' H; simpl in H;
    try discriminate.
  - now inversion H.
  - destruct (list_set i v l) as [r|] eqn:E; [|discriminate].
    inversion H; subst. simpl. now apply IH.
Qed.

Lemma list_set_other (i j : nat) (v : json) (l l' : list json) :
  list_set i v l = Some l' -> j <> i -> nth_error l' j = nth_error l j.
Proof.
  revert i j l'; induction l as [|x l IH]; intros [|i] j l' H N; simpl in H;
    try discriminate.
  - inversion H; subst. destruct j; [congruence | reflexivity].
  - destruct (list_set i v l) as [r|] eqn:E; [|discriminate].
    inversion H; subst. destruct j as [|j]; [reflexivity|].
    simpl. apply (IH i); auto.
Qed.

Lemma list_set_defined (i : nat) (v x : json) (l : list json) :
  nth_error l i = Some x -> exists l', list_set i v l = Some l'.
Proof.
  revert i; induction l as [|y l IH]; intros [|i] H; simpl in *;
    try discriminate; eauto.
  destruct (IH _ H) as [l' ->]. eauto.
Qed.

Lemma getitem_setitem_same (c c' : json) (k : key) (v : json) :
  setitem c k v = Ok c' -> getitem c' k = Ok v.
Proof.
  destruct c, k; simpl; try discriminate; intros H.
  - destruct (list_set i v items) as [l'|] eqn:E; [|discriminate].
    inversion H; subst. simpl. now rewrite (list_set_same _ _ _ _ E).
  - inversion H; subst. simpl. now rewrite dict_get_set_same.
Qed.

Lemma getitem_setitem_other (c c' : json) (k k' : key) (v : json) :
  setitem c k v = Ok c' -> k' <> k -> getitem c' k' = getitem c k'.
Proof.
  destruct c, k; simpl; try discriminate; intros H N.
  - destruct (list_set i v items) as [l'|] eqn:E; [|discriminate].
    inversion H; subst. destruct k' as [s|j]; simpl; [reflexivity|].
    rewrite (list_set_other _ j _ _ _ E); [reflexivity | congruence].
  - inversion H; subst. destruct k' as [s|j]; simpl; [|reflexivity].
    rewrite dict_get_set_other; [reflexivity | congruence].
Qed.

Lemma setitem_defined (c : json) (k : key) (v x : json) :
  getitem c k = Ok x -> exists c', setitem c k v = Ok c'.
Proof.
  destruct c, k; simpl; try discriminate; intros H; eauto.
  destruct (nth_error items i) as [y|] eqn:E; [|discriminate].
  destruct (list_set_defined i v y items E) as [l' ->]. eauto.
Qed.

Lemma getitem_leaf (c : json) (k : key) (x : json) :
  getitem c k = Ok x -> is_leaf c = false.
Proof. destruct c, k; simpl; try discriminate; reflexivity. Qed.

Lemma get_at_app (p q : path) (root : json) :
  get_at (p ++ q) root = let? mid := get_at p root in get_at q mid.
Proof.
  revert root; induction p as [|k p IH]; intros root; simpl; [reflexivity|].
  destruct (getitem root k); simpl; auto.
Qed.

(** An assignment to an existing place succeeds. *)
Lemma set_at_defined (p : path) (k : key) (v old root : json) :
  get_at (p ++ [k]) root = Ok old -> exists root', set_at p k v root = Ok root'.
Proof.
  revert root; induction p as [|k0 p IH]; intros root H; simpl in *.
  - destruct (getitem root k) as [x|] eqn:E; [|discriminate].
    eapply setitem_defined; eauto.
  - destruct (getitem root k0) as [child|] eqn:E; [|discriminate].
    simpl in *. destruct (IH _ H) as [child' ->]. simpl.
    eapply setitem_defined; eauto.
Qed.

(** After an assignment the place holds the value assigned. *)
Lemma get_at_set_at_same (p : path) (k : key) (v root root' : json) :
  set_at p k v root = Ok root' -> get_at (p ++ [k]) root' = Ok v.
Proof.
  revert root root'; induction p as [|k0 p IH]; intros root root' H; simpl in *.
  - now rewrite (getitem_setitem_same _ _ _ _ H).
  - destruct (getitem root k0) as [child|] eqn:E; [|discriminate]. simpl in H.
    destruct (set_at p k v child) as [child'|] eqn:S; [|discriminate].
    simpl in H. rewrite (getitem_setitem_same _ _ _ _ H). simpl. eauto.
Qed.

(** An assignment to a place that holds a leaf leaves every other leaf of
    the tree as it is. *)
Lemma get_at_set_at_other (p : path) (k : key) (v old root root' : json)
    (q : path) (x : json) :
  set_at p k v root = Ok root' ->
  get_at (p ++ [k]) root = Ok old -> is_leaf old = true ->
  get_at q root = Ok x -> is_leaf x = true ->
  q <> p ++ [k] ->
  get_at q root' = Ok x.
Proof.
  revert root root' q; induction p as [|k0 p IH];
    intros root root' q S O Lo G Lx N; simpl in *.
  - destruct q as [|k1 q]; simpl in *.
    + inversion G; subst x. destruct root, k; discriminate.
    + destruct (key_eqb k1 k) eqn:K.
      * apply key_eqb_eq in K as ->.
        destruct (getitem root k) as [y|] eqn:E; [|discriminate].
        simpl in *. inversion O; subst y.
        destruct q as [|k2 q]; [congruence|]. simpl in G.
        destruct (getitem old k2) eqn:E2; [|discriminate].
        apply getitem_leaf in E2. congruence.
      * assert (K' : k1 <> k) by (intros ->; now rewrite (proj2 (key_eqb_eq k k)) in K).
        now rewrite (getitem_setitem_other _ _ _ _ _ S K').
  - destruct (getitem root k0) as [child|] eqn:E; [|discriminate]. simpl in *.
    destruct (set_at p k v child) as [child'|] eqn:S'; [|discriminate].
    simpl in S.
    destruct q as [|k1 q]; simpl in *.
    + inversion G; subst x. apply getitem_leaf in E. congruence.
    + destruct (key_eqb k1 k0) eqn:K.
      * apply key_eqb_eq in K as ->.
        rewrite (getitem_setitem_same _ _ _ _ S). simpl.
        rewrite E in G. simpl in G.
        eapply IH; eauto. congruence.
      * assert (K' : k1 <> k0) by (intros ->; now rewrite (proj2 (key_eqb_eq k0 k0)) in K).
        now rewrite (getitem_setitem_other _ _ _ _ _ S K').
Qed.

Lemma in_flat_mapi {A B : Type} (f : nat -> A -> list B) (l : list A) (i0 : nat)
    (y : B) :
  In y (flat_mapi f i0 l) ->
  exists i x, nth_error l i = Some x /\ In y (f (i0 + i)%nat x).
Proof.
  revert i0; induction l as [|a l IH]; intros i0 H; simpl in H; [contradiction|].
  apply in_app_or in H as [H | H].
  - exists 0%nat, a. now rewrite Nat.add_0_r.
  - destruct (IH _ H) as (i & x & E & I).
    exists (S i), x. split; [exact E|]. now rewrite Nat.add_succ_r.
Qed.

Lemma dict_get_in (k : string) (v : json) (es : list (string * json)) :
  distinct (map fst es) = true -> In (k, v) es -> dict_get k es = Some v.
Proof.
  induction es as [|[k0 v0] es IH]; intros D I; [contradiction|].
  simpl in D. apply andb_true_iff in D as [F D].
  destruct I as [I | I].
  - inversion I; subst. simpl. now rewrite String.eqb_refl.
  - simpl. destruct (String.eqb_spec k0 k) as [-> | N]; [|auto].
    exfalso. unfold fresh_key in F. apply negb_true_iff in F.
    assert (X : existsb (String.eqb k) (map fst es) = true).
    { apply existsb_exists. exists k. split; [|apply String.eqb_refl].
      apply in_map_iff. now exists (k, v). }
    congruence.
Qed.

(** Every node the scan yields is a string leaf of the value scanned, at
    the place the node names. *)
Lemma iter_string_nodes_sound (v : json) :
  forall here c k s,
    distinct_keys v = true ->
    In (c, k, s) (iter_string_nodes here v) ->
    exists rel, c = here ++ rel /\ get_at (rel ++ [k]) v = Ok (JStr s).
Proof.
  induction v as [ | b | n | x | s0 | items IH | entries IH] using json_induction;
    intros here c k s D I; simpl in I; try contradiction.
  - apply in_flat_mapi in I as (i & item & E & I). simpl in I.
    simpl in D. rewrite forallb_forall in D.
    pose proof (nth_error_In _ _ E) as Hin.
    rewrite Forall_forall in IH.
    assert (R : forall rel, c = (here ++ [KIdx i]) ++ rel ->
                  get_at (rel ++ [k]) item = Ok (JStr s) ->
                  exists rel0, c = here ++ rel0
                    /\ get_at (rel0 ++ [k]) (JList items) = Ok (JStr s)).
    { intros rel -> G. exists (KIdx i :: rel). rewrite <- app_assoc.
      split; [reflexivity|]. simpl. now rewrite E. }
    destruct item;
      try (destruct (IH _ Hin _ _ _ _ (D _ Hin) I) as (rel & Ec & G); eauto).
    destruct I as [I | []]. inversion I; subst.
    exists []. rewrite app_nil_r. split; [reflexivity|]. simpl. now rewrite E.
  - apply in_flat_map in I as ([k0 item] & Hin & I). simpl in I.
    simpl in D. apply andb_true_iff in D as [Dk D].
    rewrite forallb_forall in D.
    rewrite Forall_forall in IH.
    pose proof (dict_get_in _ _ _ Dk Hin) as E.
    assert (R : forall rel, c = (here ++ [KStr k0]) ++ rel ->
                  get_at (rel ++ [k]) item = Ok (JStr s) ->
                  exists rel0, c = here ++ rel0
                    /\ get_at (rel0 ++ [k]) (JDict entries) = Ok (JStr s)).
    { intros rel -> G. exists (KStr k0 :: rel). rewrite <- app_assoc.
      split; [reflexivity|]. simpl. now rewrite E. }
    destruct item;
      try (destruct (IH _ Hin _ _ _ _ (D _ Hin) I) as (rel & Ec & G); eauto).
    destruct I as [I | []]. inversion I; subst.
    exists []. rewrite app_nil_r. split; [reflexivity|]. simpl. now rewrite E.
Qed.

Lemma skeleton_dict_set (k : string) (v old : json) (es : list (string * json)) :
  dict_get k es = Some old -> skeleton v = skeleton old ->
  map (fun e => (fst e, skeleton (snd e))) (dict_set k v es)
  = map (fun e => (fst e, skeleton (snd e))) es.
Proof.
  intros G S. induction es as [|[k0 v0] es IH]; simpl in G; [discriminate|].
  simpl. destruct (String.eqb k0 k) eqn:E.
  - injection G as ->. simpl. now rewrite S.
  - simpl. now rewrite IH.
Qed.

Lemma skeleton_list_set (i : nat) (v old : json) (l l' : list json) :
  nth_error l i = Some old -> skeleton v = skeleton old ->
  list_set i v l = Some l' -> map skeleton l' = map skeleton l.
Proof.
  revert i l'; induction l as [|x l IH]; intros [|i] l' G S H; simpl in *;
    try discriminate.
  - injection G as ->. injection H as <-. simpl. now rewrite S.
  - destruct (list_set i v l) as [r|] eqn:E; [|discriminate].
    injection H as <-. simpl. f_equal. eapply IH; eauto.
Qed.

Lemma skeleton_setitem (c c' : json) (k : key) (v old : json) :
  getitem c k = Ok old -> skeleton v = skeleton old ->
  setitem c k v = Ok c' -> skeleton c' = skeleton c.
Proof.
  intros G S H.
  destruct c as [ | | | | | items | entries], k as [ks | i];
    simpl in G, H; try discriminate.
  - destruct (nth_error items i) as [y|] eqn:E; [|discriminate].
    injection G as ->.
    destruct (list_set i v items) as [l'|] eqn:L; [|discriminate].
    injection H as <-. simpl. f_equal. eapply skeleton_list_set; eauto.
  - destruct (dict_get ks entries) as [y|] eqn:E; [|discriminate].
    injection G as ->. injection H as <-. simpl. f_equal.
    eapply skeleton_dict_set; eauto.
Qed.

(** Writing a string where a string is keeps the skeleton of the tree. *)
Lemma skeleton_set_at (p : path) (k : key) (t t0 : string) (root root' : json) :
  get_at (p ++ [k]) root = Ok (JStr t0) ->
  set_at p k (JStr t) root = Ok root' ->
  skeleton root' = skeleton root.
Proof.
  revert root root'; induction p as [|k0 p IH]; intros root root' G H;
    simpl in G, H.
  - destruct (getitem root k) as [x|] eqn:E; [|discriminate].
    simpl in G. injection G as ->.
    exact (skeleton_setitem root root' k (JStr t) (JStr t0) E eq_refl H).
  - destruct (getitem root k0) as [child|] eqn:E; [|discriminate].
    simpl in G, H.
    destruct (set_at p k (JStr t) child) as [child'|] eqn:S; [|discriminate].
    simpl in H.
    exact (skeleton_setitem root root' k0 child' child E (IH _ _ G S) H).
Qed.

End JsonFacts.

Module UpdaterFacts.

Import PyStr Calendar Datetime Re Timestamp Shape Json Updater.

Import PyStrFacts CalendarFacts DatetimeFacts ReFacts TimestampFacts JsonFacts.

Local Open Scope list_scope.

Ltac unfold_monad :=
  unfold bind, lift, gets, modify, ret, raise in *.

Lemma set_found_dates_same (s : FixtureUpdater) :
  set_found_dates (found_dates s) s = s.
Proof. now destruct s. Qed.

Lemma check_item_spec (idx : nat) (item : json) :
  check_item idx item
  = if well_formed_item item then Ok tt
    else Raise (TypeError (if is_dict item then msg_no_fields idx
                           else msg_not_object idx)).
Proof.
  destruct item; try reflexivity.
  unfold check_item, well_formed_item, get_fields. simpl.
  destruct (dict_get "fields" entries) as [[]|]; reflexivity.
Qed.

Lemma check_items_ok (items : list json) (i0 : nat) :
  forallb well_formed_item items = true ->
  check_items (enumerate_from i0 items) = Ok tt.
Proof.
  revert i0; induction items as [|item items IH]; intros i0 H; [reflexivity|].
  simpl in H. apply andb_true_iff in H as [H1 H2].
  simpl. rewrite check_item_spec, H1. simpl. now apply IH.
Qed.

(** The first item that is not well formed stops the checks, and the
    message carries its index. *)
Lemma check_items_fail (items : list json) (i0 : nat) :
  forallb well_formed_item items = false ->
  exists idx item,
    nth_error items idx = Some item
    /\ well_formed_item item = false
    /\ (forall j x, (j < idx)%nat -> nth_error items j = Some x ->
                    well_formed_item x = true)
    /\ check_items (enumerate_from i0 items)
       = Raise (TypeError (if is_dict item then msg_no_fields (i0 + idx)
                           else msg_not_object (i0 + idx))).
Proof.
  revert i0; induction items as [|item items IH]; intros i0 H; [discriminate|].
  simpl in H. destruct (well_formed_item item) eqn:W.
  - simpl in H. destruct (IH (S i0) H) as (idx & x & E & Wx & First & C).
    exists (S idx), x. repeat split; auto.
    + intros [|j] y L N; simpl in N; [now inversion N; subst|].
      apply (First j); auto. lia.
    + simpl. rewrite check_item_spec, W. simpl.
      now rewrite Nat.add_succ_r.
  - exists 0%nat, item. repeat split; auto.
    + intros j x L. lia.
    + simpl. rewrite check_item_spec, W, Nat.add_0_r. reflexivity.
Qed.

Lemma load_fixture_ok (items : list json) (s : FixtureUpdater) :
  forallb well_formed_item items = true ->
  load_fixture (Ok (JList items)) s = (Ok tt, set_data (JList items) s).
Proof.
  intros H. unfold load_fixture. unfold_monad.
  now rewrite check_items_ok.
Qed.

Lemma load_fixture_not_list (v : json) (s : FixtureUpdater) :
  is_list v = false ->
  load_fixture (Ok v) s = (Raise (TypeError msg_not_array), s).
Proof. destruct v; try discriminate; reflexivity. Qed.

Lemma load_fixture_bad_item (items : list json) (s : FixtureUpdater) :
  forallb well_formed_item items = false ->
  exists idx item,
    nth_error items idx = Some item
    /\ well_formed_item item = false
    /\ (forall j x, (j < idx)%nat -> nth_error items j = Some x ->
                    well_formed_item x = true)
    /\ load_fixture (Ok (JList items)) s
       = (Raise (TypeError (if is_dict item then msg_no_fields idx
                            else msg_not_object idx)), s).
Proof.
  intros H. destruct (check_items_fail items 0 H) as (idx & item & E & W & F & C).
  exists idx, item. repeat split; auto.
  unfold load_fixture. unfold_monad. now rewrite C.
Qed.

Lemma get_at_under (p q : path) (root mid : json) :
  get_at p root = Ok mid -> get_at (p ++ q) root = get_at q mid.
Proof. intros H. now rewrite get_at_app, H. Qed.

(** The items of a value with distinct keys have distinct keys. *)
Lemma distinct_keys_getitem (c : json) (k : key) (x : json) :
  distinct_keys c = true -> getitem c k = Ok x -> distinct_keys x = true.
Proof.
  intros D G.
  destruct c as [ | | | | | items | entries], k as [ks | i];
    simpl in G; try discriminate.
  - destruct (nth_error items i) as [y|] eqn:E; [|discriminate].
    inversion G; subst. simpl in D. rewrite forallb_forall in D.
    apply D. eapply nth_error_In; eauto.
  - simpl in D. apply andb_true_iff in D as [_ D].
    rewrite forallb_forall in D.
    induction entries as [|[k0 v0] entries IH]; simpl in G; [discriminate|].
    destruct (String.eqb k0 ks) eqn:E.
    + inversion G; subst. apply (D (k0, x)). now left.
    + apply IH; auto. intros e I. apply D. now right.
Qed.

Lemma distinct_keys_get_at (p : path) (root x : json) :
  distinct_keys root = true -> get_at p root = Ok x -> distinct_keys x = true.
Proof.
  revert root; induction p as [|k p IH]; intros root D G; simpl in G.
  - now inversion G; subst.
  - destruct (getitem root k) as [child|] eqn:E; [|discriminate].
    simpl in G. apply (IH child); [|exact G].
    eapply distinct_keys_getitem; eauto.
Qed.

Lemma collect_node_run (c : path) (k : key) (item : string) (s : FixtureUpdater) :
  collect_node (c, k, item) s
  = match parse_utc_timestamp item with
    | Ok (Some (dt, ty, fl)) =>
        (Ok tt, set_found_dates (found_dates s ++ [mkfound c k dt ty fl]) s)
    | Ok None => (Ok tt, s)
    | Raise e => (Raise e, s)
    end.
Proof.
  unfold collect_node. unfold_monad.
  destruct (parse_utc_timestamp item) as [[[[dt ty] fl]|]|e]; reflexivity.
Qed.

Lemma collect_nodes_spec (ns : list node) :
  forall s r s',
    for_each ns collect_node s = (r, s') ->
    exists new,
      s' = set_found_dates (found_dates s ++ new) s
      /\ Forall (from_nodes ns) new
      /\ ((forall c k item, In (c, k, item) ns ->
             parse_utc_timestamp item = Ok None) ->
          r = Ok tt /\ new = []).
Proof.
  induction ns as [|[[c k] item] ns IH]; intros s r s' H.
  - simpl in H. unfold_monad. inversion H; subst.
    exists []. rewrite app_nil_r, set_found_dates_same. auto.
  - cbn [for_each] in H. unfold bind at 1 in H. rewrite collect_node_run in H.
    destruct (parse_utc_timestamp item) as [[[[dt ty] fl]|]|e] eqn:P.
    + destruct (IH _ _ _ H) as (new & -> & F & _).
      exists (mkfound c k dt ty fl :: new). cbn. rewrite <- app_assoc.
      split; [reflexivity|]. split.
      * constructor.
        -- exists item. cbn. auto.
        -- eapply Forall_impl; [|exact F].
           intros e (it & I & Q). exists it. split; [now right | exact Q].
      * intros N. specialize (N c k item (or_introl eq_refl)). congruence.
    + destruct (IH _ _ _ H) as (new & -> & F & Z).
      exists new. split; [reflexivity|]. split.
      * eapply Forall_impl; [|exact F].
        intros e (it & I & Q). exists it. split; [now right | exact Q].
      * intros N. apply Z. intros c' k' it I. apply (N c' k' it). now right.
    + inversion H; subst. exists []. rewrite app_nil_r, set_found_dates_same.
      split; [reflexivity|]. split; [constructor|].
      intros N. specialize (N c k item (or_introl eq_refl)). congruence.
Qed.

Lemma enumerate_from_nth {A : Type} (l : list A) (i0 idx : nat) (x : A) :
  In (idx, x) (enumerate_from i0 l) ->
  (i0 <= idx)%nat /\ nth_error l (idx - i0) = Some x.
Proof.
  revert i0; induction l as [|a l IH]; intros i0 H; simpl in H; [contradiction|].
  destruct H as [H | H].
  - inversion H; subst. rewrite Nat.sub_diag. auto.
  - destruct (IH _ H) as [L E]. split; [lia|].
    replace (idx - i0)%nat with (S (idx - S i0)) by lia. exact E.
Qed.

(** What [collect_dates] adds to [found_dates] when it goes through the
    objects [objs] of the tree [root]. *)
Lemma collect_objects_spec (root : json) (objs : list (nat * json)) :
  distinct_keys root = true ->
  (forall idx obj, In (idx, obj) objs -> get_at [KIdx idx] root = Ok obj) ->
  forall s r s',
    for_each objs collect_object s = (r, s') ->
    exists new,
      s' = set_found_dates (found_dates s ++ new) s
      /\ Forall (recorded root) new
      /\ ((forall idx rel k item,
             get_at ([KIdx idx; KStr "fields"] ++ rel ++ [k]) root
               = Ok (JStr item) ->
             parse_utc_timestamp item = Ok None) ->
          (forall idx obj, In (idx, obj) objs ->
             well_formed_item obj = true) ->
          r = Ok tt /\ new = []).
Proof.
  intros D. induction objs as [|[idx obj] objs IH]; intros G s r s' H.
  - simpl in H. unfold_monad. inversion H; subst.
    exists []. rewrite app_nil_r, set_found_dates_same. auto.
  - cbn [for_each] in H. unfold bind at 1 in H. unfold collect_object in H.
    unfold bind at 1 in H. unfold lift at 1 in H.
    pose proof (G idx obj (or_introl eq_refl)) as Gobj.
    assert (G' : forall i o, In (i, o) objs -> get_at [KIdx i] root = Ok o)
      by (intros i o I; apply G; now right).
    destruct (getitem obj (KStr "fields")) as [fields|e] eqn:F.
    + destruct (for_each (iter_string_nodes [KIdx idx; KStr "fields"] fields)
                  collect_node s) as [r1 s1] eqn:C.
      apply collect_nodes_spec in C as (new1 & -> & F1 & Z1).
      assert (Gf : get_at [KIdx idx; KStr "fields"] root = Ok fields).
      { change [KIdx idx; KStr "fields"] with ([KIdx idx] ++ [KStr "fields"]).
        rewrite (get_at_under _ _ _ _ Gobj). simpl. now rewrite F. }
      assert (Df : distinct_keys fields = true).
      { eapply distinct_keys_get_at; eauto. }
      assert (R1 : Forall (recorded root) new1).
      { eapply Forall_impl; [|exact F1].
        intros e (item & I & P). destruct e as [c k dt ty fl].
        cbn [f_container f_key f_dt f_type f_fraction_len] in *.
        apply iter_string_nodes_sound in I as (rel & -> & Gi); [|exact Df].
        exists item. split; [|exact P]. unfold location.
        cbn [f_container f_key].
        rewrite <- app_assoc. now rewrite (get_at_under _ _ _ _ Gf). }
      destruct r1 as [[]|e1].
      * destruct (IH G' _ _ _ H) as (new2 & -> & R2 & Z2).
        exists (new1 ++ new2). cbn. rewrite app_assoc.
        split; [reflexivity|]. split; [now apply Forall_app|].
        intros N W.
        destruct Z1 as [_ ->].
        { intros c k item I.
          apply iter_string_nodes_sound in I as (rel & -> & Gi); [|exact Df].
          apply (N idx rel k).
          exact (eq_trans (get_at_under _ (rel ++ [k]) _ _ Gf) Gi). }
        destruct (Z2 N) as [-> ->]; [|auto].
        intros i o I. apply (W i o). now right.
      * inversion H; subst. exists new1. split; [reflexivity|].
        split; [exact R1|]. intros N W.
        destruct Z1 as [Z1 _]; [|discriminate].
        intros c k item I.
        apply iter_string_nodes_sound in I as (rel & -> & Gi); [|exact Df].
        apply (N idx rel k).
        exact (eq_trans (get_at_under _ (rel ++ [k]) _ _ Gf) Gi).
    + inversion H; subst. exists []. rewrite app_nil_r, set_found_dates_same.
      split; [reflexivity|]. split; [constructor|]. intros _ W.
      specialize (W idx obj (or_introl eq_refl)).
      unfold well_formed_item in W. destruct obj; try discriminate.
      simpl in F. destruct (dict_get "fields" entries); discriminate.
Qed.

Lemma collect_dates_spec (s : FixtureUpdater) (items : list json)
    (r : result unit) (s' : FixtureUpdater) :
  data s = JList items -> distinct_keys (data s) = true ->
  collect_dates s = (r, s') ->
  exists new,
    s' = set_found_dates (found_dates s ++ new) s
    /\ Forall (recorded (data s)) new
    /\ ((forall idx rel k item,
           get_at ([KIdx idx; KStr "fields"] ++ rel ++ [k]) (data s)
             = Ok (JStr item) ->
           parse_utc_timestamp item = Ok None) ->
        forallb well_formed_item items = true ->
        r = Ok tt /\ new = []).
Proof.
  intros E D H. unfold collect_dates in H.
  unfold bind at 1 in H. unfold gets at 1 in H.
  unfold bind at 1 in H. unfold lift at 1 in H.
  rewrite E in H. cbn [objects] in H.
  assert (G : forall idx obj, In (idx, obj) (enumerate_from 0 items) ->
                get_at [KIdx idx] (data s) = Ok obj).
  { intros idx obj I. apply enumerate_from_nth in I as [_ N].
    rewrite Nat.sub_0_r in N. rewrite E. simpl. now rewrite N. }
  destruct (collect_objects_spec (data s) _ D G _ _ _ H) as (new & -> & R & Z).
  exists new. split; [reflexivity|]. split; [exact R|].
  intros N W. apply Z; [exact N|].
  intros idx obj I. apply enumerate_from_nth in I as [_ I].
  rewrite forallb_forall in W. apply W. eapply nth_error_In; eauto.
Qed.

Lemma shift_one_run (pad : bool) (d : timedelta) (e : found) (s : FixtureUpdater) :
  shift_one pad d e s
  = match dt_add (f_dt e) d with
    | Ok shifted =>
        match set_at (f_container e) (f_key e)
                (JStr (format_utc_timestamp pad shifted (f_type e)
                         (f_fraction_len e))) (data s) with
        | Ok root' => (Ok tt, set_data root' s)
        | Raise x => (Raise x, s)
        end
    | Raise x => (Raise x, s)
    end.
Proof.
  unfold shift_one. unfold_monad.
  destruct (dt_add (f_dt e) d); [|reflexivity].
  destruct (set_at _ _ _ _); reflexivity.
Qed.

Lemma set_data_same (s : FixtureUpdater) : set_data (data s) s = s.
Proof. now destruct s. Qed.

Lemma key_eq_dec (a b : key) : {a = b} + {a <> b}.
Proof.
  destruct (key_eqb a b) eqn:E.
  - left. now apply key_eqb_eq.
  - right. intros ->. now rewrite (proj2 (key_eqb_eq b b) eq_refl) in E.
Qed.

Lemma recorded_coherent (root : json) (l : list found) :
  Forall (recorded root) l -> coherent l.
Proof.
  intros R e e' I I' L. rewrite Forall_forall in R.
  destruct (R e I) as (it & G & P). destruct (R e' I') as (it' & G' & P').
  rewrite L in G. rewrite G in G'. inversion G'; subst it'.
  rewrite P in P'. inversion P'. auto.
Qed.

(** The loop of [apply_shift]. *)
Lemma shift_loop_spec (pad : bool) (d : timedelta) (l : list found) :
  forall s r s',
    coherent l ->
    (forall e, In e l -> exists t, get_at (location e) (data s) = Ok (JStr t)) ->
    for_each l (shift_one pad d) s = (r, s') ->
    exists root',
      s' = set_data root' s
      /\ (forall q x, get_at q (data s) = Ok x -> is_leaf x = true ->
            (forall e, In e l -> q <> location e) -> get_at q root' = Ok x)
      /\ (r = Ok tt ->
          forall e, In e l ->
            exists shifted,
              dt_add (f_dt e) d = Ok shifted
              /\ get_at (location e) root'
                 = Ok (JStr (format_utc_timestamp pad shifted (f_type e)
                               (f_fraction_len e))))
      /\ (r = Ok tt \/ r = Raise OverflowError)
      /\ ((forall e, In e l -> exists shifted, dt_add (f_dt e) d = Ok shifted) ->
          r = Ok tt)
      /\ skeleton root' = skeleton (data s).
Proof.
  induction l as [|e0 l IH]; intros s r s' Co Pre H.
  - simpl in H. unfold_monad. injection H as <- <-.
    exists (data s). rewrite set_data_same.
    repeat split; auto. intros _ e [].
  - cbn [for_each] in H. unfold bind at 1 in H. rewrite shift_one_run in H.
    destruct (dt_add (f_dt e0) d) as [sh0|x] eqn:A.
    2:{ injection H as <- <-. exists (data s). rewrite set_data_same.
        split; [reflexivity|]. split; [auto|]. split; [discriminate|].
        split; [|split; [|reflexivity]].
        - right. f_equal. unfold dt_add in A. cbv zeta in A.
          destruct (_ && _); [|now inversion A].
          destruct (ord2ymd _) as [[? ?] ?]. discriminate.
        - intros T. destruct (T e0 (or_introl eq_refl)) as [sh Q]. congruence. }
    destruct (Pre e0 (or_introl eq_refl)) as [t0 G0].
    set (text0 := format_utc_timestamp pad sh0 (f_type e0) (f_fraction_len e0)) in *.
    destruct (set_at_defined _ _ (JStr text0) _ _ G0) as [root1 S1].
    unfold location in G0. rewrite S1 in H.
    assert (Co' : coherent l).
    { intros a b Ia Ib. apply Co; now right. }
    assert (Pre' : forall e, In e l ->
              exists t, get_at (location e) (data (set_data root1 s)) = Ok (JStr t)).
    { intros e I. cbn [data set_data].
      destruct (list_eq_dec key_eq_dec (location e) (location e0)) as [Eq | Ne].
      - exists text0. rewrite Eq. unfold location.
        eapply get_at_set_at_same; eauto.
      - destruct (Pre e (or_intror I)) as [t G]. exists t.
        eapply get_at_set_at_other; eauto. }
    destruct (IH _ _ _ Co' Pre' H) as (root' & -> & Fr & Done & Out & Tot & Sk).
    cbn [data set_data] in *.
    exists root'. split; [now destruct s|].
    split; [|split; [|split; [|split]]].
    + intros q x G L N. apply Fr; auto.
      * eapply get_at_set_at_other; eauto. apply (N e0). now left.
      * intros e I. apply N. now right.
    + intros -> e [<- | I]; [|now apply Done].
      exists sh0. split; [exact A|].
      destruct (Exists_dec (fun e' => location e' = location e0) l) as [X | X].
      { intros e'. apply (list_eq_dec key_eq_dec). }
      * apply Exists_exists in X as (e' & I' & L').
        destruct (Done eq_refl e' I') as (sh' & A' & G').
        destruct (Co e' e0 (or_intror I') (or_introl eq_refl) L') as (E1 & E2 & E3).
        rewrite <- L'. rewrite G'. rewrite E1 in A'.
        assert (sh' = sh0) by congruence. subst sh'.
        unfold text0. now rewrite E2, E3.
      * apply Fr; [|reflexivity|].
        -- unfold location. eapply get_at_set_at_same; eauto.
        -- intros e I Eq. apply X. apply Exists_exists. eauto.
    + exact Out.
    + intros T. apply Tot. intros e I. apply T. now right.
    + rewrite Sk. eapply skeleton_set_at; eauto.
Qed.

Lemma recorded_valid (root : json) (e : found) :
  recorded root e -> valid (f_dt e) = true /\ (f_fraction_len e <= 6)%nat.
Proof.
  intros (item & _ & P). eapply parse_utc_timestamp_valid; eauto.
Qed.

(** [max_from] keeps the first of the greatest instants. *)
Lemma max_from_spec (l : list found) :
  forall best pre mid,
    valid (f_dt best) = true -> Forall (fun e => valid (f_dt e) = true) l ->
    (forall e, In e pre -> instant e < instant best) ->
    (forall e, In e mid -> instant e <= instant best) ->
    exists pre' post',
      pre ++ best :: mid ++ l = pre' ++ max_from best l :: post'
      /\ (forall e, In e pre' -> instant e < instant (max_from best l))
      /\ (forall e, In e post' -> instant e <= instant (max_from best l)).
Proof.
  induction l as [|y l IH]; intros best pre mid Vb Vl Hpre Hmid.
  - exists pre, mid. rewrite app_nil_r. auto.
  - inversion Vl as [|? ? Vy Vl']; subst. cbn [max_from].
    rewrite dt_gt_to_micros by assumption.
    destruct (to_micros (f_dt best) <? to_micros (f_dt y)) eqn:C.
    + apply Z.ltb_lt in C.
      destruct (IH y (pre ++ best :: mid) [] Vy Vl') as (pre' & post' & E & A & B).
      * intros e I. apply in_app_or in I as [I | [<- | I]]; unfold instant in *.
        -- specialize (Hpre e I). lia.
        -- lia.
        -- specialize (Hmid e I). lia.
      * intros e [].
      * exists pre', post'. split; [|auto].
        rewrite <- E. rewrite <- app_assoc. reflexivity.
    + apply Z.ltb_ge in C.
      destruct (IH best pre (mid ++ [y]) Vb Vl') as (pre' & post' & E & A & B).
      * exact Hpre.
      * intros e I. apply in_app_or in I as [I | [<- | []]]; unfold instant in *.
        -- now apply Hmid.
        -- lia.
      * exists pre', post'. split; [|auto].
        rewrite <- E. rewrite <- app_assoc. reflexivity.
Qed.

Lemma max_by_dt_spec (l : list found) :
  l <> [] -> Forall (fun e => valid (f_dt e) = true) l ->
  exists latest pre post,
    max_by_dt l = Ok latest
    /\ l = pre ++ latest :: post
    /\ (forall e, In e pre -> instant e < instant latest)
    /\ (forall e, In e post -> instant e <= instant latest).
Proof.
  intros N V. destruct l as [|x l]; [congruence|].
  inversion V as [|? ? Vx Vl]; subst.
  destruct (max_from_spec l x [] [] Vx Vl) as (pre & post & E & A & B);
    try (intros e []).
  exists (max_from x l), pre, post. simpl in E. auto.
Qed.

Lemma compute_shift_run (now : datetime) (s : FixtureUpdater) (latest : found) :
  max_by_dt (found_dates s) = Ok latest ->
  compute_shift now s
  = (Ok tt,
     set_delta (dt_sub (target_of (target_latest_dt s) now) (f_dt latest))
       (set_latest latest s)).
Proof.
  intros H. unfold compute_shift. unfold_monad. now rewrite H.
Qed.

Lemma compute_shift_empty (now : datetime) (s : FixtureUpdater) :
  found_dates s = [] -> compute_shift now s = (Raise ValueError, s).
Proof.
  intros H. unfold compute_shift. unfold_monad. now rewrite H.
Qed.

Lemma apply_shift_unset (pad : bool) (s : FixtureUpdater) :
  delta s = None ->
  apply_shift pad s
  = (Raise (RuntimeError "Cannot apply shift before computing delta."), s).
Proof.
  intros H. unfold apply_shift. unfold_monad. now rewrite H.
Qed.

Lemma apply_shift_run (pad : bool) (s : FixtureUpdater) (d : timedelta) :
  delta s = Some d ->
  apply_shift pad s
  = match for_each (found_dates s) (shift_one pad d) s with
    | (Ok _, s') => (Ok (List.length (found_dates s')), s')
    | (Raise e, s') => (Raise e, s')
    end.
Proof.
  intros H. unfold apply_shift. unfold_monad. rewrite H.
  destruct (for_each _ _ s) as [[[]|e] s']; reflexivity.
Qed.

Lemma write_output_run (s : FixtureUpdater) :
  write_output s = (Ok tt, set_written (data s) s).
Proof. reflexivity. Qed.

(** What [run] does on a fixture whose items are well formed. *)
Lemma run_well_formed (pad : bool) (items : list json) (target : option datetime)
    (now : datetime) (elapsed : Z) :
  forallb well_formed_item items = true ->
  distinct_keys (JList items) = true ->
  exists r1 l,
    collect_dates (set_data (JList items) (init target))
      = (r1, scanned target (JList items) l)
    /\ Forall (recorded (JList items)) l
    /\ ((forall idx rel k item,
           get_at ([KIdx idx; KStr "fields"] ++ rel ++ [k]) (JList items)
             = Ok (JStr item) ->
           parse_utc_timestamp item = Ok None) ->
        r1 = Ok tt /\ l = [])
    /\ run pad (Ok (JList items)) now elapsed (init target)
       = match r1 with
         | Raise e => (Raise e, scanned target (JList items) l)
         | Ok _ =>
             match l with
             | [] => (Ok tt, set_elapsed_ms elapsed (scanned target (JList items) l))
             | x :: l' =>
                 let d := dt_sub (target_of target now) (f_dt (max_from x l')) in
                 match for_each l (shift_one pad d)
                         (planned target now (JList items) x l') with
                 | (Ok _, s3) =>
                     (Ok tt,
                      set_elapsed_ms elapsed
                        (set_written (data s3)
                           (set_updated_count (List.length (found_dates s3)) s3)))
                 | (Raise e, s3) => (Raise e, s3)
                 end
             end
         end.
Proof.
  intros W D.
  destruct (collect_dates (set_data (JList items) (init target))) as [r1 s1] eqn:C.
  pose proof C as C0.
  apply collect_dates_spec with (items := items) in C0 as (l & -> & R & Z);
    [|reflexivity|exact D].
  cbn [found_dates set_data init app data] in *.
  exists r1, l. fold (scanned target (JList items) l) in *.
  split; [reflexivity|]. split; [exact R|].
  split; [intros N; now apply Z|].
  unfold run. unfold bind at 1. rewrite (load_fixture_ok _ _ W).
  unfold bind at 1. rewrite C.
  destruct r1 as [[]|e]; [|reflexivity].
  unfold bind at 1. unfold gets at 1.
  destruct l as [|x l']; [reflexivity|].
  change (found_dates (scanned target (JList items) (x :: l'))) with (x :: l').
  cbv iota.
  unfold bind at 1.
  rewrite (compute_shift_run now _ (max_from x l')) by reflexivity.
  change (target_latest_dt (scanned target (JList items) (x :: l'))) with target.
  fold (planned target now (JList items) x l').
  unfold bind at 1.
  rewrite (apply_shift_run pad _ (dt_sub (target_of target now) (f_dt (max_from x l'))))
    by reflexivity.
  change (found_dates (planned target now (JList items) x l')) with (x :: l').
  destruct (for_each (x :: l') _ _) as [[[]|e] s3]; reflexivity.
Qed.

End UpdaterFacts.

Module SpecFacts.

Import PyStr Calendar Datetime Re Timestamp Shape Json Updater Spec.

Import PyStrFacts CalendarFacts DatetimeFacts ReFacts TimestampFacts JsonFacts.

Import UpdaterFacts.

Local Open Scope list_scope.

Lemma chomp_supported (s : string) : supported s = true -> chomp s = s.
Proof.
  unfold supported. intros H. apply orb_true_iff in H as [H | H].
  - apply date_only_components in H as (E & Hy & Hm & Hd & _).
    rewrite E. apply date_text_is_date_only; assumption.
  - apply datetime_components in H as (E & Hy & Hm & Hd & Hh & Hmi & Hs & Lf & Df).
    rewrite E. apply datetime_text_is_datetime; assumption.
Qed.

(** [parse] agrees with its specification, the newline that may end a
    text left aside. *)
Lemma parse_is_spec_parse (text : string) :
  supported text = true \/ supported (chomp text) = false ->
  parse_utc_timestamp text = spec_parse text.
Proof.
  unfold spec_parse. intros [S | U].
  - destruct (is_date_only text) eqn:D.
    + rewrite <- (append_nil_r text) at 1. now apply parse_date_only.
    + unfold supported in S. rewrite D in S. simpl in S. rewrite S.
      rewrite <- (append_nil_r text) at 1. now apply parse_datetime.
  - rewrite (parse_unsupported _ U).
    destruct (supported text) eqn:S.
    + rewrite (chomp_supported _ S) in U. congruence.
    + unfold supported in S. apply orb_false_iff in S as [-> ->]. reflexivity.
Qed.

Lemma matches_neither_parse (s : string) :
  matches_neither s = true -> parse_utc_timestamp s = Ok None.
Proof.
  unfold matches_neither, parse_utc_timestamp.
  destruct (match_datetime s) as [[[? ?] ?]|]; [discriminate|].
  destruct (match_date s); [discriminate | reflexivity].
Qed.

(** A value that is no timestamp is a leaf, away from every place
    recorded. *)
Lemma not_a_timestamp_elsewhere (root : json) (q : path) (x : json) (e : found) :
  get_at q root = Ok x -> not_a_timestamp x = true -> recorded root e ->
  is_leaf x = true /\ q <> location e.
Proof.
  intros G N (item & Gi & P). split.
  - destruct x; try reflexivity; discriminate.
  - intros ->. rewrite Gi in G. inversion G; subst x.
    simpl in N. apply matches_neither_parse in N. congruence.
Qed.

Lemma run_load_fails (pad : bool) (fixture : result json) (now : datetime)
    (elapsed : Z) (s s1 : FixtureUpdater) (e : exn) :
  load_fixture fixture s = (Raise e, s1) ->
  run pad fixture now elapsed s = (Raise e, s1).
Proof.
  intros H. unfold run. unfold bind at 1. now rewrite H.
Qed.

(** A run that finds timestamps: the plan, the loop of [apply_shift] and
    the outcome. *)
Lemma run_found (pad : bool) (items : list json) (target : option datetime)
    (now : datetime) (elapsed : Z) (s1 : FixtureUpdater) (x : found)
    (l : list found) :
  forallb well_formed_item items = true ->
  distinct_keys (JList items) = true ->
  collect_dates (set_data (JList items) (init target)) = (Ok tt, s1) ->
  found_dates s1 = x :: l ->
  let d := dt_sub (target_of target now) (f_dt (max_from x l)) in
  exists r3 root',
    Forall (recorded (JList items)) (x :: l)
    /\ (forall q v, get_at q (JList items) = Ok v -> is_leaf v = true ->
          (forall e, In e (x :: l) -> q <> location e) -> get_at q root' = Ok v)
    /\ (r3 = Ok tt ->
        forall e, In e (x :: l) ->
          exists shifted,
            dt_add (f_dt e) d = Ok shifted
            /\ get_at (location e) root'
               = Ok (JStr (format_utc_timestamp pad shifted (f_type e)
                             (f_fraction_len e))))
    /\ (r3 = Ok tt \/ r3 = Raise OverflowError)
    /\ ((forall e, In e (x :: l) -> exists shifted, dt_add (f_dt e) d = Ok shifted) ->
        r3 = Ok tt)
    /\ skeleton root' = skeleton (JList items)
    /\ run pad (Ok (JList items)) now elapsed (init target)
       = match r3 with
         | Ok _ => (Ok tt, finished target now elapsed (JList items) x l root')
         | Raise e => (Raise e, applied target now (JList items) x l root')
         end.
Proof.
  intros W D C F d.
  destruct (run_well_formed pad items target now elapsed W D)
    as (r1 & l0 & C0 & R & _ & Run).
  rewrite C in C0. injection C0 as <- ->.
  change (found_dates (scanned target (JList items) l0)) with l0 in F. subst l0.
  cbv iota zeta in Run. fold d in Run.
  destruct (for_each (x :: l) (shift_one pad d)
              (planned target now (JList items) x l)) as [r3 s3] eqn:L.
  apply shift_loop_spec in L as (root' & -> & Fr & Done & Out & Tot & Sk).
  - exists r3, root'. split; [exact R|]. split; [exact Fr|].
    split; [exact Done|]. split; [exact Out|]. split; [exact Tot|].
    split; [exact Sk|].
    rewrite Run. destruct r3 as [[]|e]; reflexivity.
  - eapply recorded_coherent; eauto.
  - intros e I. rewrite Forall_forall in R.
    destruct (R e I) as (item & G & _). exists item. exact G.
Qed.

End SpecFacts.

Module ParseFacts.

Import PyStr Calendar Datetime Re Timestamp Shape Json Updater Spec.

Import PyStrFacts CalendarFacts DatetimeFacts ReFacts TimestampFacts JsonFacts.

Import UpdaterFacts SpecFacts.

Lemma chomp_split (s : string) :
  exists e, s = chomp s ++ e /\ at_end e = true.
Proof.
  induction s as [|c s IH].
  - exists EmptyString. auto.
  - destruct s as [|c' s'].
    + cbn [chomp]. destruct (Ascii.eqb c newline) eqn:E.
      * exists (String c EmptyString). cbn. now rewrite E.
      * exists EmptyString. auto.
    + destruct IH as (e & E & A). exists e. split; [|exact A].
      change (chomp (String c (String c' s'))) with (String c (chomp (String c' s'))).
      cbn [append]. now rewrite <- E.
Qed.

(** [parse] on every string: the parse of the text without the newline
    that may end it. *)
Lemma parse_chomp (s : string) :
  parse_utc_timestamp s = spec_parse (chomp s).
Proof.
  destruct (supported (chomp s)) eqn:S.
  - destruct (chomp_split s) as (e & E & A).
    rewrite E at 1. unfold spec_parse.
    destruct (is_date_only (chomp s)) eqn:D.
    + now apply parse_date_only.
    + unfold supported in S. rewrite D in S. simpl in S. rewrite S.
      now apply parse_datetime.
  - rewrite (parse_unsupported _ S). unfold spec_parse.
    unfold supported in S. apply orb_false_iff in S as [-> ->]. reflexivity.
Qed.

Lemma shown_in_full_truncate (t : datetime) (ty : pattern) (n : nat) :
  truncate_to t ty n = t <-> shown_in_full t ty n = true.
Proof.
  destruct ty.
  - unfold truncate_to, shown_in_full. rewrite Z.eqb_eq.
    destruct t as [y m d hh mm ss us]. cbn. split.
    + intros E. injection E as E. lia.
    + intros E. f_equal. lia.
  - unfold truncate_to, shown_in_full, midnight.
    rewrite !andb_true_iff, !Z.eqb_eq.
    destruct t as [y m d hh mm ss us]. cbn. split.
    + intros E. injection E as <- <- <- <-. auto.
    + intros [[[-> ->] ->] ->]. reflexivity.
Qed.

Lemma padded_fraction_value (f : string) :
  (len f <= 6)%nat ->
  int_of_digits (take 6 (f ++ "000000"))
  = int_of_digits f * 10 ^ Z.of_nat (6 - len f).
Proof.
  intros L. replace 6%nat with (len f + (6 - len f))%nat at 1 by lia.
  rewrite take_append_more, int_of_digits_append, zeros_value, zeros_len by lia.
  ring.
Qed.

(** What [parse] returns is a datetime, with at most six fractional
    digits counted, and nothing below what the text showed. *)
Lemma parse_result_shown (s : string) (t : datetime) (ty : pattern) (n : nat) :
  parse_utc_timestamp s = Ok (Some (t, ty, n)) ->
  valid t = true /\ (n <= 6)%nat
  /\ shown_in_full t ty n = true /\ shown_fraction_len ty n = n.
Proof.
  intros P. destruct (parse_utc_timestamp_valid _ _ _ _ P) as [V L].
  split; [exact V|]. split; [exact L|].
  rewrite parse_chomp in P. unfold spec_parse in P.
  destruct (is_date_only (chomp s)) eqn:D.
  - destruct (valid _); [|discriminate]. injection P as <- <- <-.
    rewrite (text_instant_date_only _ D). split; reflexivity.
  - destruct (is_datetime (chomp s)) eqn:T; [|discriminate].
    destruct (valid _); [|discriminate]. injection P as <- <- <-.
    split; [|reflexivity].
    apply datetime_components in T as (_ & _ & _ & _ & _ & _ & _ & Lf & _).
    unfold shown_in_full, text_instant. cbn [microsecond].
    rewrite padded_fraction_value by exact Lf.
    apply Z.eqb_eq. apply Z.mod_mul.
    apply Z.pow_nonzero; lia.
Qed.

Lemma format_cap (pad : bool) (t : datetime) (ty : pattern) (n : nat) :
  (6 <= n)%nat ->
  format_utc_timestamp pad t ty n = format_utc_timestamp pad t ty 6.
Proof.
  intros L. unfold format_utc_timestamp.
  destruct (pattern_is ty DATE_FIELD_PATTERN); [reflexivity|].
  replace (0 <? n)%nat with true by (symmetry; apply Nat.ltb_lt; lia).
  cbn [Nat.ltb Nat.leb].
  rewrite !take_all by (rewrite zpad_len; lia). reflexivity.
Qed.

Lemma format_datetime_text (pad : bool) (t : datetime) (n : nat) :
  pad = true \/ 1000 <= year t ->
  format_utc_timestamp pad t DATETIME_FIELD_PATTERN n
  = date_text (zpad 4 (year t)) (zpad 2 (month t)) (zpad 2 (day t)) ++ "T"
    ++ time_text (zpad 2 (hour t)) (zpad 2 (minute t)) (zpad 2 (second t))
    ++ fraction_text (take n (zpad 6 (microsecond t))) ++ "Z".
Proof.
  intros Y. unfold format_utc_timestamp, strftime_base. cbn [pattern_is].
  rewrite strftime_Y_four by assumption.
  unfold date_text, time_text.
  destruct n as [|n].
  - cbn [Nat.ltb Nat.leb take fraction_text].
    repeat (first [rewrite append_assoc | progress cbn [append]]). reflexivity.
  - cbn [Nat.ltb Nat.leb]. cbn [zpad take fraction_text].
    repeat (first [rewrite append_assoc | progress cbn [append]]). reflexivity.
Qed.

Lemma format_supported (pad : bool) (t : datetime) (ty : pattern) (n : nat) :
  pattern_is ty DATE_FIELD_PATTERN || four_digit_year pad t = true ->
  supported (format_utc_timestamp pad t ty n) = true.
Proof.
  intros Y. unfold supported. destruct ty; cbn [pattern_is orb] in Y.
  - rewrite format_datetime_text.
    2:{ unfold four_digit_year in Y.
        apply orb_true_iff in Y as [Y | Y]; [now left | right; now apply Z.leb_le]. }
    destruct (datetime_text_is_datetime (zpad 4 (year t)) (zpad 2 (month t))
                (zpad 2 (day t)) (zpad 2 (hour t)) (zpad 2 (minute t))
                (zpad 2 (second t)) (take n (zpad 6 (microsecond t))))
      as (I & _); try apply numeral_zpad.
    + rewrite len_take, zpad_len. lia.
    + apply all_digits_take, zpad_all_digits.
    + cbv zeta in I. rewrite I. apply orb_true_r.
  - unfold format_utc_timestamp, isoformat_date. cbn [pattern_is].
    destruct (date_text_is_date_only (zpad 4 (year t)) (zpad 2 (month t))
                (zpad 2 (day t))) as (I & _); try apply numeral_zpad.
    unfold date_text in I. now rewrite I.
Qed.

End ParseFacts.

Module ScanFacts.

Import PyStr Calendar Datetime Re Timestamp Shape Json Updater Spec.

Import PyStrFacts CalendarFacts DatetimeFacts ReFacts TimestampFacts JsonFacts.

Import UpdaterFacts SpecFacts.

Import ParseFacts.

Local Open Scope list_scope.

Lemma flat_mapi_in {A B : Type} (f : nat -> A -> list B) (l : list A) (i0 i : nat)
    (x : A) (y : B) :
  nth_error l i = Some x -> In y (f (i0 + i)%nat x) -> In y (flat_mapi f i0 l).
Proof.
  revert i0 i; induction l as [|a l IH]; intros i0 [|i] E I; simpl in E;
    try discriminate.
  - injection E as ->. rewrite Nat.add_0_r in I. simpl. apply in_or_app. now left.
  - simpl. apply in_or_app. right. apply (IH (S i0) i); [exact E|].
    rewrite Nat.add_succ_r in I. exact I.
Qed.

Lemma dict_get_some_in (k : string) (v : json) (es : list (string * json)) :
  dict_get k es = Some v -> In (k, v) es.
Proof.
  induction es as [|[k0 v0] es IH]; simpl; [discriminate|].
  destruct (String.eqb_spec k0 k) as [-> | N].
  - intros E. injection E as ->. now left.
  - intros E. right. now apply IH.
Qed.

Lemma get_at_leaf (p : path) (k : key) (v x : json) :
  is_leaf v = true -> get_at (p ++ [k]) v = Ok x -> False.
Proof.
  intros L G. destruct p as [|k0 p]; simpl in G;
    destruct v; try discriminate L; destruct k; try destruct k0; discriminate G.
Qed.

(** Every string leaf inside the value scanned is yielded, with the place
    it is at. *)
Lemma iter_string_nodes_complete (v : json) :
  forall here rel k s,
    get_at (rel ++ [k]) v = Ok (JStr s) ->
    In (here ++ rel, k, s) (iter_string_nodes here v).
Proof.
  induction v as [ | b | n | x | s0 | items IH | entries IH] using json_induction;
    intros here rel k s G;
    try (exfalso; eapply get_at_leaf; [|exact G]; reflexivity).
  - rewrite Forall_forall in IH.
    destruct rel as [|k0 rel]; cbn [app get_at] in G.
    + destruct k as [ks | i]; [discriminate G|]. cbn [getitem rbind] in G.
      destruct (nth_error items i) as [item|] eqn:E; [|discriminate G].
      cbn in G. injection G as ->. rewrite app_nil_r.
      cbn [iter_string_nodes]. eapply (flat_mapi_in _ _ 0%nat i); [exact E|].
      now left.
    + destruct k0 as [ks | i]; [discriminate G|]. cbn [getitem rbind] in G.
      destruct (nth_error items i) as [item|] eqn:E; [|discriminate G].
      cbn [rbind] in G.
      cbn [iter_string_nodes]. eapply (flat_mapi_in _ _ 0%nat i); [exact E|].
      cbn [Nat.add].
      pose proof (IH item (nth_error_In _ _ E) (here ++ [KIdx i]) rel k s G) as I.
      rewrite <- app_assoc in I. cbn [app] in I.
      destruct item; try exact I.
      exfalso. eapply get_at_leaf; [|exact G]. reflexivity.
  - rewrite Forall_forall in IH.
    destruct rel as [|k0 rel]; cbn [app get_at] in G.
    + destruct k as [ks | i]; [|discriminate G]. cbn [getitem rbind] in G.
      destruct (dict_get ks entries) as [item|] eqn:E; [|discriminate G].
      cbn in G. injection G as ->. rewrite app_nil_r.
      cbn [iter_string_nodes]. apply in_flat_map.
      exists (ks, JStr s). split; [now apply dict_get_some_in|]. now left.
    + destruct k0 as [ks | i]; [|discriminate G]. cbn [getitem rbind] in G.
      destruct (dict_get ks entries) as [item|] eqn:E; [|discriminate G].
      cbn [rbind] in G. apply dict_get_some_in in E.
      cbn [iter_string_nodes]. apply in_flat_map.
      exists (ks, item). split; [exact E|]. cbn [fst snd].
      pose proof (IH (ks, item) E (here ++ [KStr ks]) rel k s G) as I.
      rewrite <- app_assoc in I. cbn [app snd] in I.
      destruct item; try exact I.
      exfalso. eapply get_at_leaf; [|exact G]. reflexivity.
Qed.

Lemma parse_raises (s : string) (e : exn) :
  parse_utc_timestamp s = Raise e -> e = ValueError.
Proof.
  rewrite parse_chomp. unfold spec_parse.
  destruct (is_date_only (chomp s)).
  - destruct (valid (text_instant (chomp s))); [discriminate|]. congruence.
  - destruct (is_datetime (chomp s)); [|discriminate].
    destruct (valid (text_instant (chomp s))); [discriminate|]. congruence.
Qed.

Lemma set_found_dates_twice (a b : list found) (s : FixtureUpdater) :
  set_found_dates a (set_found_dates b s) = set_found_dates a s.
Proof. reflexivity. Qed.

(** The inner loop of [collect_dates], in full: what it appends, when it
    raises, and that neither depends on what was found before. *)
Lemma collect_nodes_exact (ns : list node) :
  forall s r s',
    for_each ns collect_node s = (r, s') ->
    exists new,
      s' = set_found_dates (found_dates s ++ new) s
      /\ (r = Ok tt ->
          forall c k item, In (c, k, item) ns ->
            exists p, parse_utc_timestamp item = Ok p
              /\ forall t ty n, p = Some (t, ty, n) ->
                   In (mkfound c k t ty n) new)
      /\ (forall e, r = Raise e ->
            e = ValueError
            /\ exists c k item, In (c, k, item) ns
                 /\ parse_utc_timestamp item = Raise ValueError)
      /\ (forall s2, for_each ns collect_node s2
                     = (r, set_found_dates (found_dates s2 ++ new) s2))
      /\ Forall (from_nodes ns) new.
Proof.
  induction ns as [|[[c k] item] ns IH]; intros s r s' H.
  - simpl in H. unfold_monad. injection H as <- <-.
    exists []. rewrite app_nil_r, set_found_dates_same.
    split; [reflexivity|]. split; [intros _ ? ? ? []|].
    split; [discriminate|]. split; [|constructor].
    intros s2. now rewrite app_nil_r, set_found_dates_same.
  - cbn [for_each] in H. unfold bind at 1 in H. rewrite collect_node_run in H.
    destruct (parse_utc_timestamp item) as [[[[dt ty] fl]|]|e] eqn:P.
    + destruct (IH _ _ _ H) as (new & -> & Ok1 & Bad & Ind & F).
      exists (mkfound c k dt ty fl :: new).
      rewrite set_found_dates_twice. cbn [found_dates set_found_dates].
      rewrite <- app_assoc. split; [reflexivity|]. split; [|split; [|split]].
      * intros R c' k' item' [I | I].
        -- injection I as <- <- <-. exists (Some (dt, ty, fl)).
           split; [exact P|]. intros t ty' n E. injection E as <- <- <-. now left.
        -- destruct (Ok1 R c' k' item' I) as (p & Pp & Q).
           exists p. split; [exact Pp|]. intros t ty' n E. right. eauto.
      * intros e R. destruct (Bad e R) as (-> & c' & k' & item' & I & Q).
        split; [reflexivity|]. exists c', k', item'. split; [now right | exact Q].
      * intros s2. cbn [for_each]. unfold bind at 1.
        rewrite collect_node_run, P, Ind, set_found_dates_twice.
        cbn [found_dates set_found_dates]. now rewrite <- app_assoc.
      * constructor.
        -- exists item. cbn. split; [now left | exact P].
        -- eapply Forall_impl; [|exact F].
           intros e (it & I & Q). exists it. split; [now right | exact Q].
    + destruct (IH _ _ _ H) as (new & -> & Ok1 & Bad & Ind & F).
      exists new. split; [reflexivity|]. split; [|split; [|split]].
      * intros R c' k' item' [I | I].
        -- injection I as <- <- <-. exists None.
           split; [exact P|]. discriminate.
        -- now apply Ok1.
      * intros e R. destruct (Bad e R) as (-> & c' & k' & item' & I & Q).
        split; [reflexivity|]. exists c', k', item'. split; [now right | exact Q].
      * intros s2. cbn [for_each]. unfold bind at 1.
        now rewrite collect_node_run, P, Ind.
      * eapply Forall_impl; [|exact F].
        intros e (it & I & Q). exists it. split; [now right | exact Q].
    + injection H as <- <-. exists []. rewrite app_nil_r, set_found_dates_same.
      pose proof (parse_raises _ _ P) as ->.
      split; [reflexivity|]. split; [discriminate|]. split; [|split; [|constructor]].
      * intros e R. injection R as <-. split; [reflexivity|].
        exists c, k, item. split; [now left | exact P].
      * intros s2. cbn [for_each]. unfold bind at 1.
        now rewrite collect_node_run, P, app_nil_r, set_found_dates_same.
Qed.

Lemma well_formed_fields (obj : json) :
  well_formed_item obj = true ->
  exists fields, getitem obj (KStr "fields") = Ok fields /\ is_dict fields = true.
Proof.
  unfold well_formed_item. destruct obj; try discriminate. cbn [getitem].
  destruct (dict_get "fields" entries) as [[]|]; try discriminate.
  intros _. eexists. split; reflexivity.
Qed.

(** The outer loop of [collect_dates], in full. *)
Lemma collect_objects_exact (root : json) (objs : list (nat * json)) :
  distinct_keys root = true ->
  (forall idx obj, In (idx, obj) objs ->
     get_at [KIdx idx] root = Ok obj /\ well_formed_item obj = true) ->
  forall s r s',
    for_each objs collect_object s = (r, s') ->
    exists new,
      s' = set_found_dates (found_dates s ++ new) s
      /\ (r = Ok tt ->
          forall idx obj rel k item, In (idx, obj) objs ->
            get_at ([KStr "fields"] ++ rel ++ [k]) obj = Ok (JStr item) ->
            exists p, parse_utc_timestamp item = Ok p
              /\ forall t ty n, p = Some (t, ty, n) ->
                   In (mkfound ([KIdx idx; KStr "fields"] ++ rel) k t ty n) new)
      /\ (forall e, r = Raise e ->
            e = ValueError
            /\ exists idx rel k item,
                 get_at ([KIdx idx; KStr "fields"] ++ rel ++ [k]) root
                   = Ok (JStr item)
                 /\ parse_utc_timestamp item = Raise ValueError)
      /\ (forall s2, for_each objs collect_object s2
                     = (r, set_found_dates (found_dates s2 ++ new) s2))
      /\ Forall (fun e => recorded root e /\ under_fields e) new.
Proof.
  intros D. induction objs as [|[idx obj] objs IH]; intros G s r s' H.
  - simpl in H. unfold_monad. injection H as <- <-.
    exists []. rewrite app_nil_r, set_found_dates_same.
    split; [reflexivity|]. split; [intros _ ? ? ? ? ? []|].
    split; [discriminate|]. split; [|constructor].
    intros s2. now rewrite app_nil_r, set_found_dates_same.
  - destruct (G idx obj (or_introl eq_refl)) as [Gobj W].
    assert (G' : forall i o, In (i, o) objs ->
                   get_at [KIdx i] root = Ok o /\ well_formed_item o = true)
      by (intros i o I; apply G; now right).
    destruct (well_formed_fields obj W) as (fields & F & _).
    assert (Gf : get_at [KIdx idx; KStr "fields"] root = Ok fields).
    { change [KIdx idx; KStr "fields"] with ([KIdx idx] ++ [KStr "fields"]).
      rewrite (get_at_under _ _ _ _ Gobj). simpl. now rewrite F. }
    assert (Df : distinct_keys fields = true)
      by (eapply distinct_keys_get_at; eauto).
    assert (Step : forall s0 : FixtureUpdater,
              collect_object (idx, obj) s0
              = for_each (iter_string_nodes [KIdx idx; KStr "fields"] fields)
                  collect_node s0).
    { intros s0. unfold collect_object. unfold bind at 1. unfold lift at 1.
      now rewrite F. }
    cbn [for_each] in H. unfold bind at 1 in H. rewrite Step in H.
    destruct (for_each (iter_string_nodes [KIdx idx; KStr "fields"] fields)
                collect_node s) as [r1 s1] eqn:C.
    apply collect_nodes_exact in C as (new1 & -> & Ok1 & Bad1 & Ind1 & F1).
    assert (R1 : Forall (fun e => recorded root e /\ under_fields e) new1).
    { eapply Forall_impl; [|exact F1].
      intros e (item & I & P). destruct e as [c k dt ty fl].
      cbn [f_container f_key f_dt f_type f_fraction_len] in *.
      apply iter_string_nodes_sound in I as (rel & -> & Gi); [|exact Df].
      split; [|now exists idx, rel].
      exists item. split; [|exact P]. unfold location.
      cbn [f_container f_key].
      rewrite <- app_assoc. now rewrite (get_at_under _ _ _ _ Gf). }
    destruct r1 as [[]|e1].
    + destruct (IH G' _ _ _ H) as (new2 & -> & Ok2 & Bad2 & Ind2 & R2).
      exists (new1 ++ new2). rewrite set_found_dates_twice.
      cbn [found_dates set_found_dates]. rewrite app_assoc.
      split; [reflexivity|]. split; [|split; [|split]].
      * intros R i o rel k item [I | I] Gi.
        -- injection I as <- <-. cbn [app get_at] in Gi. rewrite F in Gi.
           cbn [rbind] in Gi.
           destruct (Ok1 eq_refl ([KIdx idx; KStr "fields"] ++ rel) k item)
             as (p & P & Q).
           { now apply iter_string_nodes_complete. }
           exists p. split; [exact P|]. intros t ty n E.
           apply in_or_app. left. eauto.
        -- destruct (Ok2 R i o rel k item I Gi) as (p & P & Q).
           exists p. split; [exact P|]. intros t ty n E.
           apply in_or_app. right. eauto.
      * exact Bad2.
      * intros s2. cbn [for_each]. unfold bind at 1.
        rewrite Step, Ind1, Ind2, set_found_dates_twice.
        cbn [found_dates set_found_dates]. now rewrite app_assoc.
      * now apply Forall_app.
    + injection H as <- <-. exists new1. split; [reflexivity|].
      split; [discriminate|]. split; [|split; [|exact R1]].
      * intros e R. injection R as <-.
        destruct (Bad1 e1 eq_refl) as (-> & c & k & item & I & P).
        split; [reflexivity|].
        apply iter_string_nodes_sound in I as (rel & -> & Gi); [|exact Df].
        exists idx, rel, k, item. split; [|exact P].
        exact (eq_trans (get_at_under _ (rel ++ [k]) _ _ Gf) Gi).
      * intros s2. cbn [for_each]. unfold bind at 1. now rewrite Step, Ind1.
Qed.

Lemma enumerate_from_in {A : Type} (l : list A) (i0 i : nat) (x : A) :
  nth_error l i = Some x -> In ((i0 + i)%nat, x) (enumerate_from i0 l).
Proof.
  revert i0 i; induction l as [|a l IH]; intros i0 [|i] E; simpl in E;
    try discriminate.
  - injection E as ->. rewrite Nat.add_0_r. now left.
  - right. rewrite Nat.add_succ_r. apply (IH (S i0) i E).
Qed.

(** [collect_dates], in full, on a tree whose items are well formed. *)
Lemma collect_dates_exact (s : FixtureUpdater) (items : list json)
    (r : result unit) (s' : FixtureUpdater) :
  data s = JList items -> distinct_keys (data s) = true ->
  forallb well_formed_item items = true ->
  collect_dates s = (r, s') ->
  exists new,
    s' = set_found_dates (found_dates s ++ new) s
    /\ (r = Ok tt ->
        forall idx rel k item,
          get_at ([KIdx idx; KStr "fields"] ++ rel ++ [k]) (data s)
            = Ok (JStr item) ->
          exists p, parse_utc_timestamp item = Ok p
            /\ forall t ty n, p = Some (t, ty, n) ->
                 In (mkfound ([KIdx idx; KStr "fields"] ++ rel) k t ty n) new)
    /\ (forall e, r = Raise e ->
          e = ValueError
          /\ exists idx rel k item,
               get_at ([KIdx idx; KStr "fields"] ++ rel ++ [k]) (data s)
                 = Ok (JStr item)
               /\ parse_utc_timestamp item = Raise ValueError)
    /\ (forall s2, data s2 = data s ->
          collect_dates s2 = (r, set_found_dates (found_dates s2 ++ new) s2))
    /\ Forall (fun e => recorded (data s) e /\ under_fields e) new.
Proof.
  intros E D W H.
  assert (Step : forall s0, data s0 = data s ->
            collect_dates s0 = for_each (enumerate_from 0 items) collect_object s0).
  { intros s0 E0. unfold collect_dates. unfold bind at 1. unfold gets at 1.
    unfold bind at 1. unfold lift at 1. now rewrite E0, E. }
  rewrite (Step s eq_refl) in H.
  assert (G : forall idx obj, In (idx, obj) (enumerate_from 0 items) ->
                get_at [KIdx idx] (data s) = Ok obj /\ well_formed_item obj = true).
  { intros idx obj I. apply enumerate_from_nth in I as [_ N].
    rewrite Nat.sub_0_r in N. split.
    - rewrite E. simpl. now rewrite N.
    - rewrite forallb_forall in W. apply W. eapply nth_error_In; eauto. }
  destruct (collect_objects_exact (data s) _ D G _ _ _ H)
    as (new & -> & Ok1 & Bad & Ind & R).
  exists new. split; [reflexivity|]. split; [|split; [exact Bad|split; [|exact R]]].
  - intros Rk idx rel k item Gi. rewrite E in Gi.
    cbn [app get_at getitem rbind] in Gi.
    destruct (nth_error items idx) as [obj|] eqn:N; [|discriminate Gi].
    cbn [rbind] in Gi.
    apply (Ok1 Rk idx obj rel k item).
    + exact (enumerate_from_in items 0 idx obj N).
    + exact Gi.
  - intros s2 E2. rewrite (Step s2 E2). apply Ind.
Qed.

Lemma NoDup_flat_mapi {A B C : Type} (g : B -> C) (f : nat -> A -> list B)
    (l : list A) :
  forall i0,
    (forall i x, nth_error l i = Some x -> NoDup (map g (f (i0 + i)%nat x))) ->
    (forall i j x y a b,
       nth_error l i = Some x -> nth_error l j = Some y ->
       In a (f (i0 + i)%nat x) -> In b (f (i0 + j)%nat y) -> g a = g b -> i = j) ->
    NoDup (map g (flat_mapi f i0 l)).
Proof.
  induction l as [|x l IH]; intros i0 N Sep; [constructor|].
  cbn [flat_mapi]. rewrite map_app. apply NoDup_app.
  - specialize (N 0%nat x eq_refl). now rewrite Nat.add_0_r in N.
  - apply IH.
    + intros i y E. specialize (N (S i) y E). now rewrite Nat.add_succ_r in N.
    + intros i j y z a b Ei Ej Ia Ib Eg.
      assert (S i = S j); [|lia].
      apply (Sep (S i) (S j) y z a b Ei Ej); [| |exact Eg];
        now rewrite Nat.add_succ_r.
  - intros c Ia Ib.
    apply in_map_iff in Ia as (a & <- & Ia).
    apply in_map_iff in Ib as (b & Eg & Ib).
    apply in_flat_mapi in Ib as (j & y & Ej & Ib).
    assert (0%nat = S j); [|discriminate].
    apply (Sep 0%nat (S j) x y a b eq_refl Ej); [| |now symmetry].
    + now rewrite Nat.add_0_r.
    + now rewrite Nat.add_succ_r in *.
Qed.

Lemma NoDup_flat_map_keys {B C : Type} (g : B -> C)
    (f : string * json -> list B) (l : list (string * json)) :
  distinct (map fst l) = true ->
  (forall e, In e l -> NoDup (map g (f e))) ->
  (forall e1 e2 a b, In e1 l -> In e2 l -> In a (f e1) -> In b (f e2) ->
     g a = g b -> fst e1 = fst e2) ->
  NoDup (map g (flat_map f l)).
Proof.
  induction l as [|e l IH]; intros D N Sep; [constructor|].
  cbn [flat_map]. rewrite map_app. cbn [map distinct] in D.
  apply andb_true_iff in D as [Fr D]. apply NoDup_app.
  - apply N. now left.
  - apply IH; [exact D | |].
    + intros e' I. apply N. now right.
    + intros e1 e2 a b I1 I2. apply Sep; now right.
  - intros c Ia Ib.
    apply in_map_iff in Ia as (a & <- & Ia).
    apply in_map_iff in Ib as (b & Eg & Ib).
    apply in_flat_map in Ib as (e' & I' & Ib).
    assert (K : fst e = fst e').
    { apply (Sep e e' a b); [now left | now right | exact Ia | exact Ib | now symmetry]. }
    unfold fresh_key in Fr. apply negb_true_iff in Fr.
    assert (X : existsb (String.eqb (fst e)) (map fst l) = true); [|congruence].
    apply existsb_exists. exists (fst e'). split; [now apply in_map|].
    rewrite K. apply String.eqb_refl.
Qed.

Lemma node_place_under (here : path) (k0 : key) (item : json) (n : node) :
  distinct_keys item = true ->
  In n (match item with
        | JStr s => [(here, k0, s)]
        | _ => iter_string_nodes (here ++ [k0]) item
        end) ->
  exists rest, node_place n = here ++ k0 :: rest.
Proof.
  intros D I. destruct n as [[c k] s].
  assert (G : forall v, v = item ->
              In (c, k, s) (iter_string_nodes (here ++ [k0]) v) ->
              exists rest, node_place (c, k, s) = here ++ k0 :: rest).
  { intros v -> J. apply iter_string_nodes_sound in J as (rel & -> & _); [|exact D].
    exists (rel ++ [k]). unfold node_place. cbn [fst snd].
    now rewrite <- !app_assoc. }
  destruct item; try (now apply (G _ eq_refl)).
  destruct I as [I | []]. injection I as <- <- <-. now exists [].
Qed.

(** No place is yielded twice. *)
Lemma iter_string_nodes_nodup (v : json) :
  forall here,
    distinct_keys v = true ->
    NoDup (map node_place (iter_string_nodes here v)).
Proof.
  induction v as [ | b | n | x | s0 | items IH | entries IH] using json_induction;
    intros here D; try constructor.
  - cbn [iter_string_nodes]. cbn [distinct_keys] in D.
    rewrite forallb_forall in D. rewrite Forall_forall in IH.
    apply (NoDup_flat_mapi node_place).
    + intros i item E. pose proof (nth_error_In _ _ E) as Hin.
      destruct item; try (apply IH; [exact Hin | now apply D]).
      repeat constructor. intros [].
    + intros i j y z a b Ei Ej Ia Ib Eg. cbn [Nat.add] in *.
      apply node_place_under in Ia as (ra & Ea);
        [|apply D; eapply nth_error_In; eauto].
      apply node_place_under in Ib as (rb & Eb);
        [|apply D; eapply nth_error_In; eauto].
      rewrite Ea, Eb in Eg. apply app_inv_head in Eg. now injection Eg.
  - cbn [iter_string_nodes]. cbn [distinct_keys] in D.
    apply andb_true_iff in D as [Dk D].
    rewrite forallb_forall in D. rewrite Forall_forall in IH.
    apply (NoDup_flat_map_keys node_place); [exact Dk | |].
    + intros [k0 item] Hin. cbn [fst snd].
      pose proof (IH _ Hin) as IHe. pose proof (D _ Hin) as De. cbn [snd] in *.
      destruct item; try (now apply IHe).
      repeat constructor. intros [].
    + intros [k1 y] [k2 z] a b I1 I2 Ia Ib Eg. cbn [fst snd] in *.
      apply node_place_under in Ia as (ra & Ea); [|exact (D _ I1)].
      apply node_place_under in Ib as (rb & Eb); [|exact (D _ I2)].
      rewrite Ea, Eb in Eg. apply app_inv_head in Eg. now injection Eg.
Qed.

Lemma collect_nodes_nodup (ns : list node) :
  NoDup (map node_place ns) ->
  forall s r s',
    for_each ns collect_node s = (r, s') ->
    exists new,
      s' = set_found_dates (found_dates s ++ new) s
      /\ NoDup (map location new)
      /\ (forall e, In e new -> In (location e) (map node_place ns)).
Proof.
  induction ns as [|[[c k] item] ns IH]; intros N s r s' H.
  - simpl in H. unfold_monad. injection H as <- <-.
    exists []. rewrite app_nil_r, set_found_dates_same.
    split; [reflexivity|]. split; [apply NoDup_nil | intros ? []].
  - cbn [map] in N. apply NoDup_cons_iff in N as [Nin N].
    cbn [for_each] in H. unfold bind at 1 in H. rewrite collect_node_run in H.
    destruct (parse_utc_timestamp item) as [[[[dt ty] fl]|]|e] eqn:P.
    + destruct (IH N _ _ _ H) as (new & -> & Nd & Sub).
      exists (mkfound c k dt ty fl :: new).
      rewrite set_found_dates_twice. cbn [found_dates set_found_dates].
      rewrite <- app_assoc. split; [reflexivity|]. split.
      * cbn [map]. constructor; [|exact Nd].
        intros I. apply in_map_iff in I as (e & El & I).
        apply Nin.
        change (node_place (c, k, item)) with (location (mkfound c k dt ty fl)).
        rewrite <- El. now apply Sub.
      * intros e [<- | I]; [now left | right; now apply Sub].
    + destruct (IH N _ _ _ H) as (new & -> & Nd & Sub).
      exists new. split; [reflexivity|]. split; [exact Nd|].
      intros e I. right. now apply Sub.
    + injection H as <- <-. exists []. rewrite app_nil_r, set_found_dates_same.
      split; [reflexivity|]. split; [apply NoDup_nil | intros ? []].
Qed.

Lemma collect_objects_nodup (root : json) (items : list json) :
  distinct_keys root = true ->
  forall i0,
    (forall i obj, nth_error items i = Some obj ->
       get_at [KIdx (i0 + i)] root = Ok obj) ->
    forall s r s',
      for_each (enumerate_from i0 items) collect_object s = (r, s') ->
      exists new,
        s' = set_found_dates (found_dates s ++ new) s
        /\ NoDup (map location new)
        /\ (forall e, In e new ->
              exists idx rest,
                (i0 <= idx)%nat /\ location e = KIdx idx :: rest).
Proof.
  intros D. induction items as [|obj items IH]; intros i0 G s r s' H.
  - simpl in H. unfold_monad. injection H as <- <-.
    exists []. rewrite app_nil_r, set_found_dates_same.
    split; [reflexivity|]. split; [apply NoDup_nil | intros ? []].
  - cbn [enumerate_from for_each] in H. unfold bind at 1 in H.
    unfold collect_object in H. unfold bind at 1 in H. unfold lift at 1 in H.
    pose proof (G 0%nat obj eq_refl) as Gobj. rewrite Nat.add_0_r in Gobj.
    assert (G' : forall i o, nth_error items i = Some o ->
                   get_at [KIdx (S i0 + i)] root = Ok o).
    { intros i o E. specialize (G (S i) o E). now rewrite Nat.add_succ_r in G. }
    destruct (getitem obj (KStr "fields")) as [fields|e] eqn:F.
    2:{ injection H as <- <-. exists []. rewrite app_nil_r, set_found_dates_same.
        split; [reflexivity|]. split; [apply NoDup_nil | intros ? []]. }
    assert (Gf : get_at [KIdx i0; KStr "fields"] root = Ok fields).
    { change [KIdx i0; KStr "fields"] with ([KIdx i0] ++ [KStr "fields"]).
      rewrite (get_at_under _ _ _ _ Gobj). simpl. now rewrite F. }
    assert (Df : distinct_keys fields = true)
      by (eapply distinct_keys_get_at; eauto).
    destruct (for_each (iter_string_nodes [KIdx i0; KStr "fields"] fields)
                collect_node s) as [r1 s1] eqn:C.
    apply collect_nodes_nodup in C as (new1 & -> & Nd1 & Sub1);
      [|now apply iter_string_nodes_nodup].
    assert (P1 : forall e, In e new1 ->
              exists rest, location e = KIdx i0 :: rest).
    { intros e I. apply Sub1 in I. apply in_map_iff in I as ([[c k] it] & <- & I).
      apply iter_string_nodes_sound in I as (rel & -> & _); [|exact Df].
      unfold node_place. cbn [fst snd app]. eauto. }
    destruct r1 as [[]|e1].
    + destruct (IH (S i0) G' _ _ _ H) as (new2 & -> & Nd2 & P2).
      exists (new1 ++ new2). rewrite set_found_dates_twice.
      cbn [found_dates set_found_dates]. rewrite app_assoc.
      split; [reflexivity|]. split.
      * rewrite map_app. apply NoDup_app; [exact Nd1 | exact Nd2 |].
        intros p I1 I2.
        apply in_map_iff in I1 as (e1 & <- & I1).
        apply in_map_iff in I2 as (e2 & El & I2).
        destruct (P1 e1 I1) as (rest1 & E1).
        destruct (P2 e2 I2) as (idx & rest2 & Li & E2).
        rewrite E1, E2 in El. injection El as -> _. lia.
      * intros e I. apply in_app_or in I as [I | I].
        -- destruct (P1 e I) as (rest & E). exists i0, rest. split; [lia | exact E].
        -- destruct (P2 e I) as (idx & rest & Li & E).
           exists idx, rest. split; [lia | exact E].
    + injection H as <- <-. exists new1. split; [reflexivity|].
      split; [exact Nd1|]. intros e I.
      destruct (P1 e I) as (rest & E). exists i0, rest. split; [lia | exact E].
Qed.

(** No place is recorded twice by a scan that starts with nothing
    found. *)
Lemma collect_dates_nodup (s : FixtureUpdater) (items : list json)
    (r : result unit) (s' : FixtureUpdater) :
  data s = JList items -> distinct_keys (data s) = true ->
  found_dates s = [] ->
  collect_dates s = (r, s') ->
  NoDup (map location (found_dates s')).
Proof.
  intros E D F H. unfold collect_dates in H.
  unfold bind at 1 in H. unfold gets at 1 in H.
  unfold bind at 1 in H. unfold lift at 1 in H.
  rewrite E in H. cbn [objects] in H.
  apply (collect_objects_nodup (data s) items D 0%nat) in H
    as (new & -> & Nd & _).
  - cbn [found_dates set_found_dates]. now rewrite F.
  - intros i obj N. rewrite E. simpl. now rewrite N.
Qed.

End ScanFacts.

Module RunFacts.

Import PyStr Calendar Datetime Re Timestamp Shape Json Updater Spec.

Import PyStrFacts CalendarFacts DatetimeFacts ReFacts TimestampFacts JsonFacts.

Import UpdaterFacts SpecFacts.

Import ParseFacts ScanFacts.

Local Open Scope list_scope.

Ltac fields :=
  cbn [target_latest_dt data found_dates latest_dt latest_type latest_fraction_len
       delta updated_count elapsed_ms written set_data set_found_dates set_latest
       set_delta set_updated_count set_elapsed_ms set_written] in *.

Lemma shift_loop_frame (pad : bool) (d : timedelta) (l : list found) :
  forall s r s',
    for_each l (shift_one pad d) s = (r, s') -> exists root', s' = set_data root' s.
Proof.
  induction l as [|e l IH]; intros s r s' H.
  - simpl in H. unfold_monad. injection H as <- <-.
    exists (data s). now rewrite set_data_same.
  - cbn [for_each] in H. unfold bind at 1 in H. rewrite shift_one_run in H.
    destruct (dt_add (f_dt e) d) as [sh|x].
    2:{ injection H as <- <-. exists (data s). now rewrite set_data_same. }
    destruct (set_at _ _ _ _) as [root1|x].
    2:{ injection H as <- <-. exists (data s). now rewrite set_data_same. }
    destruct (IH _ _ _ H) as (root' & ->). now exists root'.
Qed.

(** [apply_shift] changes nothing but the tree, and what it returns is
    the number of elements of [found_dates]. *)
Lemma apply_shift_frame (pad : bool) (s : FixtureUpdater) (r : result nat)
    (s' : FixtureUpdater) :
  apply_shift pad s = (r, s') ->
  (exists root', s' = set_data root' s)
  /\ (forall n, r = Ok n -> n = List.length (found_dates s) /\ delta s <> None).
Proof.
  intros H. destruct (delta s) as [d|] eqn:Dl.
  - rewrite (apply_shift_run pad s d Dl) in H.
    destruct (for_each (found_dates s) (shift_one pad d) s) as [r3 s3] eqn:L.
    apply shift_loop_frame in L as (root' & ->).
    destruct r3; injection H as <- <-.
    + split; [now exists root'|]. intros n E. injection E as <-.
      split; [reflexivity | discriminate].
    + split; [now exists root'|]. discriminate.
  - rewrite (apply_shift_unset pad s Dl) in H. injection H as <- <-.
    split; [|discriminate]. exists (data s). now rewrite set_data_same.
Qed.

Lemma collect_objects_frame (objs : list (nat * json)) :
  forall s r s',
    for_each objs collect_object s = (r, s') ->
    exists new, s' = set_found_dates (found_dates s ++ new) s.
Proof.
  induction objs as [|[idx obj] objs IH]; intros s r s' H.
  - simpl in H. unfold_monad. injection H as <- <-.
    exists []. now rewrite app_nil_r, set_found_dates_same.
  - cbn [for_each] in H. unfold bind at 1 in H. unfold collect_object in H.
    unfold bind at 1 in H. unfold lift at 1 in H.
    destruct (getitem obj (KStr "fields")) as [fields|e].
    + destruct (for_each (iter_string_nodes [KIdx idx; KStr "fields"] fields)
                  collect_node s) as [r1 s1] eqn:C.
      apply collect_nodes_spec in C as (new1 & -> & _).
      destruct r1 as [[]|e1].
      * destruct (IH _ _ _ H) as (new2 & ->). exists (new1 ++ new2).
        rewrite set_found_dates_twice. cbn [found_dates set_found_dates].
        now rewrite app_assoc.
      * injection H as <- <-. now exists new1.
    + injection H as <- <-. exists []. now rewrite app_nil_r, set_found_dates_same.
Qed.

(** [collect_dates] changes nothing but [found_dates], which it only
    extends. *)
Lemma collect_dates_frame (s : FixtureUpdater) (r : result unit)
    (s' : FixtureUpdater) :
  collect_dates s = (r, s') ->
  exists new, s' = set_found_dates (found_dates s ++ new) s.
Proof.
  unfold collect_dates. unfold bind at 1. unfold gets at 1.
  unfold bind at 1. unfold lift at 1.
  destruct (objects (data s)) as [objs|e].
  - apply collect_objects_frame.
  - intros H. injection H as <- <-. exists [].
    now rewrite app_nil_r, set_found_dates_same.
Qed.

(** [load_fixture] assigns [self.data] once every check has passed, and
    nothing else. *)
Lemma load_fixture_frame (fixture : result json) (s : FixtureUpdater)
    (r : result unit) (s' : FixtureUpdater) :
  load_fixture fixture s = (r, s') ->
  (exists items, fixture = Ok (JList items)
     /\ forallb well_formed_item items = true
     /\ r = Ok tt /\ s' = set_data (JList items) s)
  \/ (exists e, r = Raise e /\ s' = s).
Proof.
  destruct fixture as [v|e].
  - destruct (is_list v) eqn:L.
    + destruct v as [ | | | | | items | ]; try discriminate L.
      destruct (forallb well_formed_item items) eqn:W.
      * rewrite (load_fixture_ok _ _ W). intros H. injection H as <- <-.
        left. exists items. auto.
      * destruct (load_fixture_bad_item items s W) as (idx & item & _ & _ & _ & E).
        rewrite E. intros H. injection H as <- <-. right. eauto.
    + rewrite (load_fixture_not_list _ _ L). intros H. injection H as <- <-.
      right. eauto.
  - intros H. cbn in H. injection H as <- <-. right. eauto.
Qed.

Lemma max_from_in (l : list found) (best : found) :
  In (max_from best l) (best :: l).
Proof.
  revert best; induction l as [|x l IH]; intros best; [now left|].
  cbn [max_from]. destruct (dt_gt (f_dt x) (f_dt best)).
  - right. apply IH.
  - destruct (IH best) as [E | I]; [now left | right; now right].
Qed.

(** [compute_shift] raises on an empty [found_dates]; otherwise it sets
    the latest element and the delta, and nothing else. *)
Lemma compute_shift_frame (now : datetime) (s : FixtureUpdater) :
  (found_dates s = [] /\ compute_shift now s = (Raise ValueError, s))
  \/ (exists latest,
        In latest (found_dates s)
        /\ compute_shift now s
           = (Ok tt,
              set_delta (dt_sub (target_of (target_latest_dt s) now) (f_dt latest))
                (set_latest latest s))).
Proof.
  destruct (found_dates s) as [|x l] eqn:F.
  - left. split; [reflexivity|]. now apply compute_shift_empty.
  - right. exists (max_from x l). split; [apply max_from_in|].
    apply compute_shift_run. now rewrite F.
Qed.

(** What [run] leaves behind, whatever the fixture and the state it
    starts from: a run that raises has not reached [write_output] nor set
    the count or the time; a run that returns has set the time, and has
    set the count and written the tree exactly when something was found. *)
Lemma run_outcome (pad : bool) (fixture : result json) (now : datetime)
    (elapsed : Z) (s : FixtureUpdater) (r : result unit) (s' : FixtureUpdater) :
  run pad fixture now elapsed s = (r, s') ->
  match r with
  | Raise _ =>
      written s' = written s /\ updated_count s' = updated_count s
      /\ elapsed_ms s' = elapsed_ms s
  | Ok _ =>
      elapsed_ms s' = elapsed
      /\ ((found_dates s' = [] /\ written s' = written s
           /\ updated_count s' = updated_count s /\ delta s' = delta s
           /\ latest_dt s' = latest_dt s)
          \/ (found_dates s' <> [] /\ written s' = Some (data s')
              /\ updated_count s' = List.length (found_dates s')
              /\ exists latest,
                   In latest (found_dates s')
                   /\ latest_dt s' = Some (f_dt latest)
                   /\ latest_type s' = Some (f_type latest)
                   /\ latest_fraction_len s' = f_fraction_len latest
                   /\ delta s'
                      = Some (dt_sub (target_of (target_latest_dt s) now)
                                (f_dt latest))))
  end.
Proof.
  unfold run. unfold bind at 1.
  destruct (load_fixture fixture s) as [r0 s0] eqn:L.
  apply load_fixture_frame in L
    as [(items & -> & W & -> & ->) | (e & -> & ->)].
  2:{ intros H. injection H as <- <-. auto. }
  unfold bind at 1.
  destruct (collect_dates (set_data (JList items) s)) as [r1 s1] eqn:C.
  apply collect_dates_frame in C as (new & ->).
  cbn [found_dates set_data].
  destruct r1 as [[]|e]; [|intros H; injection H as <- <-; auto].
  unfold bind at 1. unfold gets at 1. cbn [found_dates set_found_dates].
  set (s1 := set_found_dates (found_dates s ++ new) (set_data (JList items) s)).
  destruct (found_dates s ++ new) as [|x l] eqn:F.
  - unfold modify. intros H. injection H as <- <-. split; [reflexivity|]. left.
    unfold s1. fields. auto.
  - unfold bind at 1.
    destruct (compute_shift_frame now s1) as [[E _] | (latest & I & ->)].
    { unfold s1 in E. fields. discriminate E. }
    unfold bind at 1.
    set (s2 := set_delta _ (set_latest latest s1)).
    destruct (apply_shift pad s2) as [r3 s3] eqn:A.
    apply apply_shift_frame in A as [(root' & ->) N].
    destruct r3 as [n|e]; [|intros H; injection H as <- <-; auto].
    destruct (N n eq_refl) as [-> _].
    unfold bind at 1. unfold modify at 1. unfold bind at 1.
    rewrite write_output_run. unfold modify. intros H. injection H as <- <-.
    split; [reflexivity|]. right. unfold s2, s1 in *. fields.
    split; [discriminate|]. split; [reflexivity|]. split; [reflexivity|].
    exists latest. auto.
Qed.

Lemma dict_set_same (k : string) (v : json) (es : list (string * json)) :
  dict_get k es = Some v -> dict_set k v es = es.
Proof.
  induction es as [|[k0 v0] es IH]; simpl; [discriminate|].
  destruct (String.eqb k0 k).
  - intros E. now injection E as ->.
  - intros E. now rewrite IH.
Qed.

Lemma list_set_nth (i : nat) (v : json) (l : list json) :
  nth_error l i = Some v -> list_set i v l = Some l.
Proof.
  revert i; induction l as [|x l IH]; intros [|i] E; simpl in E; try discriminate.
  - now injection E as ->.
  - simpl. now rewrite (IH i E).
Qed.

Lemma setitem_same (c : json) (k : key) (v : json) :
  getitem c k = Ok v -> setitem c k v = Ok c.
Proof.
  destruct c as [ | | | | | items | entries], k as [ks | i];
    simpl; try discriminate.
  - destruct (nth_error items i) as [x|] eqn:E; [|discriminate].
    intros H. injection H as ->. now rewrite (list_set_nth _ _ _ E).
  - destruct (dict_get ks entries) as [x|] eqn:E; [|discriminate].
    intros H. injection H as ->. now rewrite (dict_set_same _ _ _ E).
Qed.

(** Assigning to a place the value it holds leaves the tree as it is. *)
Lemma set_at_same (p : path) (k : key) (v root : json) :
  get_at (p ++ [k]) root = Ok v -> set_at p k v root = Ok root.
Proof.
  revert root; induction p as [|k0 p IH]; intros root G; cbn [app get_at] in G.
  - cbn [set_at]. apply setitem_same.
    destruct (getitem root k) as [x|]; [|discriminate G]. exact G.
  - cbn [set_at]. destruct (getitem root k0) as [child|] eqn:E; [|discriminate G].
    cbn [rbind] in *. rewrite (IH child G). cbn [rbind].
    now apply setitem_same.
Qed.

(** A pass of the loop of [apply_shift] over places that hold their
    shifted texts already changes nothing. *)
Lemma shift_loop_fixed (pad : bool) (d : timedelta) (l : list found)
    (s : FixtureUpdater) :
  (forall e, In e l ->
     exists shifted,
       dt_add (f_dt e) d = Ok shifted
       /\ get_at (location e) (data s)
          = Ok (JStr (format_utc_timestamp pad shifted (f_type e)
                        (f_fraction_len e)))) ->
  for_each l (shift_one pad d) s = (Ok tt, s).
Proof.
  induction l as [|e l IH]; intros H; [reflexivity|].
  cbn [for_each]. unfold bind at 1. rewrite shift_one_run.
  destruct (H e (or_introl eq_refl)) as (sh & -> & G).
  unfold location in G. rewrite (set_at_same _ _ _ _ G), set_data_same.
  apply IH. intros e' I. apply H. now right.
Qed.


(** [dt_add] raises exactly when the sum is before year 1 or after year
    9999. *)
Lemma dt_add_overflow (t : datetime) (d : timedelta) :
  dt_add t d = Raise OverflowError
  <-> ~ (US_PER_DAY <= to_micros t + d < (MAXORDINAL + 1) * US_PER_DAY).
Proof.
  split.
  - intros R H. destruct (dt_add_defined t d H) as [r E]. congruence.
  - intros N. unfold dt_add. cbv zeta.
    set (total := to_micros t + d) in *.
    destruct ((0 <? total / US_PER_DAY) && (total / US_PER_DAY <=? MAXORDINAL))
      eqn:G; [|reflexivity].
    exfalso. apply N. apply andb_true_iff in G as [G1 G2].
    apply Z.ltb_lt in G1. apply Z.leb_le in G2.
    unfold US_PER_DAY, MAXORDINAL in *. Z.div_mod_to_equations. lia.
Qed.

Lemma dt_add_zero (t : datetime) : valid t = true -> dt_add t 0 = Ok t.
Proof.
  intros V. replace 0 with (dt_sub t t) by (unfold dt_sub; lia).
  now apply dt_add_sub.
Qed.

Lemma truncate_le (t : datetime) (ty : pattern) (n : nat) :
  valid t = true -> to_micros (truncate_to t ty n) <= to_micros t.
Proof.
  intros V. apply valid_iff in V as (_ & Hh & Hm & Hs & Hu).
  destruct ty; unfold truncate_to, midnight, to_micros, toordinal, time_of_day;
    cbn [year month day hour minute second microsecond].
  - assert (0 < 10 ^ Z.of_nat (6 - n)) by (apply Z.pow_pos_nonneg; lia).
    pose proof (Z.mod_pos_bound (microsecond t) (10 ^ Z.of_nat (6 - n))). lia.
  - lia.
Qed.

(** The scan of a loaded fixture, in full. *)
Lemma run_scanned (items : list json) (target : option datetime) :
  forallb well_formed_item items = true ->
  distinct_keys (JList items) = true ->
  exists r1 l,
    collect_dates (set_data (JList items) (init target))
      = (r1, scanned target (JList items) l)
    /\ Forall (fun e => recorded (JList items) e /\ under_fields e) l
    /\ (r1 = Ok tt ->
        forall idx rel k item,
          get_at ([KIdx idx; KStr "fields"] ++ rel ++ [k]) (JList items)
            = Ok (JStr item) ->
          exists p, parse_utc_timestamp item = Ok p
            /\ forall t ty n, p = Some (t, ty, n) ->
                 In (mkfound ([KIdx idx; KStr "fields"] ++ rel) k t ty n) l)
    /\ (forall e, r1 = Raise e ->
          e = ValueError
          /\ exists idx rel k item,
               get_at ([KIdx idx; KStr "fields"] ++ rel ++ [k]) (JList items)
                 = Ok (JStr item)
               /\ parse_utc_timestamp item = Raise ValueError).
Proof.
  intros W D.
  destruct (collect_dates (set_data (JList items) (init target))) as [r1 s1] eqn:C.
  apply collect_dates_exact with (items := items) in C
    as (l & -> & Ok1 & Bad & _ & R); [|reflexivity|exact D|exact W].
  exists r1, l. split; [reflexivity|]. split; [exact R|].
  split; [exact Ok1 | exact Bad].
Qed.

(** Rendering what a string parsed to gives the string back, when the
    string is of one of the two shapes and [strftime] writes the year with
    four digits. *)
Lemma render_parsed (pad : bool) (item : string) (t : datetime) (ty : pattern)
    (n : nat) :
  parse_utc_timestamp item = Ok (Some (t, ty, n)) ->
  supported item = true ->
  pattern_is ty DATE_FIELD_PATTERN || four_digit_year pad t = true ->
  format_utc_timestamp pad t ty n = item.
Proof.
  intros P S Y. rewrite (parse_is_spec_parse item (or_introl S)) in P.
  unfold spec_parse in P. destruct (is_date_only item) eqn:D.
  - destruct (valid (text_instant item)); [|discriminate P].
    injection P as <- <- <-. now apply render_parsed_date.
  - unfold supported in S. rewrite D in S. cbn [orb] in S. rewrite S in P.
    destruct (valid (text_instant item)); [|discriminate P].
    injection P as <- <- <-. cbn [pattern_is orb] in Y.
    apply render_parsed_datetime; [exact S|].
    unfold four_digit_year in Y.
    apply orb_true_iff in Y as [Y | Y]; [now left | right; now apply Z.leb_le].
Qed.

Lemma under_fields_location (e : found) :
  under_fields e ->
  exists idx rest, location e = KIdx idx :: KStr "fields" :: rest.
Proof.
  intros (idx & rel & E). exists idx, (rel ++ [f_key e]).
  unfold location. now rewrite E.
Qed.

Lemma shown_unit_pos (ty : pattern) (n : nat) : 0 < shown_unit ty n.
Proof.
  destruct ty; unfold shown_unit, US_PER_DAY; [|lia].
  apply Z.pow_pos_nonneg; lia.
Qed.

Lemma million_split (k : nat) :
  (k <= 6)%nat -> 1000000 = 10 ^ Z.of_nat k * 10 ^ Z.of_nat (6 - k).
Proof.
  intros L. rewrite <- Z.pow_add_r by lia.
  replace (Z.of_nat k + Z.of_nat (6 - k)) with 6 by lia. reflexivity.
Qed.

(** The instant modulo the unit of a shape is what the rendering leaves
    out. *)
Lemma to_micros_mod_unit (t : datetime) (ty : pattern) (n : nat) :
  valid t = true ->
  to_micros t mod shown_unit ty n
  = to_micros t - to_micros (truncate_to t ty n).
Proof.
  intros V. destruct ty; unfold shown_unit, truncate_to.
  - set (k := (6 - n)%nat). set (U := 10 ^ Z.of_nat k).
    assert (HU : 0 < U) by (apply Z.pow_pos_nonneg; lia).
    pose proof (million_split k ltac:(lia)) as M. fold U in M.
    set (R := 10 ^ Z.of_nat (6 - k)) in *. clearbody R U.
    unfold to_micros, toordinal, time_of_day, US_PER_DAY.
    cbn [year month day hour minute second microsecond].
    replace 86400000000 with (86400 * (U * R)) by lia.
    replace 1000000 with (U * R) by lia.
    replace (ymd2ord (year t) (month t) (day t) * (86400 * (U * R))
             + ((hour t * 3600 + minute t * 60 + second t) * (U * R)
                + microsecond t))
      with (microsecond t
            + (ymd2ord (year t) (month t) (day t) * 86400
               + (hour t * 3600 + minute t * 60 + second t)) * R * U)
      by ring.
    rewrite Z.mod_add by lia. ring.
  - pose proof (to_micros_days t V) as [_ E]. rewrite E.
    unfold midnight, to_micros, toordinal, time_of_day.
    cbn [year month day hour minute second microsecond]. ring.
Qed.

Lemma truncate_floor (t : datetime) (ty : pattern) (n : nat) :
  valid t = true ->
  to_micros (truncate_to t ty n)
  = shown_unit ty n * (to_micros t / shown_unit ty n).
Proof.
  intros V. pose proof (to_micros_mod_unit t ty n V) as E.
  pose proof (shown_unit_pos ty n) as P.
  pose proof (Z.div_mod (to_micros t) (shown_unit ty n) ltac:(lia)). lia.
Qed.

(** Cutting two instants to what a shape shows keeps their order. *)
Lemma truncate_mono (t1 t2 : datetime) (ty : pattern) (n : nat) :
  valid t1 = true -> valid t2 = true -> to_micros t1 <= to_micros t2 ->
  to_micros (truncate_to t1 ty n) <= to_micros (truncate_to t2 ty n).
Proof.
  intros V1 V2 L. rewrite !truncate_floor by assumption.
  pose proof (shown_unit_pos ty n) as P.
  apply Z.mul_le_mono_nonneg_l; [lia|].
  apply Z.div_le_mono; [exact P | exact L].
Qed.

Lemma shown_in_full_mod (t : datetime) (ty : pattern) (n : nat) :
  valid t = true ->
  (shown_in_full t ty n = true <-> to_micros t mod shown_unit ty n = 0).
Proof.
  intros V. rewrite (to_micros_mod_unit t ty n V).
  rewrite <- shown_in_full_truncate. split.
  - intros ->. lia.
  - intros E.
    assert (Vt : valid (truncate_to t ty n) = true).
    { apply valid_iff in V as (Vd & Hh & Hm & Hs & Hu).
      apply valid_iff. destruct ty; unfold truncate_to, midnight;
        cbn [year month day hour minute second microsecond].
      - assert (0 < 10 ^ Z.of_nat (6 - n)) by (apply Z.pow_pos_nonneg; lia).
        pose proof (Z.mod_pos_bound (microsecond t) (10 ^ Z.of_nat (6 - n))).
        pose proof (Z.mod_le (microsecond t) (10 ^ Z.of_nat (6 - n))).
        repeat split; try assumption; lia.
      - repeat split; try assumption; lia. }
    apply to_micros_inj; [exact Vt | exact V | lia].
Qed.

(** A delta of whole units takes an instant shown in full to one shown in
    full. *)
Lemma shift_shown_in_full (t : datetime) (d : timedelta) (sh : datetime)
    (ty : pattern) (n : nat) :
  valid t = true -> dt_add t d = Ok sh ->
  shown_in_full t ty n = true -> d mod shown_unit ty n = 0 ->
  shown_in_full sh ty n = true.
Proof.
  intros V A F Dm. destruct (dt_add_ok _ _ _ A) as [Vs Ms].
  apply (shown_in_full_mod t ty n V) in F.
  apply (shown_in_full_mod sh ty n Vs).
  pose proof (shown_unit_pos ty n) as P.
  rewrite Ms. rewrite Z.add_mod by lia. rewrite F, Dm.
  change (0 + 0) with 0. apply Z.mod_0_l. lia.
Qed.

(** What a run that returns has done at the place of each element of
    [found_dates], with the one delta of the run. *)
Lemma run_shifted (pad : bool) (items : list json) (target : option datetime)
    (now : datetime) (elapsed : Z) (s' : FixtureUpdater) :
  forallb well_formed_item items = true ->
  distinct_keys (JList items) = true ->
  run pad (Ok (JList items)) now elapsed (init target) = (Ok tt, s') ->
  found_dates s' <> [] ->
  exists d,
    delta s' = Some d
    /\ forall e, In e (found_dates s') ->
         recorded (JList items) e
         /\ exists shifted,
              dt_add (f_dt e) d = Ok shifted
              /\ valid shifted = true
              /\ to_micros shifted = instant e + d
              /\ to_micros shifted <= to_micros (target_of target now)
              /\ get_at (location e) (data s')
                 = Ok (JStr (format_utc_timestamp pad shifted (f_type e)
                               (f_fraction_len e))).
Proof.
  intros W D Run N.
  destruct (run_well_formed pad items target now elapsed W D)
    as (r1 & l & C & R & _ & Run').
  rewrite Run in Run'.
  destruct r1 as [[]|e1]; [|discriminate Run'].
  destruct l as [|x0 l0].
  { cbv iota in Run'. injection Run' as ->. now elim N. }
  destruct (run_found pad items target now elapsed _ x0 l0 W D C eq_refl)
    as (r3 & root' & _ & _ & Done & _ & _ & _ & Run3).
  rewrite Run in Run3.
  destruct r3 as [[]|e3]; [|discriminate Run3]. injection Run3 as ->.
  set (d := dt_sub (target_of target now) (f_dt (max_from x0 l0))) in *.
  exists d. split; [reflexivity|]. intros e I.
  change (found_dates (finished target now elapsed (JList items) x0 l0 root'))
    with (x0 :: l0) in I.
  pose proof R as R0. rewrite Forall_forall in R0.
  split; [now apply R0|].
  destruct (Done eq_refl e I) as (sh & A & G).
  exists sh. destruct (dt_add_ok _ _ _ A) as [Vs Ms].
  split; [exact A|]. split; [exact Vs|]. split; [exact Ms|]. split; [|exact G].
  assert (Vl : Forall (fun y => valid (f_dt y) = true) (x0 :: l0)).
  { eapply Forall_impl; [|exact R]. intros y Ry. eapply recorded_valid; eauto. }
  destruct (max_by_dt_spec (x0 :: l0) ltac:(discriminate) Vl)
    as (latest & pre & post & M & E & Lt & Le).
  cbn [max_by_dt] in M. injection M as M.
  assert (Ie : instant e <= instant latest).
  { rewrite E in I. apply in_app_or in I as [I | [<- | I]].
    - specialize (Lt e I). lia.
    - lia.
    - now apply Le. }
  rewrite Ms. unfold d, dt_sub. rewrite M. unfold instant in Ie. lia.
Qed.

(** How [main] ends, and what it logs. *)
Lemma main_outcome (pad : bool) (target : option datetime)
    (fixture : result json) (now : datetime) (elapsed : Z)
    (log : list log_record) (r : result unit) (s' : FixtureUpdater) :
  valid (target_of target now) = true ->
  main pad target fixture now elapsed = (log, r, s') ->
  run pad fixture now elapsed (init target) = (r, s')
  /\ match r with
     | Raise _ => log = [] /\ written s' = None
     | Ok _ =>
         (found_dates s' = [] /\ written s' = None
          /\ log = no_changes_report elapsed)
         \/ (exists latest,
               In latest (found_dates s')
               /\ written s' = Some (data s')
               /\ delta s' = Some (dt_sub (target_of target now) (f_dt latest))
               /\ log
                  = [ ("Dates moved up by %.1f days",
                       [ArgDays (dt_sub (target_of target now) (f_dt latest))]);
                      ("Updated %d date value(s).",
                       [ArgInt (Z.of_nat (List.length (found_dates s')))]);
                      ("Most recent original timestamp: %s",
                       [ArgStr (format_utc_timestamp pad (f_dt latest)
                                  (f_type latest) (f_fraction_len latest))]);
                      ("New most recent timestamp:      %s",
                       [ArgStr (format_utc_timestamp pad
                                  (target_of target now)
                                  (f_type latest) (f_fraction_len latest))]);
                      ("Wrote updated fixture to:       %s", [ArgOutputPath]);
                      ("Completed in %dms!", [ArgInt elapsed]) ])
     end.
Proof.
  intros V M. unfold main in M.
  destruct (run pad fixture now elapsed (init target)) as [r0 s0] eqn:Run.
  pose proof (run_outcome _ _ _ _ _ _ _ Run) as O.
  destruct r0 as [[]|e].
  2:{ injection M as <- <- <-. split; [reflexivity|].
      destruct O as (Wr & _). split; [reflexivity | exact Wr]. }
  destruct O as (El & [(F & Wr & _ & _ & La)
                      | (F & Wr & Uc & latest & I & La & Ty & Fl & Dl)]).
  - unfold report in M. rewrite La in M. cbn [latest_dt init] in M.
    injection M as <- <- <-. split; [reflexivity|]. left.
    split; [exact F|]. split; [exact Wr|]. unfold no_changes_report. now rewrite El.
  - unfold report in M. rewrite La, Ty, Dl in M.
    cbn [target_latest_dt init] in M.
    rewrite (dt_add_sub (f_dt latest) _ V) in M.
    injection M as <- <- <-. split; [reflexivity|]. right.
    exists latest. split; [exact I|]. split; [exact Wr|]. split; [exact Dl|].
    rewrite Uc, Fl, El. reflexivity.
Qed.

End RunFacts.

(* ================================================================== *)
(** * The claims of the specification *)

Import PyStr Calendar Datetime Re Timestamp Shape Json Updater Spec Samples.

Import PyStrFacts CalendarFacts DatetimeFacts ReFacts TimestampFacts JsonFacts.

Import UpdaterFacts SpecFacts.

Local Open Scope list_scope.

(** C1: in a run whose scan finds at least one timestamp, the greatest
    of the instants found, with the delta of the run added, is the target:
    the [--latest-time] given, or else the reading of the clock taken by
    [compute_shift], both exactly; when the run completes, the place of
    that timestamp holds the target, rendered in the shape found. *)
Theorem C1_greatest_instant_lands_on_target (pad_year : bool) (items : list json)
    (target : option datetime) (now : datetime) (elapsed : Z)
    (s1 : FixtureUpdater) :
  forallb well_formed_item items = true ->
  distinct_keys (JList items) = true ->
  valid (target_of target now) = true ->
  collect_dates (set_data (JList items) (init target)) = (Ok tt, s1) ->
  found_dates s1 <> [] ->
  exists r s' latest d,
    run pad_year (Ok (JList items)) now elapsed (init target) = (r, s')
    /\ In latest (found_dates s1)
    /\ greatest_instant (found_dates s1) (instant latest)
    /\ latest_dt s' = Some (f_dt latest)
    /\ delta s' = Some d
    /\ dt_add (f_dt latest) d = Ok (target_of target now)
    /\ (forall t, target = Some t -> dt_add (f_dt latest) d = Ok t)
    /\ (target = None -> dt_add (f_dt latest) d = Ok now)
    /\ (r = Ok tt ->
        get_at (location latest) (data s')
        = Ok (JStr (format_utc_timestamp pad_year (target_of target now)
                      (f_type latest) (f_fraction_len latest)))
        /\ written s' = Some (data s')).
Proof.
  intros W D V C N.
  destruct (found_dates s1) as [|x l] eqn:F; [congruence|]. clear N.
  destruct (run_found pad_year items target now elapsed s1 x l W D C F)
    as (r3 & root' & R & _ & Done & _ & _ & _ & Run).
  set (d := dt_sub (target_of target now) (f_dt (max_from x l))) in *.
  assert (Vl : Forall (fun e => valid (f_dt e) = true) (x :: l)).
  { eapply Forall_impl; [|exact R]. intros e Re. eapply recorded_valid; eauto. }
  destruct (max_by_dt_spec (x :: l) ltac:(discriminate) Vl)
    as (latest & pre & post & M & E & A & B).
  cbn [max_by_dt] in M. injection M as M.
  assert (I : In latest (x :: l)).
  { rewrite E. apply in_or_app. right. now left. }
  assert (T : dt_add (f_dt latest) d = Ok (target_of target now)).
  { unfold d. rewrite M. now apply dt_add_sub. }
  exists (match r3 with Ok _ => Ok tt | Raise e => Raise e end),
         (match r3 with
          | Ok _ => finished target now elapsed (JList items) x l root'
          | Raise _ => applied target now (JList items) x l root'
          end), latest, d.
  split; [rewrite Run; now destruct r3|].
  split; [exact I|].
  split.
  { split; [now exists latest|].
    intros e Ie. rewrite E in Ie. apply in_app_or in Ie as [Ie | [<- | Ie]].
    - specialize (A e Ie). lia.
    - lia.
    - now apply B. }
  split; [destruct r3; cbn; now rewrite M|].
  split; [destruct r3; reflexivity|].
  split; [exact T|].
  split; [intros t ->; exact T|].
  split; [intros ->; exact T|].
  intros Ok3. destruct r3 as [[]|e]; [|discriminate].
  destruct (Done eq_refl latest I) as (sh & A1 & G1).
  rewrite T in A1. injection A1 as <-.
  split; [exact G1 | reflexivity].
Qed.

Lemma C1_witness :
  exists r s' latest d,
    run true (Ok (JList sample_items)) sample_now 12 (init None) = (r, s')
    /\ delta s' = Some d
    /\ dt_add (f_dt latest) d = Ok sample_now.
Proof.
  assert (W : forallb well_formed_item sample_items = true)
    by (vm_compute; reflexivity).
  assert (D : distinct_keys (JList sample_items) = true)
    by (vm_compute; reflexivity).
  assert (V : valid (target_of None sample_now) = true)
    by (vm_compute; reflexivity).
  assert (C : collect_dates (set_data (JList sample_items) (init None))
              = (Ok tt, snd (collect_dates (set_data (JList sample_items) (init None)))))
    by (vm_compute; reflexivity).
  assert (N : found_dates (snd (collect_dates (set_data (JList sample_items) (init None)))) <> [])
    by (vm_compute; discriminate).
  destruct (C1_greatest_instant_lands_on_target true sample_items None
              sample_now 12 _ W D V C N)
    as (r & s' & latest & d & H1 & _ & _ & _ & H2 & H3 & _).
  exists r, s', latest, d. split; [exact H1|]. split; [exact H2 | exact H3].
Defined.



(** C3 (amended): for every text of one of the two shapes whose fields
    are a date and a time of day, and, for the datetime shape, where
    [strftime] writes the year with four digits (a year from 1000 on, or a
    platform that pads), rendering what the text parses to, with the shape
    and fraction length recorded, gives the text back; trailing zeros in
    the fraction are kept as well. *)
Theorem C3_render_of_parse_is_the_text (pad_year : bool) (text : string) :
  supported text = true ->
  valid (text_instant text) = true ->
  is_date_only text || four_digit_year pad_year (text_instant text) = true ->
  parse_utc_timestamp text
  = Ok (Some (text_instant text, shape_of text, len (text_fraction text)))
  /\ format_utc_timestamp pad_year (text_instant text) (shape_of text)
       (len (text_fraction text)) = text.
Proof.
  intros S V Y.
  rewrite (parse_is_spec_parse text (or_introl S)).
  unfold spec_parse, shape_of. rewrite V.
  destruct (is_date_only text) eqn:D.
  - pose proof (date_only_components text D) as (_ & _ & _ & _ & _ & _ & _ & ->).
    split; [reflexivity|]. now apply render_parsed_date.
  - unfold supported in S. rewrite D in S. simpl in S. rewrite S.
    split; [reflexivity|]. apply render_parsed_datetime; [exact S|].
    simpl in Y. unfold four_digit_year in Y.
    apply orb_true_iff in Y as [Y | Y]; [now left | right].
    now apply Z.leb_le.
Qed.

Lemma C3_witness :
  supported "2023-01-03T12:00:00.500Z" = true
  /\ format_utc_timestamp false (text_instant "2023-01-03T12:00:00.500Z")
       (shape_of "2023-01-03T12:00:00.500Z")
       (len (text_fraction "2023-01-03T12:00:00.500Z"))
     = "2023-01-03T12:00:00.500Z".
Proof.
  split; [reflexivity|].
  exact (proj2 (C3_render_of_parse_is_the_text false "2023-01-03T12:00:00.500Z"
                  eq_refl eq_refl eq_refl)).
Defined.

(** C3, as stated, fails: a text of the date-only shape whose fields are
    no date has no parse to render, and where [strftime] does not pad the
    year a datetime text of a year below 1000 is rendered without its
    leading zero. *)
Lemma C3_counterexample :
  supported "2023-02-30" = true
  /\ parse_utc_timestamp "2023-02-30" = Raise ValueError
  /\ supported "0999-01-02T03:04:05Z" = true
  /\ parse_utc_timestamp "0999-01-02T03:04:05Z"
     = Ok (Some (mkdt 999 1 2 3 4 5 0, DATETIME_FIELD_PATTERN, 0%nat))
  /\ format_utc_timestamp false (mkdt 999 1 2 3 4 5 0) DATETIME_FIELD_PATTERN 0
     = "999-01-02T03:04:05Z".
Proof. repeat split. Qed.

(** C4 (amended): for every UTC instant, every shape and every fraction
    length from 0 to 6, where [strftime] writes the year with four digits
    for the datetime shape, the rendered text parses back to the same
    shape, to the fraction length (none for a date), and to the instant
    cut to what the text shows: the midnight of its date for a date, its
    first [fraction_len] fractional digits for a datetime.  That is the
    instant itself exactly when the rendering shows it in full. *)
Theorem C4_parse_of_render_is_the_shown_instant (pad_year : bool) (t : datetime)
    (value_type : pattern) (fraction_len : nat) :
  valid t = true -> (fraction_len <= 6)%nat ->
  pattern_is value_type DATE_FIELD_PATTERN || four_digit_year pad_year t = true ->
  parse_utc_timestamp (format_utc_timestamp pad_year t value_type fraction_len)
  = Ok (Some (truncate_to t value_type fraction_len, value_type,
              shown_fraction_len value_type fraction_len))
  /\ (truncate_to t value_type fraction_len = t
      <-> shown_in_full t value_type fraction_len = true).
Proof.
  intros V L Y. destruct value_type; cbn [pattern_is orb] in Y.
  - split.
    + apply parse_rendered_datetime; auto.
      unfold four_digit_year in Y.
      apply orb_true_iff in Y as [Y | Y]; [now left | right].
      now apply Z.leb_le.
    + unfold truncate_to, shown_in_full. rewrite Z.eqb_eq.
      destruct t as [y m d hh mm ss us]. cbn. split.
      * intros E. injection E as E. lia.
      * intros E. f_equal. lia.
  - split.
    + now apply parse_rendered_date.
    + unfold truncate_to, shown_in_full, midnight.
      rewrite !andb_true_iff, !Z.eqb_eq.
      destruct t as [y m d hh mm ss us]. cbn. split.
      * intros E. injection E as <- <- <- <-. auto.
      * intros [[[-> ->] ->] ->]. reflexivity.
Qed.

Lemma C4_witness :
  valid (mkdt 2024 5 31 23 59 59 250999) = true
  /\ parse_utc_timestamp
       (format_utc_timestamp false (mkdt 2024 5 31 23 59 59 250999)
          DATETIME_FIELD_PATTERN 3)
     = Ok (Some (mkdt 2024 5 31 23 59 59 250000, DATETIME_FIELD_PATTERN, 3%nat)).
Proof.
  split; [reflexivity|].
  exact (proj1 (C4_parse_of_render_is_the_shown_instant false
                  (mkdt 2024 5 31 23 59 59 250999) DATETIME_FIELD_PATTERN 3
                  eq_refl ltac:(lia) eq_refl)).
Defined.

(** C4, as stated, fails: a date rendered from an instant that is not a
    midnight parses back to the midnight, and a datetime rendered with
    three fractional digits loses the digits beyond them. *)
Lemma C4_counterexample :
  valid (mkdt 2023 1 1 12 0 0 0) = true
  /\ parse_utc_timestamp
       (format_utc_timestamp true (mkdt 2023 1 1 12 0 0 0) DATE_FIELD_PATTERN 0)
     = Ok (Some (mkdt 2023 1 1 0 0 0 0, DATE_FIELD_PATTERN, 0%nat))
  /\ valid (mkdt 2023 1 1 0 0 0 123456) = true
  /\ parse_utc_timestamp
       (format_utc_timestamp true (mkdt 2023 1 1 0 0 0 123456)
          DATETIME_FIELD_PATTERN 3)
     = Ok (Some (mkdt 2023 1 1 0 0 0 123000, DATETIME_FIELD_PATTERN, 3%nat)).
Proof. repeat split. Qed.



(** C6: when the top-level value is no array, or some item is not an
    object whose [fields] holds an object, [run] stops in [load_fixture] on a
    [TypeError]: nothing is scanned and nothing written, the object is as it
    was created, and for an item the message carries the index of the first
    item at fault. *)
Theorem C6_structural_error_is_fatal (pad_year : bool) (v : json)
    (target : option datetime) (now : datetime) (elapsed : Z) :
  (forall items, v = JList items -> forallb well_formed_item items = false) ->
  exists msg,
    run pad_year (Ok v) now elapsed (init target)
      = (Raise (TypeError msg), init target)
    /\ load_fixture (Ok v) (init target) = (Raise (TypeError msg), init target)
    /\ main pad_year target (Ok v) now elapsed
       = ([], Raise (TypeError msg), init target)
    /\ found_dates (init target) = []
    /\ written (init target) = None
    /\ (is_list v = false -> msg = msg_not_array)
    /\ (forall items, v = JList items ->
          exists idx item,
            nth_error items idx = Some item
            /\ well_formed_item item = false
            /\ (forall j y, (j < idx)%nat -> nth_error items j = Some y ->
                  well_formed_item y = true)
            /\ msg = item_error idx item).
Proof.
  intros H.
  assert (X : exists msg,
             load_fixture (Ok v) (init target) = (Raise (TypeError msg), init target)
             /\ (is_list v = false -> msg = msg_not_array)
             /\ (forall items, v = JList items ->
                   exists idx item,
                     nth_error items idx = Some item
                     /\ well_formed_item item = false
                     /\ (forall j y, (j < idx)%nat -> nth_error items j = Some y ->
                           well_formed_item y = true)
                     /\ msg = item_error idx item)).
  { destruct (is_list v) eqn:L.
    - destruct v as [ | | | | | items | ]; try discriminate.
      destruct (load_fixture_bad_item items (init target) (H items eq_refl))
        as (idx & item & E & Wf & First & Ld).
      exists (item_error idx item). split; [exact Ld|].
      split; [discriminate|].
      intros items' Eq. injection Eq as <-. exists idx, item. auto.
    - exists msg_not_array. split; [now apply load_fixture_not_list|].
      split; [reflexivity|]. intros items ->. discriminate. }
  destruct X as (msg & Ld & A & B).
  exists msg.
  pose proof (run_load_fails pad_year _ now elapsed _ _ _ Ld) as Run.
  split; [exact Run|]. split; [exact Ld|].
  split; [unfold main; now rewrite Run|].
  repeat split; auto.
Qed.

Lemma C6_witness :
  exists msg,
    main true None (Ok (JList sample_bad_items)) sample_now 12
    = ([], Raise (TypeError msg), init None)
    /\ (exists idx item,
          nth_error sample_bad_items idx = Some item
          /\ msg = item_error idx item).
Proof.
  assert (B : forall items, JList sample_bad_items = JList items ->
                forallb well_formed_item items = false).
  { intros items E. injection E as <-. reflexivity. }
  destruct (C6_structural_error_is_fatal true (JList sample_bad_items) None
              sample_now 12 B) as (msg & _ & _ & H1 & _ & _ & _ & H2).
  exists msg. split; [exact H1|].
  destruct (H2 sample_bad_items eq_refl) as (idx & item & E & _ & _ & M).
  exists idx, item. split; [exact E | exact M].
Defined.

(** C7: from a non-empty [found_dates], [compute_shift] selects the
    element of the greatest instant, the first of them in the order of the
    scan when several are equal, and the delta it computes is the target
    less that greatest instant, whichever element carries it. *)
Theorem C7_latest_is_the_first_greatest (now : datetime) (s : FixtureUpdater) :
  found_dates s <> [] ->
  Forall (fun e => valid (f_dt e) = true) (found_dates s) ->
  exists latest pre post s',
    compute_shift now s = (Ok tt, s')
    /\ found_dates s = pre ++ latest :: post
    /\ (forall e, In e pre -> instant e < instant latest)
    /\ (forall e, In e post -> instant e <= instant latest)
    /\ latest_dt s' = Some (f_dt latest)
    /\ latest_type s' = Some (f_type latest)
    /\ latest_fraction_len s' = f_fraction_len latest
    /\ (forall m, greatest_instant (found_dates s) m ->
          delta s' = Some (to_micros (target_of (target_latest_dt s) now) - m)).
Proof.
  intros N V.
  destruct (max_by_dt_spec _ N V) as (latest & pre & post & M & E & A & B).
  exists latest, pre, post. eexists.
  split; [exact (compute_shift_run now s latest M)|].
  repeat split; auto.
  intros m [(e & I & Em) G]. cbn [delta set_delta]. unfold dt_sub, target_of.
  do 2 f_equal.
  assert (instant latest <= m).
  { apply G. rewrite E. apply in_or_app. right. now left. }
  assert (instant e <= instant latest).
  { rewrite E in I. apply in_app_or in I as [I | [<- | I]].
    - specialize (A e I). lia.
    - lia.
    - now apply B. }
  unfold instant in *. lia.
Qed.

Lemma C7_witness :
  exists latest pre post s',
    compute_shift sample_now (set_found_dates sample_found_dates (init None))
    = (Ok tt, s')
    /\ sample_found_dates = pre ++ latest :: post
    /\ latest_dt s' = Some (f_dt latest).
Proof.
  destruct (C7_latest_is_the_first_greatest sample_now
              (set_found_dates sample_found_dates (init None)))
    as (latest & pre & post & s' & H1 & H2 & _ & _ & H3 & _).
  - discriminate.
  - repeat constructor.
  - exists latest, pre, post, s'. auto.
Defined.




(** C9: a string that matches neither pattern, and a value that is
    neither a string nor a container, is in the tree written out where and
    as it is in the input, and that tree has the containers, the keys and
    the values other than strings of the input; and [apply_shift], completed
    or not, leaves every leaf of the tree that is at none of the recorded
    places as it was. *)
Theorem C9_other_values_are_untouched (pad_year : bool) (v : json)
    (target : option datetime) (now : datetime) (elapsed : Z)
    (r : result unit) (s' : FixtureUpdater) (q : path) (x : json) :
  distinct_keys v = true ->
  run pad_year (Ok v) now elapsed (init target) = (r, s') ->
  get_at q v = Ok x ->
  not_a_timestamp x = true ->
  (forall out, written s' = Some out ->
     get_at q out = Ok x /\ skeleton out = skeleton v)
  /\ (forall s n s2 y,
        Forall (recorded (data s)) (found_dates s) ->
        apply_shift pad_year s = (n, s2) ->
        get_at q (data s) = Ok y -> is_leaf y = true ->
        (forall e, In e (found_dates s) -> q <> location e) ->
        get_at q (data s2) = Ok y).
Proof.
  intros D Run G N. split.
  - intros out Wr.
    destruct (is_list v) eqn:Lv.
    2:{ rewrite (run_load_fails pad_year (Ok v) now elapsed _ _ _
                   (load_fixture_not_list v (init target) Lv)) in Run.
        injection Run as <- <-. cbn in Wr. discriminate Wr. }
    destruct v as [ | | | | | items | ]; try discriminate Lv.
    destruct (forallb well_formed_item items) eqn:W.
    2:{ destruct (load_fixture_bad_item items (init target) W)
          as (idx & item & _ & _ & _ & L).
        rewrite (run_load_fails _ _ _ _ _ _ _ L) in Run.
        injection Run as <- <-. cbn in Wr. discriminate Wr. }
    destruct (run_well_formed pad_year items target now elapsed W D)
      as (r1 & l & C & R & _ & Run0).
    destruct r1 as [[]|e];
      [|rewrite Run in Run0; injection Run0 as -> ->; cbn in Wr; discriminate Wr].
    destruct l as [|e0 l];
      [rewrite Run in Run0; injection Run0 as -> ->; cbn in Wr; discriminate Wr|].
    destruct (run_found pad_year items target now elapsed _ e0 l W D C eq_refl)
      as (r3 & root' & _ & Fr & _ & _ & _ & Sk & Run1).
    rewrite Run in Run1.
    destruct r3 as [[]|e]; injection Run1 as -> ->;
      [|cbn in Wr; discriminate Wr].
    cbn in Wr. injection Wr as <-.
    rewrite Forall_forall in R.
    split; [|exact Sk].
    apply Fr; [exact G | |].
    + destruct x; try reflexivity; discriminate.
    + intros e I. eapply not_a_timestamp_elsewhere; eauto.
  - intros s n s2 y R A Gy Ly Away.
    destruct (delta s) as [d|] eqn:Dl.
    + rewrite (apply_shift_run pad_year s d Dl) in A.
      destruct (for_each (found_dates s) (shift_one pad_year d) s) as [r3 s3] eqn:L.
      apply shift_loop_spec in L as (root' & -> & Fr & _).
      * destruct r3; injection A as <- <-; cbn [data set_data]; now apply Fr.
      * eapply recorded_coherent; eauto.
      * intros e I. rewrite Forall_forall in R.
        destruct (R e I) as (item & Gi & _). eauto.
    + rewrite (apply_shift_unset pad_year s Dl) in A. injection A as <- <-.
      exact Gy.
Qed.

Lemma C9_witness :
  exists out,
    written (snd (run true (Ok (JList sample_items)) sample_now 12 (init None)))
      = Some out
    /\ get_at [KIdx 0; KStr "fields"; KStr "name"] out = Ok (JStr "x").
Proof.
  assert (D : distinct_keys (JList sample_items) = true)
    by (vm_compute; reflexivity).
  assert (R : run true (Ok (JList sample_items)) sample_now 12 (init None)
              = (fst (run true (Ok (JList sample_items)) sample_now 12 (init None)),
                 snd (run true (Ok (JList sample_items)) sample_now 12 (init None))))
    by (vm_compute; reflexivity).
  assert (G : get_at [KIdx 0; KStr "fields"; KStr "name"] (JList sample_items)
              = Ok (JStr "x")) by (vm_compute; reflexivity).
  assert (N : not_a_timestamp (JStr "x") = true) by (vm_compute; reflexivity).
  assert (Wr : written (snd (run true (Ok (JList sample_items)) sample_now 12
                               (init None)))
               = Some (data (snd (run true (Ok (JList sample_items)) sample_now 12
                                    (init None)))))
    by (vm_compute; reflexivity).
  eexists. split; [exact Wr|].
  exact (proj1 (proj1 (C9_other_values_are_untouched true (JList sample_items)
                         None sample_now 12 _ _ _ _ D R G N) _ Wr)).
Defined.

(** C10: [apply_shift] called while [delta] is unset raises a
    [RuntimeError] and leaves the object, its tree included, as it was. *)
Theorem C10_apply_before_compute_raises (pad_year : bool) (s : FixtureUpdater) :
  delta s = None ->
  apply_shift pad_year s
  = (Raise (RuntimeError "Cannot apply shift before computing delta."), s).
Proof. exact (apply_shift_unset pad_year s). Qed.

Lemma C10_witness :
  delta (init None) = None
  /\ apply_shift true (init None)
     = (Raise (RuntimeError "Cannot apply shift before computing delta."),
        init None).
Proof.
  split; [reflexivity|].
  exact (C10_apply_before_compute_raises true (init None) eq_refl).
Defined.

(* ================================================================== *)
(** * Further properties of the program *)

Import ParseFacts ScanFacts RunFacts.


(** X2: whatever [parse_utc_timestamp] returns is a datetime in range,
    with a fraction length of at most six, which is zero for a date; and the
    datetime holds nothing that the text did not show: a date is parsed to a
    midnight, and the microseconds of a datetime are zero beyond the
    fraction length. *)
Theorem X2_parse_result_is_shown_in_full (text : string) (t : datetime)
    (ty : pattern) (n : nat) :
  parse_utc_timestamp text = Ok (Some (t, ty, n)) ->
  valid t = true /\ (n <= 6)%nat
  /\ shown_fraction_len ty n = n
  /\ shown_in_full t ty n = true
  /\ truncate_to t ty n = t.
Proof.
  intros P. destruct (parse_result_shown _ _ _ _ P) as (V & L & F & E).
  repeat split; auto. now apply shown_in_full_truncate.
Qed.

Lemma X2_witness :
  valid (mkdt 2023 1 3 12 0 0 500000) = true
  /\ shown_in_full (mkdt 2023 1 3 12 0 0 500000) DATETIME_FIELD_PATTERN 3 = true.
Proof.
  destruct (X2_parse_result_is_shown_in_full "2023-01-03T12:00:00.500Z"
              (mkdt 2023 1 3 12 0 0 500000) DATETIME_FIELD_PATTERN 3 eq_refl)
    as (V & _ & _ & F & _).
  split; [exact V | exact F].
Defined.

(** X3: where [strftime] writes the year with four digits, the text
    [format_utc_timestamp] renders is a text of the shape asked for, with
    no newline at its end; a datetime shows as many fractional digits as
    asked, and six when more are asked. *)
Theorem X3_rendering_has_the_shape_asked_for (pad_year : bool) (t : datetime)
    (value_type : pattern) (fraction_len : nat) :
  valid t = true ->
  pattern_is value_type DATE_FIELD_PATTERN || four_digit_year pad_year t = true ->
  let text := format_utc_timestamp pad_year t value_type fraction_len in
  supported text = true
  /\ chomp text = text
  /\ shape_of text = value_type
  /\ len (text_fraction text)
     = shown_fraction_len value_type (Nat.min fraction_len 6).
Proof.
  intros V Y text.
  assert (S : supported text = true) by now apply format_supported.
  split; [exact S|]. split; [now apply chomp_supported|].
  assert (E : text = format_utc_timestamp pad_year t value_type
                       (Nat.min fraction_len 6)).
  { unfold text. destruct (Nat.le_ge_cases fraction_len 6) as [L | L].
    - now rewrite Nat.min_l.
    - rewrite Nat.min_r by exact L. now apply format_cap. }
  assert (P : parse_utc_timestamp text
              = Ok (Some (truncate_to t value_type (Nat.min fraction_len 6),
                          value_type,
                          shown_fraction_len value_type (Nat.min fraction_len 6)))).
  { rewrite E. destruct value_type; cbn [pattern_is orb] in Y.
    - apply parse_rendered_datetime; [exact V | apply Nat.le_min_r |].
      unfold four_digit_year in Y.
      apply orb_true_iff in Y as [Y | Y]; [now left | right; now apply Z.leb_le].
    - now apply parse_rendered_date. }
  rewrite (parse_is_spec_parse text (or_introl S)) in P.
  unfold spec_parse, shape_of in *.
  destruct (is_date_only text).
  - destruct (valid (text_instant text)); [|discriminate].
    injection P as _ <- <-. auto.
  - destruct (is_datetime text); [|discriminate].
    destruct (valid (text_instant text)); [|discriminate].
    injection P as _ <- <-. auto.
Qed.

Lemma X3_witness :
  supported (format_utc_timestamp false (mkdt 2024 5 31 23 59 59 250999)
               DATETIME_FIELD_PATTERN 9) = true
  /\ len (text_fraction (format_utc_timestamp false (mkdt 2024 5 31 23 59 59 250999)
                           DATETIME_FIELD_PATTERN 9)) = 6%nat.
Proof.
  destruct (X3_rendering_has_the_shape_asked_for false
              (mkdt 2024 5 31 23 59 59 250999) DATETIME_FIELD_PATTERN 9
              eq_refl eq_refl) as (S & _ & _ & F).
  split; [exact S | exact F].
Defined.

(** X4: a fraction length above six renders as six does: the slice of
    the six microsecond digits cannot be longer than they are. *)
Theorem X4_fraction_length_above_six (pad_year : bool) (t : datetime)
    (value_type : pattern) (fraction_len : nat) :
  (6 <= fraction_len)%nat ->
  format_utc_timestamp pad_year t value_type fraction_len
  = format_utc_timestamp pad_year t value_type 6.
Proof. exact (format_cap pad_year t value_type fraction_len). Qed.

Lemma X4_witness :
  format_utc_timestamp true (mkdt 2024 5 31 23 59 59 250999)
    DATETIME_FIELD_PATTERN 8
  = "2024-05-31T23:59:59.250999Z".
Proof.
  exact (X4_fraction_length_above_six true (mkdt 2024 5 31 23 59 59 250999)
           DATETIME_FIELD_PATTERN 8 ltac:(lia)).
Defined.


(** X6: in a value whose keys are distinct, [iter_string_nodes] yields the
    string leaves strictly inside the value and nothing else, each with the
    container and the key it is at; a value that is no container, a string
    included, yields nothing. *)
Theorem X6_scan_yields_the_string_leaves (value : json) (here c : path)
    (k : key) (s : string) :
  distinct_keys value = true ->
  (In (c, k, s) (iter_string_nodes here value)
   <-> exists rel, c = here ++ rel /\ get_at (rel ++ [k]) value = Ok (JStr s))
  /\ (is_leaf value = true -> iter_string_nodes here value = []).
Proof.
  intros D. split; [split|].
  - now apply iter_string_nodes_sound.
  - intros (rel & -> & G). now apply iter_string_nodes_complete.
  - now destruct value.
Qed.

Lemma X6_witness :
  In ([KStr "tags"], KIdx 1%nat, "x")
     (iter_string_nodes [] (JDict [("tags", JList [JInt 1; JStr "x"])])).
Proof.
  apply (proj1 (X6_scan_yields_the_string_leaves
                  (JDict [("tags", JList [JInt 1; JStr "x"])]) []
                  [KStr "tags"] (KIdx 1) "x" eq_refl)).
  exists [KStr "tags"]. split; reflexivity.
Defined.

(** X7: in a value whose keys are distinct, [iter_string_nodes] yields no
    place twice. *)
Theorem X7_scan_yields_no_place_twice (value : json) (here : path) :
  distinct_keys value = true ->
  NoDup (map node_place (iter_string_nodes here value)).
Proof. intros D. now apply iter_string_nodes_nodup. Qed.

Lemma X7_witness :
  NoDup (map node_place
           (iter_string_nodes []
              (JDict [("a", JStr "x"); ("tags", JList [JStr "x"; JStr "x"])]))).
Proof.
  exact (X7_scan_yields_no_place_twice
           (JDict [("a", JStr "x"); ("tags", JList [JStr "x"; JStr "x"])]) []
           eq_refl).
Defined.

(** X8: [load_fixture] returns exactly for an array whose items are objects
    with an object under [fields], the empty array included; it then assigns
    the array to [self.data], and in every other case, the failure of
    [json.loads] included, it leaves the object as it was. *)
Theorem X8_load_fixture_accepts_arrays_of_items (fixture : result json)
    (s : FixtureUpdater) :
  (fst (load_fixture fixture s) = Ok tt
   <-> exists items,
         fixture = Ok (JList items) /\ forallb well_formed_item items = true)
  /\ (forall v, fst (load_fixture fixture s) = Ok tt -> fixture = Ok v ->
        snd (load_fixture fixture s) = set_data v s)
  /\ (fst (load_fixture fixture s) <> Ok tt -> snd (load_fixture fixture s) = s)
  /\ (forall e, fixture = Raise e -> load_fixture fixture s = (Raise e, s)).
Proof.
  destruct (load_fixture fixture s) as [r s'] eqn:L. cbn [fst snd].
  pose proof (load_fixture_frame _ _ _ _ L)
    as [(items & -> & W & -> & ->) | (e & -> & ->)].
  - split; [split; eauto|]. split; [|split].
    + intros v _ E. now injection E as <-.
    + intros N. now elim N.
    + discriminate.
  - split; [split|].
    + discriminate.
    + intros (items & -> & W). rewrite (load_fixture_ok _ _ W) in L. discriminate L.
    + split; [discriminate|]. split; [reflexivity|].
      intros e' ->. symmetry. exact L.
Qed.

Lemma X8_witness :
  fst (load_fixture (Ok (JList sample_items)) (init None)) = Ok tt
  /\ snd (load_fixture (Ok (JList sample_bad_items)) (init None)) = init None.
Proof.
  destruct (X8_load_fixture_accepts_arrays_of_items (Ok (JList sample_items))
              (init None)) as (A & _).
  destruct (X8_load_fixture_accepts_arrays_of_items (Ok (JList sample_bad_items))
              (init None)) as (_ & _ & B & _).
  split.
  - apply A. exists sample_items. split; reflexivity.
  - apply B. discriminate.
Defined.

(** X9: after a scan of a loaded fixture that returns, [found_dates] holds
    exactly the strings under the [fields] of an item that parse as a
    timestamp, each with its place and with what it parses to. *)
Theorem X9_found_dates_are_the_timestamps_under_fields (items : list json)
    (target : option datetime) (s1 : FixtureUpdater) (e : found) :
  forallb well_formed_item items = true ->
  distinct_keys (JList items) = true ->
  collect_dates (set_data (JList items) (init target)) = (Ok tt, s1) ->
  (In e (found_dates s1)
   <-> under_fields e
       /\ exists item,
            get_at (location e) (JList items) = Ok (JStr item)
            /\ parse_utc_timestamp item
               = Ok (Some (f_dt e, f_type e, f_fraction_len e))).
Proof.
  intros W D C.
  destruct (run_scanned items target W D) as (r1 & l & C0 & R & Ok1 & _).
  rewrite C in C0. injection C0 as <- ->.
  change (found_dates (scanned target (JList items) l)) with l.
  split.
  - intros I. rewrite Forall_forall in R. destruct (R e I) as [Re U].
    split; [exact U | exact Re].
  - intros ((idx & rel & Ec) & item & G & P).
    destruct e as [c k t ty n]. unfold location in G.
    cbn [f_container f_key f_dt f_type f_fraction_len] in *. subst c.
    rewrite <- app_assoc in G.
    destruct (Ok1 eq_refl idx rel k item G) as (p & Pp & Q).
    apply Q. congruence.
Qed.

Lemma X9_witness :
  In (mkfound [KIdx 0; KStr "fields"; KStr "tags"; KIdx 2] (KStr "when")
        (mkdt 2022 12 31 23 59 59 250000) DATETIME_FIELD_PATTERN 3)
     (found_dates (snd (collect_dates (set_data (JList sample_items) (init None))))).
Proof.
  assert (W : forallb well_formed_item sample_items = true)
    by (vm_compute; reflexivity).
  assert (D : distinct_keys (JList sample_items) = true)
    by (vm_compute; reflexivity).
  assert (C : collect_dates (set_data (JList sample_items) (init None))
              = (Ok tt, snd (collect_dates (set_data (JList sample_items) (init None)))))
    by (vm_compute; reflexivity).
  apply (X9_found_dates_are_the_timestamps_under_fields sample_items None _ _ W D C).
  split.
  - exists 0%nat, [KStr "tags"; KIdx 2]. reflexivity.
  - exists "2022-12-31T23:59:59.250Z". split; vm_compute; reflexivity.
Defined.

(** X10: whatever the outcome of a run, no place is recorded twice in
    [found_dates]: the count of updated values is a count of distinct
    strings. *)
Theorem X10_no_place_is_recorded_twice (pad_year : bool) (v : json)
    (target : option datetime) (now : datetime) (elapsed : Z)
    (r : result unit) (s' : FixtureUpdater) :
  distinct_keys v = true ->
  run pad_year (Ok v) now elapsed (init target) = (r, s') ->
  NoDup (map location (found_dates s')).
Proof.
  intros D Run. unfold run in Run. unfold bind at 1 in Run.
  destruct (load_fixture (Ok v) (init target)) as [r0 s0] eqn:L.
  apply load_fixture_frame in L
    as [(items & E & W & -> & ->) | (e & -> & ->)].
  2:{ injection Run as <- <-. apply NoDup_nil. }
  injection E as ->. unfold bind at 1 in Run.
  destruct (collect_dates (set_data (JList items) (init target))) as [r1 s1] eqn:C.
  pose proof (collect_dates_nodup (set_data (JList items) (init target)) items _ _
                eq_refl D eq_refl C) as Nd.
  assert (F : found_dates s' = found_dates s1); [|now rewrite F].
  destruct r1 as [[]|e1]; [|now injection Run as <- <-].
  unfold bind at 1 in Run. unfold gets at 1 in Run.
  destruct (found_dates s1) as [|x l] eqn:F1.
  { unfold modify in Run. injection Run as <- <-. exact F1. }
  unfold bind at 1 in Run.
  destruct (compute_shift_frame now s1) as [[E _] | (latest & _ & Cs)];
    [congruence|].
  rewrite Cs in Run. unfold bind at 1 in Run.
  destruct (apply_shift pad_year _) as [r3 s3] eqn:A.
  apply apply_shift_frame in A as [(root' & ->) _].
  destruct r3 as [n|e3]; [|injection Run as <- <-; exact F1].
  unfold bind at 1 in Run. unfold modify at 1 in Run. unfold bind at 1 in Run.
  rewrite write_output_run in Run. unfold modify in Run.
  injection Run as <- <-. exact F1.
Qed.

Lemma X10_witness :
  NoDup (map location
           (found_dates (snd (run true (Ok (JList sample_items)) sample_now 12
                                (init None))))).
Proof.
  assert (D : distinct_keys (JList sample_items) = true)
    by (vm_compute; reflexivity).
  exact (X10_no_place_is_recorded_twice true (JList sample_items) None sample_now
           12 _ _ D (surjective_pairing _)).
Defined.

(** X11: [collect_dates] changes nothing but [found_dates], and only
    appends to it: called a second time, it appends the same elements
    again. *)
Theorem X11_collect_dates_appends (s : FixtureUpdater) (items : list json)
    (s1 : FixtureUpdater) :
  data s = JList items ->
  forallb well_formed_item items = true ->
  distinct_keys (data s) = true ->
  collect_dates s = (Ok tt, s1) ->
  exists new,
    s1 = set_found_dates (found_dates s ++ new) s
    /\ collect_dates s1
       = (Ok tt, set_found_dates (found_dates s ++ new ++ new) s).
Proof.
  intros E W D C.
  destruct (collect_dates_exact s items _ _ E D W C) as (new & -> & _ & _ & Ind & _).
  exists new. split; [reflexivity|].
  rewrite (Ind (set_found_dates (found_dates s ++ new) s) eq_refl).
  rewrite set_found_dates_twice. cbn [found_dates set_found_dates].
  now rewrite <- app_assoc.
Qed.

Lemma X11_witness :
  exists new,
    new <> []
    /\ collect_dates (snd (collect_dates (set_data (JList sample_items) (init None))))
       = (Ok tt, set_found_dates (new ++ new) (set_data (JList sample_items) (init None))).
Proof.
  assert (W : forallb well_formed_item sample_items = true)
    by (vm_compute; reflexivity).
  assert (D : distinct_keys (data (set_data (JList sample_items) (init None))) = true)
    by (vm_compute; reflexivity).
  assert (C : collect_dates (set_data (JList sample_items) (init None))
              = (Ok tt, snd (collect_dates (set_data (JList sample_items) (init None)))))
    by (vm_compute; reflexivity).
  destruct (X11_collect_dates_appends (set_data (JList sample_items) (init None))
              sample_items _ eq_refl W D C) as (new & E & T).
  exists new. split; [|exact T].
  intros ->. rewrite E in C. vm_compute in C. discriminate C.
Defined.



(** X13: [compute_shift] on an empty [found_dates] raises the [ValueError] of
    [max] and changes nothing; otherwise it returns, having set the latest
    element, one of [found_dates], and the delta to the target, and nothing
    else. *)
Theorem X13_compute_shift_needs_a_found_date (now : datetime) (s : FixtureUpdater) :
  (found_dates s = [] -> compute_shift now s = (Raise ValueError, s))
  /\ (found_dates s <> [] ->
      exists latest,
        In latest (found_dates s)
        /\ compute_shift now s
           = (Ok tt,
              set_delta (dt_sub (target_of (target_latest_dt s) now) (f_dt latest))
                (set_latest latest s))).
Proof.
  split.
  - apply compute_shift_empty.
  - intros N. destruct (compute_shift_frame now s) as [[E _] | H];
      [now elim N | exact H].
Qed.

Lemma X13_witness :
  compute_shift sample_now (init None) = (Raise ValueError, init None)
  /\ exists latest,
       compute_shift sample_now (set_found_dates sample_found_dates (init None))
       = (Ok tt,
          set_delta (dt_sub sample_now (f_dt latest))
            (set_latest latest (set_found_dates sample_found_dates (init None)))).
Proof.
  split.
  - exact (proj1 (X13_compute_shift_needs_a_found_date sample_now (init None))
             eq_refl).
  - destruct (proj2 (X13_compute_shift_needs_a_found_date sample_now
                       (set_found_dates sample_found_dates (init None))))
      as (latest & _ & E); [discriminate|].
    exists latest. exact E.
Defined.

(** X14: [apply_shift] changes nothing of the object but the tree; when it
    returns, the delta was set and the value returned is the length of
    [found_dates]. *)
Theorem X14_apply_shift_changes_only_the_tree (pad_year : bool)
    (s : FixtureUpdater) (r : result nat) (s' : FixtureUpdater) :
  apply_shift pad_year s = (r, s') ->
  (exists root', s' = set_data root' s)
  /\ (forall n, r = Ok n -> n = List.length (found_dates s) /\ delta s <> None).
Proof. exact (apply_shift_frame pad_year s r s'). Qed.

Lemma X14_witness :
  exists root',
    snd (apply_shift true
           (snd (compute_shift sample_now
                   (snd (collect_dates (set_data (JList sample_items) (init None)))))))
    = set_data root'
        (snd (compute_shift sample_now
                (snd (collect_dates (set_data (JList sample_items) (init None)))))).
Proof.
  exact (proj1 (X14_apply_shift_changes_only_the_tree true _ _ _
                  (surjective_pairing _))).
Defined.

(** X15: over recorded places, [apply_shift] either returns the length of
    [found_dates] or raises [OverflowError]; it returns exactly when every
    found instant plus the delta falls within the years 1 to 9999. *)
Theorem X15_apply_shift_overflows_out_of_range (pad_year : bool)
    (s : FixtureUpdater) (d : timedelta) :
  delta s = Some d ->
  Forall (recorded (data s)) (found_dates s) ->
  (fst (apply_shift pad_year s) = Ok (List.length (found_dates s))
   \/ fst (apply_shift pad_year s) = Raise OverflowError)
  /\ (fst (apply_shift pad_year s) = Ok (List.length (found_dates s))
      <-> forall e, In e (found_dates s) ->
            US_PER_DAY <= instant e + d < (MAXORDINAL + 1) * US_PER_DAY).
Proof.
  intros Dl R. rewrite (apply_shift_run pad_year s d Dl).
  destruct (for_each (found_dates s) (shift_one pad_year d) s) as [r3 s3] eqn:L.
  apply shift_loop_spec in L as (root' & -> & _ & Done & Out & Tot & _).
  - split.
    + destruct Out as [-> | ->]; cbn; auto.
    + split.
      * intros E e I. destruct r3 as [[]|x]; [|discriminate E].
        destruct (Done eq_refl e I) as (sh & A & _).
        destruct (Z_le_dec US_PER_DAY (instant e + d)) as [L1 | L1];
          [destruct (Z_lt_dec (instant e + d) ((MAXORDINAL + 1) * US_PER_DAY))
            as [L2 | L2]; [auto|]|];
          exfalso;
          assert (X : dt_add (f_dt e) d = Raise OverflowError)
            by (apply dt_add_overflow; unfold instant in *; lia);
          congruence.
      * intros H. rewrite Tot; [reflexivity|].
        intros e I. apply dt_add_defined. exact (H e I).
  - eapply recorded_coherent; eauto.
  - intros e I. rewrite Forall_forall in R.
    destruct (R e I) as (item & G & _). eauto.
Qed.

Lemma X15_witness :
  fst (apply_shift true
         (set_delta (- (366 * US_PER_DAY))
            (set_found_dates
               [mkfound [KIdx 0; KStr "fields"] (KStr "born")
                  (mkdt 1 6 1 0 0 0 0) DATE_FIELD_PATTERN 0]
               (set_data (JList [JDict [("fields", JDict [("born", JStr "0001-06-01")])]])
                  (init None)))))
  = Raise OverflowError.
Proof.
  set (s := set_delta (- (366 * US_PER_DAY))
              (set_found_dates
                 [mkfound [KIdx 0; KStr "fields"] (KStr "born")
                    (mkdt 1 6 1 0 0 0 0) DATE_FIELD_PATTERN 0]
                 (set_data (JList [JDict [("fields", JDict [("born", JStr "0001-06-01")])]])
                    (init None)))).
  assert (R : Forall (recorded (data s)) (found_dates s)).
  { constructor; [|constructor]. exists "0001-06-01". split; reflexivity. }
  destruct (X15_apply_shift_overflows_out_of_range true s (- (366 * US_PER_DAY))
              eq_refl R) as [[E | E] _]; [|exact E].
  vm_compute in E. discriminate E.
Defined.

(** X16: [apply_shift] shifts the recorded datetimes, not what the tree holds:
    called again after it has returned, it returns the same count and
    leaves the object as it is. *)
Theorem X16_apply_shift_again_changes_nothing (pad_year : bool)
    (s : FixtureUpdater) (n : nat) (s1 : FixtureUpdater) :
  Forall (recorded (data s)) (found_dates s) ->
  apply_shift pad_year s = (Ok n, s1) ->
  apply_shift pad_year s1 = (Ok n, s1).
Proof.
  intros R A.
  destruct (delta s) as [d|] eqn:Dl;
    [|rewrite (apply_shift_unset pad_year s Dl) in A; discriminate A].
  rewrite (apply_shift_run pad_year s d Dl) in A.
  destruct (for_each (found_dates s) (shift_one pad_year d) s) as [r3 s3] eqn:L.
  apply shift_loop_spec in L as (root' & -> & _ & Done & _ & _ & _).
  - destruct r3 as [[]|x]; [|discriminate A]. injection A as <- <-.
    rewrite (apply_shift_run pad_year (set_data root' s) d) by exact Dl.
    change (found_dates (set_data root' s)) with (found_dates s).
    rewrite shift_loop_fixed; [reflexivity|].
    intros e I. exact (Done eq_refl e I).
  - eapply recorded_coherent; eauto.
  - intros e I. rewrite Forall_forall in R.
    destruct (R e I) as (item & G & _). eauto.
Qed.

Lemma X16_witness :
  apply_shift true
    (snd (apply_shift true
            (snd (compute_shift sample_now
                    (snd (collect_dates (set_data (JList sample_items) (init None))))))))
  = (Ok 3%nat,
     snd (apply_shift true
            (snd (compute_shift sample_now
                    (snd (collect_dates (set_data (JList sample_items) (init None)))))))).
Proof.
  set (s := snd (compute_shift sample_now
                   (snd (collect_dates (set_data (JList sample_items) (init None)))))).
  assert (R : Forall (recorded (data s)) (found_dates s)).
  { apply Forall_forall. intros e I.
    assert (F : found_dates s
                = [mkfound [KIdx 0; KStr "fields"] (KStr "created")
                     (mkdt 2023 1 1 0 0 0 0) DATETIME_FIELD_PATTERN 0;
                   mkfound [KIdx 0; KStr "fields"; KStr "tags"] (KIdx 0)
                     (mkdt 2023 1 1 0 0 0 0) DATE_FIELD_PATTERN 0;
                   mkfound [KIdx 0; KStr "fields"; KStr "tags"; KIdx 2] (KStr "when")
                     (mkdt 2022 12 31 23 59 59 250000) DATETIME_FIELD_PATTERN 3])
      by (vm_compute; reflexivity).
    rewrite F in I. destruct I as [<- | [<- | [<- | []]]].
    - exists "2023-01-01T00:00:00Z". split; vm_compute; reflexivity.
    - exists "2023-01-01". split; vm_compute; reflexivity.
    - exists "2022-12-31T23:59:59.250Z". split; vm_compute; reflexivity. }
  assert (A : apply_shift true s = (Ok 3%nat, snd (apply_shift true s)))
    by (vm_compute; reflexivity).
  exact (X16_apply_shift_again_changes_nothing true s 3 _ R A).
Defined.



(** X18: a run that returns has set the elapsed time; when nothing is found
    it has written, counted and planned nothing, and otherwise it has
    written the tree it holds, counted the elements of [found_dates], and
    recorded one of them as the latest with the delta from it to the
    target. *)
Theorem X18_a_run_that_returns (pad_year : bool) (fixture : result json)
    (now : datetime) (elapsed : Z) (s s' : FixtureUpdater) :
  run pad_year fixture now elapsed s = (Ok tt, s') ->
  elapsed_ms s' = elapsed
  /\ ((found_dates s' = [] /\ written s' = written s
       /\ updated_count s' = updated_count s /\ delta s' = delta s
       /\ latest_dt s' = latest_dt s)
      \/ (found_dates s' <> [] /\ written s' = Some (data s')
          /\ updated_count s' = List.length (found_dates s')
          /\ exists latest,
               In latest (found_dates s')
               /\ latest_dt s' = Some (f_dt latest)
               /\ latest_type s' = Some (f_type latest)
               /\ latest_fraction_len s' = f_fraction_len latest
               /\ delta s'
                  = Some (dt_sub (target_of (target_latest_dt s) now)
                            (f_dt latest)))).
Proof. exact (run_outcome pad_year fixture now elapsed s (Ok tt) s'). Qed.

Lemma X18_witness :
  updated_count (snd (run true (Ok (JList sample_items)) sample_now 12 (init None)))
  = 3%nat
  /\ written (snd (run true (Ok (JList sample_items)) sample_now 12 (init None)))
     = Some (data (snd (run true (Ok (JList sample_items)) sample_now 12
                         (init None)))).
Proof.
  assert (R : run true (Ok (JList sample_items)) sample_now 12 (init None)
              = (Ok tt, snd (run true (Ok (JList sample_items)) sample_now 12
                               (init None))))
    by (vm_compute; reflexivity).
  assert (F : List.length
                (found_dates (snd (run true (Ok (JList sample_items)) sample_now 12
                                     (init None)))) = 3%nat)
    by (vm_compute; reflexivity).
  destruct (X18_a_run_that_returns true (Ok (JList sample_items)) sample_now
              12 (init None) _ R) as (_ & [(E & _) | (_ & Wr & Uc & _)]).
  - rewrite E in F. discriminate F.
  - split; [now rewrite Uc | exact Wr].
Defined.



(** X20: [main] ends as its run ends.  When the run raises, nothing is logged
    and nothing written; when it finds nothing, the log is the notice that
    nothing changed and nothing is written; otherwise the tree is written
    and the log gives the delta, the number of found dates, the latest
    found datetime and the target, both rendered in the shape of that latest
    element, the output path and the elapsed time. *)
Theorem X20_what_main_reports (pad_year : bool) (target : option datetime)
    (fixture : result json) (now : datetime) (elapsed : Z)
    (log : list log_record) (r : result unit) (s' : FixtureUpdater) :
  valid (target_of target now) = true ->
  main pad_year target fixture now elapsed = (log, r, s') ->
  run pad_year fixture now elapsed (init target) = (r, s')
  /\ match r with
     | Raise _ => log = [] /\ written s' = None
     | Ok _ =>
         (found_dates s' = [] /\ written s' = None
          /\ log = no_changes_report elapsed)
         \/ (exists latest,
               In latest (found_dates s')
               /\ written s' = Some (data s')
               /\ log
                  = [ ("Dates moved up by %.1f days",
                       [ArgDays (dt_sub (target_of target now) (f_dt latest))]);
                      ("Updated %d date value(s).",
                       [ArgInt (Z.of_nat (List.length (found_dates s')))]);
                      ("Most recent original timestamp: %s",
                       [ArgStr (format_utc_timestamp pad_year (f_dt latest)
                                  (f_type latest) (f_fraction_len latest))]);
                      ("New most recent timestamp:      %s",
                       [ArgStr (format_utc_timestamp pad_year
                                  (target_of target now)
                                  (f_type latest) (f_fraction_len latest))]);
                      ("Wrote updated fixture to:       %s", [ArgOutputPath]);
                      ("Completed in %dms!", [ArgInt elapsed]) ])
     end.
Proof.
  intros V M. destruct (main_outcome _ _ _ _ _ _ _ _ V M) as (Run & O).
  split; [exact Run|]. destruct r as [u|e]; [|exact O].
  destruct O as [O | (latest & I & Wr & _ & L)]; [now left|].
  right. exists latest. auto.
Qed.

Lemma X20_witness :
  exists latest,
    In latest
       (found_dates (snd (main true None (Ok (JList sample_items)) sample_now 12)))
    /\ fst (fst (main true None (Ok (JList sample_items)) sample_now 12))
       = [ ("Dates moved up by %.1f days",
            [ArgDays (dt_sub sample_now (f_dt latest))]);
           ("Updated %d date value(s).", [ArgInt 3]);
           ("Most recent original timestamp: %s",
            [ArgStr (format_utc_timestamp true (f_dt latest) (f_type latest)
                       (f_fraction_len latest))]);
           ("New most recent timestamp:      %s",
            [ArgStr (format_utc_timestamp true sample_now (f_type latest)
                       (f_fraction_len latest))]);
           ("Wrote updated fixture to:       %s", [ArgOutputPath]);
           ("Completed in %dms!", [ArgInt 12]) ].
Proof.
  assert (V : valid (target_of None sample_now) = true) by reflexivity.
  assert (M : main true None (Ok (JList sample_items)) sample_now 12
              = (fst (fst (main true None (Ok (JList sample_items)) sample_now 12)),
                 Ok tt,
                 snd (main true None (Ok (JList sample_items)) sample_now 12)))
    by (vm_compute; reflexivity).
  assert (F : List.length
                (found_dates (snd (main true None (Ok (JList sample_items))
                                     sample_now 12))) = 3%nat)
    by (vm_compute; reflexivity).
  destruct (X20_what_main_reports true None _ sample_now 12 _ _ _ V M)
    as (_ & [(E & _) | (latest & I & _ & L)]).
  - rewrite E in F. discriminate F.
  - exists latest. split; [exact I|]. rewrite L, F. reflexivity.
Defined.

(** X21: whatever the outcome of a run over well-formed items, a value that
    is no container and is not under the [fields] of an item is in the tree
    the object holds where and as it is in the input, a string that looks
    like a timestamp included. *)
Theorem X21_values_outside_fields_stay (pad_year : bool) (items : list json)
    (target : option datetime) (now : datetime) (elapsed : Z)
    (r : result unit) (s' : FixtureUpdater) (q : path) (x : json) :
  forallb well_formed_item items = true ->
  distinct_keys (JList items) = true ->
  run pad_year (Ok (JList items)) now elapsed (init target) = (r, s') ->
  get_at q (JList items) = Ok x -> is_leaf x = true ->
  (forall idx rest, q <> KIdx idx :: KStr "fields" :: rest) ->
  get_at q (data s') = Ok x.
Proof.
  intros W D Run G L Out.
  destruct (run_scanned items target W D) as (r1 & l & C & R & _ & _).
  destruct (run_well_formed pad_year items target now elapsed W D)
    as (r1' & l' & C' & _ & _ & Run').
  rewrite C in C'. injection C' as <- E. subst l'.
  rewrite Run in Run'.
  destruct r1 as [[]|e1]; [|cbv iota in Run'; injection Run' as -> ->; exact G].
  destruct l as [|x0 l0]; [cbv iota in Run'; injection Run' as -> ->; exact G|].
  destruct (run_found pad_year items target now elapsed _ x0 l0 W D C eq_refl)
    as (r3 & root' & _ & Fr & _ & _ & _ & _ & Run3).
  rewrite Run in Run3.
  assert (Gr : get_at q root' = Ok x).
  { apply Fr; [exact G | exact L |]. intros e I Eq.
    rewrite Forall_forall in R. destruct (R e I) as [_ U].
    destruct (under_fields_location e U) as (idx & rest & El).
    apply (Out idx rest). now rewrite Eq. }
  destruct r3 as [[]|e3]; injection Run3 as -> ->; exact Gr.
Qed.

Lemma X21_witness :
  get_at [KIdx 0; KStr "model"]
    (data (snd (run true (Ok (JList sample_items)) sample_now 12 (init None))))
  = Ok (JStr "app.thing").
Proof.
  assert (W : forallb well_formed_item sample_items = true)
    by (vm_compute; reflexivity).
  assert (D : distinct_keys (JList sample_items) = true)
    by (vm_compute; reflexivity).
  assert (R : run true (Ok (JList sample_items)) sample_now 12 (init None)
              = (fst (run true (Ok (JList sample_items)) sample_now 12 (init None)),
                 snd (run true (Ok (JList sample_items)) sample_now 12 (init None))))
    by (vm_compute; reflexivity).
  assert (G : get_at [KIdx 0; KStr "model"] (JList sample_items)
              = Ok (JStr "app.thing")) by (vm_compute; reflexivity).
  apply (X21_values_outside_fields_stay true sample_items None sample_now 12
           _ _ _ _ W D R G eq_refl).
  intros idx rest E. discriminate E.
Defined.

(** X22: after a run that returns, every string under the [fields] of an
    item that parses as a timestamp has been replaced, at its place in the
    tree written out, by the rendering of its instant plus the delta of the
    run, in the shape and with the fraction length it was parsed with. *)
Theorem X22_every_timestamp_under_fields_is_shifted (pad_year : bool)
    (items : list json) (target : option datetime) (now : datetime)
    (elapsed : Z) (s' : FixtureUpdater) (idx : nat) (rel : path) (k : key)
    (item : string) (t : datetime) (ty : pattern) (n : nat) :
  forallb well_formed_item items = true ->
  distinct_keys (JList items) = true ->
  run pad_year (Ok (JList items)) now elapsed (init target) = (Ok tt, s') ->
  get_at ([KIdx idx; KStr "fields"] ++ rel ++ [k]) (JList items) = Ok (JStr item) ->
  parse_utc_timestamp item = Ok (Some (t, ty, n)) ->
  exists d shifted,
    delta s' = Some d
    /\ dt_add t d = Ok shifted
    /\ get_at ([KIdx idx; KStr "fields"] ++ rel ++ [k]) (data s')
       = Ok (JStr (format_utc_timestamp pad_year shifted ty n))
    /\ written s' = Some (data s').
Proof.
  intros W D Run G P.
  destruct (run_scanned items target W D) as (r1 & l & C & R & Ok1 & _).
  destruct (run_well_formed pad_year items target now elapsed W D)
    as (r1' & l' & C' & _ & _ & Run').
  rewrite C in C'. injection C' as <- E. subst l'.
  rewrite Run in Run'.
  destruct r1 as [[]|e1]; [|discriminate Run'].
  destruct (Ok1 eq_refl idx rel k item G) as (p & Pp & Q).
  rewrite P in Pp. injection Pp as <-.
  specialize (Q t ty n eq_refl).
  destruct l as [|x0 l0]; [destruct Q|].
  destruct (run_found pad_year items target now elapsed _ x0 l0 W D C eq_refl)
    as (r3 & root' & _ & _ & Done & _ & _ & _ & Run3).
  rewrite Run in Run3.
  destruct r3 as [[]|e3]; [|discriminate Run3]. injection Run3 as ->.
  destruct (Done eq_refl _ Q) as (sh & A & Gs).
  exists (dt_sub (target_of target now) (f_dt (max_from x0 l0))), sh.
  split; [reflexivity|]. split; [exact A|]. split; [|reflexivity].
  unfold location in Gs. cbn [f_container f_key f_type f_fraction_len] in Gs.
  rewrite <- app_assoc in Gs. exact Gs.
Qed.

Lemma X22_witness :
  get_at [KIdx 0; KStr "fields"; KStr "tags"; KIdx 2; KStr "when"]
    (data (snd (run true (Ok (JList sample_items)) sample_now 12 (init None))))
  = Ok (JStr "2024-05-31T23:59:59.250Z").
Proof.
  assert (W : forallb well_formed_item sample_items = true)
    by (vm_compute; reflexivity).
  assert (D : distinct_keys (JList sample_items) = true)
    by (vm_compute; reflexivity).
  assert (R : run true (Ok (JList sample_items)) sample_now 12 (init None)
              = (Ok tt,
                 snd (run true (Ok (JList sample_items)) sample_now 12 (init None))))
    by (vm_compute; reflexivity).
  assert (G : get_at ([KIdx 0; KStr "fields"] ++ [KStr "tags"; KIdx 2] ++ [KStr "when"])
                (JList sample_items)
              = Ok (JStr "2022-12-31T23:59:59.250Z")) by (vm_compute; reflexivity).
  assert (P : parse_utc_timestamp "2022-12-31T23:59:59.250Z"
              = Ok (Some (mkdt 2022 12 31 23 59 59 250000,
                          DATETIME_FIELD_PATTERN, 3%nat)))
    by (vm_compute; reflexivity).
  destruct (X22_every_timestamp_under_fields_is_shifted true sample_items None
              sample_now 12 _ 0 [KStr "tags"; KIdx 2] (KStr "when") _ _ _ _
              W D R G P) as (d & sh & Dl & A & Gs & _).
  vm_compute in Dl. injection Dl as <-.
  vm_compute in A. injection A as <-.
  exact Gs.
Defined.

(** X23: after a run that returns, the place of every found timestamp holds a
    text whose instant is no later than the target; where [strftime] writes
    the year with four digits that text parses again, to the shape and the
    fraction length of the original and to the shifted instant cut to what
    the text shows, which is no later than the target either. *)
Theorem X23_shape_and_precision_are_kept (pad_year : bool) (items : list json)
    (target : option datetime) (now : datetime) (elapsed : Z)
    (s' : FixtureUpdater) (e : found) :
  forallb well_formed_item items = true ->
  distinct_keys (JList items) = true ->
  run pad_year (Ok (JList items)) now elapsed (init target) = (Ok tt, s') ->
  In e (found_dates s') ->
  exists d shifted text,
    delta s' = Some d
    /\ dt_add (f_dt e) d = Ok shifted
    /\ get_at (location e) (data s') = Ok (JStr text)
    /\ to_micros shifted <= to_micros (target_of target now)
    /\ (pattern_is (f_type e) DATE_FIELD_PATTERN
        || four_digit_year pad_year shifted = true ->
        parse_utc_timestamp text
        = Ok (Some (truncate_to shifted (f_type e) (f_fraction_len e),
                    f_type e, f_fraction_len e))
        /\ to_micros (truncate_to shifted (f_type e) (f_fraction_len e))
           <= to_micros (target_of target now)).
Proof.
  intros W D Run I.
  destruct (run_well_formed pad_year items target now elapsed W D)
    as (r1 & l & C & R & _ & Run').
  rewrite Run in Run'.
  destruct r1 as [[]|e1]; [|discriminate Run'].
  destruct l as [|x0 l0].
  { cbv iota in Run'. injection Run' as ->. destruct I. }
  destruct (run_found pad_year items target now elapsed _ x0 l0 W D C eq_refl)
    as (r3 & root' & _ & _ & Done & _ & _ & _ & Run3).
  rewrite Run in Run3.
  destruct r3 as [[]|e3]; [|discriminate Run3]. injection Run3 as ->.
  change (found_dates (finished target now elapsed (JList items) x0 l0 root'))
    with (x0 :: l0) in I.
  destruct (Done eq_refl e I) as (sh & A & G).
  set (d := dt_sub (target_of target now) (f_dt (max_from x0 l0))) in *.
  exists d, sh, (format_utc_timestamp pad_year sh (f_type e) (f_fraction_len e)).
  split; [reflexivity|]. split; [exact A|]. split; [exact G|].
  assert (Vl : Forall (fun y => valid (f_dt y) = true) (x0 :: l0)).
  { eapply Forall_impl; [|exact R]. intros y Ry. eapply recorded_valid; eauto. }
  destruct (max_by_dt_spec (x0 :: l0) ltac:(discriminate) Vl)
    as (latest & pre & post & M & E & Lt & Le).
  cbn [max_by_dt] in M. injection M as M.
  assert (Ie : instant e <= instant latest).
  { rewrite E in I. apply in_app_or in I as [I | [<- | I]].
    - specialize (Lt e I). lia.
    - lia.
    - now apply Le. }
  destruct (dt_add_ok _ _ _ A) as [Vs Ms].
  assert (B : to_micros sh <= to_micros (target_of target now)).
  { rewrite Ms. unfold d, dt_sub. rewrite M. unfold instant in Ie. lia. }
  split; [exact B|]. intros Y.
  rewrite Forall_forall in R.
  destruct (R e I) as (item & _ & P).
  destruct (parse_result_shown _ _ _ _ P) as (_ & Ln & _ & Sf).
  split.
  - destruct (f_type e) eqn:Ty; cbn [pattern_is orb] in Y.
    + apply parse_rendered_datetime; [exact Vs | exact Ln |].
      unfold four_digit_year in Y.
      apply orb_true_iff in Y as [Y | Y]; [now left | right; now apply Z.leb_le].
    + cbn [shown_fraction_len] in Sf. rewrite <- Sf.
      now apply parse_rendered_date.
  - pose proof (truncate_le sh (f_type e) (f_fraction_len e) Vs). lia.
Qed.

Lemma X23_witness :
  exists text,
    get_at [KIdx 0; KStr "fields"; KStr "tags"; KIdx 0]
      (data (snd (run true (Ok (JList sample_items)) sample_now 12 (init None))))
    = Ok (JStr text)
    /\ parse_utc_timestamp text
       = Ok (Some (mkdt 2024 6 1 0 0 0 0, DATE_FIELD_PATTERN, 0%nat)).
Proof.
  assert (W : forallb well_formed_item sample_items = true)
    by (vm_compute; reflexivity).
  assert (D : distinct_keys (JList sample_items) = true)
    by (vm_compute; reflexivity).
  assert (R : run true (Ok (JList sample_items)) sample_now 12 (init None)
              = (Ok tt,
                 snd (run true (Ok (JList sample_items)) sample_now 12 (init None))))
    by (vm_compute; reflexivity).
  assert (I : In (mkfound [KIdx 0; KStr "fields"; KStr "tags"] (KIdx 0)
                    (mkdt 2023 1 1 0 0 0 0) DATE_FIELD_PATTERN 0)
                (found_dates (snd (run true (Ok (JList sample_items)) sample_now 12
                                     (init None)))))
    by (vm_compute; auto).
  destruct (X23_shape_and_precision_are_kept true sample_items None sample_now 12
              _ _ W D R I) as (d & sh & text & Dl & A & G & _ & P).
  exists text. split; [exact G|].
  vm_compute in Dl. injection Dl as <-.
  vm_compute in A. injection A as <-.
  exact (proj1 (P eq_refl)).
Defined.

(** X24: when the target is the greatest instant found already, and every
    found string is of one of the two shapes with no newline after it and a
    year that [strftime] writes with four digits, the run computes a delta
    of zero and writes the tree as it was loaded. *)
Theorem X24_target_already_reached (pad_year : bool) (items : list json)
    (target : option datetime) (now : datetime) (elapsed : Z)
    (s' : FixtureUpdater) :
  forallb well_formed_item items = true ->
  distinct_keys (JList items) = true ->
  run pad_year (Ok (JList items)) now elapsed (init target) = (Ok tt, s') ->
  greatest_instant (found_dates s') (to_micros (target_of target now)) ->
  (forall e item,
     In e (found_dates s') ->
     get_at (location e) (JList items) = Ok (JStr item) ->
     supported item = true
     /\ pattern_is (f_type e) DATE_FIELD_PATTERN
        || four_digit_year pad_year (f_dt e) = true) ->
  delta s' = Some 0 /\ data s' = JList items /\ written s' = Some (JList items).
Proof.
  intros W D Run Gr Canon. destruct Gr as [(e0 & I0 & E0) Gr].
  destruct (run_well_formed pad_year items target now elapsed W D)
    as (r1 & l & C & R & _ & Run').
  rewrite Run in Run'.
  destruct r1 as [[]|e1]; [|discriminate Run'].
  destruct l as [|x0 l0].
  { cbv iota in Run'. injection Run' as ->. destruct I0. }
  cbv iota zeta in Run'.
  assert (F : found_dates s' = x0 :: l0).
  { destruct (run_found pad_year items target now elapsed _ x0 l0 W D C eq_refl)
      as (r3 & root' & _ & _ & _ & _ & _ & _ & Run3).
    rewrite Run in Run3. destruct r3 as [[]|e3]; [|discriminate Run3].
    injection Run3 as ->. reflexivity. }
  rewrite F in *.
  assert (Vl : Forall (fun y => valid (f_dt y) = true) (x0 :: l0)).
  { eapply Forall_impl; [|exact R]. intros y Ry. eapply recorded_valid; eauto. }
  destruct (max_by_dt_spec (x0 :: l0) ltac:(discriminate) Vl)
    as (latest & pre & post & M & E & Lt & Le).
  cbn [max_by_dt] in M. injection M as M.
  assert (Z0 : dt_sub (target_of target now) (f_dt (max_from x0 l0)) = 0).
  { rewrite M. unfold dt_sub.
    assert (Il : In latest (x0 :: l0))
      by (rewrite E; apply in_or_app; right; now left).
    pose proof (Gr latest Il) as H1.
    assert (instant e0 <= instant latest).
    { rewrite E in I0. apply in_app_or in I0 as [I0 | [<- | I0]].
      - specialize (Lt e0 I0). lia.
      - lia.
      - now apply Le. }
    unfold instant in *. lia. }
  rewrite Z0 in Run'.
  rewrite shift_loop_fixed in Run'.
  - injection Run' as ->. cbn. now rewrite Z0.
  - intros e I. exists (f_dt e).
    rewrite Forall_forall in R, Vl.
    split; [apply dt_add_zero; now apply Vl|].
    destruct (R e I) as (item & G & P).
    destruct (Canon e item I G) as [S Y].
    change (data (planned target now (JList items) x0 l0)) with (JList items).
    rewrite G. do 2 f_equal. symmetry. now apply render_parsed.
Qed.

Lemma X24_witness :
  data (snd (run false (Ok (JList sample_items)) sample_now 12
               (init (Some (mkdt 2023 1 1 0 0 0 0)))))
  = JList sample_items.
Proof.
  set (target := Some (mkdt 2023 1 1 0 0 0 0)).
  assert (W : forallb well_formed_item sample_items = true)
    by (vm_compute; reflexivity).
  assert (D : distinct_keys (JList sample_items) = true)
    by (vm_compute; reflexivity).
  assert (R : run false (Ok (JList sample_items)) sample_now 12 (init target)
              = (Ok tt,
                 snd (run false (Ok (JList sample_items)) sample_now 12 (init target))))
    by (vm_compute; reflexivity).
  assert (F : found_dates (snd (run false (Ok (JList sample_items)) sample_now 12
                                  (init target)))
              = [mkfound [KIdx 0; KStr "fields"] (KStr "created")
                   (mkdt 2023 1 1 0 0 0 0) DATETIME_FIELD_PATTERN 0;
                 mkfound [KIdx 0; KStr "fields"; KStr "tags"] (KIdx 0)
                   (mkdt 2023 1 1 0 0 0 0) DATE_FIELD_PATTERN 0;
                 mkfound [KIdx 0; KStr "fields"; KStr "tags"; KIdx 2] (KStr "when")
                   (mkdt 2022 12 31 23 59 59 250000) DATETIME_FIELD_PATTERN 3])
    by (vm_compute; reflexivity).
  refine (proj1 (proj2 (X24_target_already_reached false sample_items target
                          sample_now 12 _ W D R _ _))).
  - rewrite F. split.
    + eexists. split; [now left | reflexivity].
    + intros e [<- | [<- | [<- | []]]]; vm_compute; discriminate.
  - intros e item I G. rewrite F in I.
    destruct I as [<- | [<- | [<- | []]]];
      vm_compute in G; injection G as <-; split; reflexivity.
Defined.

(** X25: after a run that returns, two found timestamps of one shape and
    fraction length whose instants are in order hold texts that, where
    [strftime] writes the years with four digits, parse to instants in the
    same order: cutting to the precision shown never swaps two values. *)
Theorem X25_written_texts_keep_the_order (pad_year : bool) (items : list json)
    (target : option datetime) (now : datetime) (elapsed : Z)
    (s' : FixtureUpdater) (e1 e2 : found) :
  forallb well_formed_item items = true ->
  distinct_keys (JList items) = true ->
  run pad_year (Ok (JList items)) now elapsed (init target) = (Ok tt, s') ->
  In e1 (found_dates s') -> In e2 (found_dates s') ->
  f_type e1 = f_type e2 -> f_fraction_len e1 = f_fraction_len e2 ->
  instant e1 <= instant e2 ->
  exists d shifted1 shifted2 text1 text2,
    delta s' = Some d
    /\ dt_add (f_dt e1) d = Ok shifted1
    /\ dt_add (f_dt e2) d = Ok shifted2
    /\ get_at (location e1) (data s') = Ok (JStr text1)
    /\ get_at (location e2) (data s') = Ok (JStr text2)
    /\ (pattern_is (f_type e1) DATE_FIELD_PATTERN
        || four_digit_year pad_year shifted1 && four_digit_year pad_year shifted2
        = true ->
        exists u1 u2,
          parse_utc_timestamp text1
          = Ok (Some (u1, f_type e1, f_fraction_len e1))
          /\ parse_utc_timestamp text2
             = Ok (Some (u2, f_type e2, f_fraction_len e2))
          /\ to_micros u1 <= to_micros u2).
Proof.
  intros W D Run I1 I2 Ty Fl Le.
  destruct (run_shifted pad_year items target now elapsed s' W D Run)
    as (d & Dl & H).
  { intros E. rewrite E in I1. destruct I1. }
  destruct (H e1 I1) as ((item1 & _ & P1) & sh1 & A1 & V1 & M1 & _ & G1).
  destruct (H e2 I2) as (_ & sh2 & A2 & V2 & M2 & _ & G2).
  exists d, sh1, sh2,
    (format_utc_timestamp pad_year sh1 (f_type e1) (f_fraction_len e1)),
    (format_utc_timestamp pad_year sh2 (f_type e2) (f_fraction_len e2)).
  split; [exact Dl|]. split; [exact A1|]. split; [exact A2|].
  split; [exact G1|]. split; [exact G2|]. intros Y.
  destruct (parse_result_shown _ _ _ _ P1) as (_ & Ln & _ & Sf).
  exists (truncate_to sh1 (f_type e1) (f_fraction_len e1)),
         (truncate_to sh2 (f_type e1) (f_fraction_len e1)).
  rewrite <- Ty, <- Fl.
  assert (X : forall sh, valid sh = true ->
            pattern_is (f_type e1) DATE_FIELD_PATTERN
            || four_digit_year pad_year sh = true ->
            parse_utc_timestamp
              (format_utc_timestamp pad_year sh (f_type e1) (f_fraction_len e1))
            = Ok (Some (truncate_to sh (f_type e1) (f_fraction_len e1),
                        f_type e1, f_fraction_len e1))).
  { intros sh Vs Ys. destruct (f_type e1) eqn:T; cbn [pattern_is orb] in Ys.
    - apply parse_rendered_datetime; [exact Vs | exact Ln |].
      unfold four_digit_year in Ys.
      apply orb_true_iff in Ys as [Ys | Ys]; [now left | right; now apply Z.leb_le].
    - cbn [shown_fraction_len] in Sf. rewrite <- Sf.
      now apply parse_rendered_date. }
  assert (Y1 : pattern_is (f_type e1) DATE_FIELD_PATTERN
               || four_digit_year pad_year sh1 = true)
    by (destruct (pattern_is (f_type e1) DATE_FIELD_PATTERN); [reflexivity|];
        cbn [orb] in *; now apply andb_true_iff in Y as [Y _]).
  assert (Y2 : pattern_is (f_type e1) DATE_FIELD_PATTERN
               || four_digit_year pad_year sh2 = true)
    by (destruct (pattern_is (f_type e1) DATE_FIELD_PATTERN); [reflexivity|];
        cbn [orb] in *; now apply andb_true_iff in Y as [_ Y]).
  split; [now apply X|]. split; [now apply X|].
  apply truncate_mono; [exact V1 | exact V2 |]. lia.
Qed.

Lemma X25_witness :
  exists u1 u2,
    parse_utc_timestamp "2024-05-31T23:59:59.250Z"
    = Ok (Some (u1, DATETIME_FIELD_PATTERN, 3%nat))
    /\ to_micros u1 <= to_micros u2.
Proof.
  set (items := [JDict [("fields",
                         JDict [("a", JStr "2022-12-31T23:59:59.250Z");
                                ("b", JStr "2023-01-01T00:00:00.000Z")])]]).
  assert (W : forallb well_formed_item items = true) by reflexivity.
  assert (D : distinct_keys (JList items) = true) by reflexivity.
  assert (R : run true (Ok (JList items)) sample_now 12 (init None)
              = (Ok tt, snd (run true (Ok (JList items)) sample_now 12 (init None))))
    by (vm_compute; reflexivity).
  set (e1 := mkfound [KIdx 0; KStr "fields"] (KStr "a")
               (mkdt 2022 12 31 23 59 59 250000) DATETIME_FIELD_PATTERN 3).
  set (e2 := mkfound [KIdx 0; KStr "fields"] (KStr "b")
               (mkdt 2023 1 1 0 0 0 0) DATETIME_FIELD_PATTERN 3).
  assert (I1 : In e1 (found_dates (snd (run true (Ok (JList items)) sample_now 12
                                          (init None)))))
    by (vm_compute; left; reflexivity).
  assert (I2 : In e2 (found_dates (snd (run true (Ok (JList items)) sample_now 12
                                          (init None)))))
    by (vm_compute; right; left; reflexivity).
  assert (L : instant e1 <= instant e2) by (vm_compute; discriminate).
  destruct (X25_written_texts_keep_the_order true items None sample_now 12 _
              e1 e2 W D R I1 I2 eq_refl eq_refl L)
    as (d & sh1 & sh2 & text1 & text2 & Dl & A1 & A2 & G1 & G2 & P).
  destruct (P eq_refl) as (u1 & u2 & P1 & _ & Le).
  exists u1, u2. split; [|exact Le].
  vm_compute in G1. injection G1 as <-. exact P1.
Defined.

(** X26: when [main] reports a shift, the text it logs as the new most
    recent timestamp is the string that the written tree holds at the place
    of the latest element; and the text logged as the original one is the
    string the fixture held there, when that string is of one of the two
    shapes with no newline after it and a year that [strftime] writes with
    four digits. *)
Theorem X26_the_report_quotes_the_tree (pad_year : bool) (items : list json)
    (target : option datetime) (now : datetime) (elapsed : Z)
    (log : list log_record) (s' : FixtureUpdater) :
  forallb well_formed_item items = true ->
  distinct_keys (JList items) = true ->
  valid (target_of target now) = true ->
  main pad_year target (Ok (JList items)) now elapsed = (log, Ok tt, s') ->
  found_dates s' <> [] ->
  exists latest original moved,
    In latest (found_dates s')
    /\ get_at (location latest) (JList items) = Ok (JStr original)
    /\ get_at (location latest) (data s') = Ok (JStr moved)
    /\ nth_error log 3 = Some ("New most recent timestamp:      %s", [ArgStr moved])
    /\ (supported original = true ->
        pattern_is (f_type latest) DATE_FIELD_PATTERN
        || four_digit_year pad_year (f_dt latest) = true ->
        nth_error log 2
        = Some ("Most recent original timestamp: %s", [ArgStr original])).
Proof.
  intros W D V M N.
  destruct (main_outcome _ _ _ _ _ _ _ _ V M)
    as (Run & [(E & _) | (latest & I & _ & Dl & ->)]); [now elim N|].
  destruct (run_shifted pad_year items target now elapsed s' W D Run N)
    as (d & Dl' & H).
  rewrite Dl in Dl'. injection Dl' as <-.
  destruct (H latest I) as ((original & G0 & P) & sh & A & _ & _ & _ & G).
  rewrite (dt_add_sub (f_dt latest) _ V) in A. injection A as <-.
  exists latest, original,
    (format_utc_timestamp pad_year (target_of target now) (f_type latest)
       (f_fraction_len latest)).
  split; [exact I|]. split; [exact G0|]. split; [exact G|].
  split; [reflexivity|]. intros S Y. cbn [nth_error].
  now rewrite (render_parsed pad_year original _ _ _ P S Y).
Qed.

Lemma X26_witness :
  exists latest moved,
    get_at (location latest)
      (data (snd (main true None (Ok (JList sample_items)) sample_now 12)))
    = Ok (JStr moved)
    /\ nth_error (fst (fst (main true None (Ok (JList sample_items)) sample_now 12))) 3
       = Some ("New most recent timestamp:      %s", [ArgStr moved]).
Proof.
  assert (W : forallb well_formed_item sample_items = true)
    by (vm_compute; reflexivity).
  assert (D : distinct_keys (JList sample_items) = true)
    by (vm_compute; reflexivity).
  assert (V : valid (target_of None sample_now) = true) by reflexivity.
  assert (M : main true None (Ok (JList sample_items)) sample_now 12
              = (fst (fst (main true None (Ok (JList sample_items)) sample_now 12)),
                 Ok tt,
                 snd (main true None (Ok (JList sample_items)) sample_now 12)))
    by (vm_compute; reflexivity).
  assert (N : found_dates (snd (main true None (Ok (JList sample_items))
                                  sample_now 12)) <> [])
    by (vm_compute; discriminate).
  destruct (X26_the_report_quotes_the_tree true sample_items None sample_now 12
              _ _ W D V M N) as (latest & original & moved & _ & _ & G & L & _).
  exists latest, moved. split; [exact G | exact L].
Defined.

(** X27: when the delta of a run is a whole number of what the shape of a
    found timestamp shows, days for a date and units of its last fractional
    digit for a datetime, the shifted instant is shown in full: the text
    written at its place parses, where [strftime] writes the year with four
    digits, to the shifted instant itself. *)
Theorem X27_a_delta_of_whole_units_loses_nothing (pad_year : bool)
    (items : list json) (target : option datetime) (now : datetime)
    (elapsed : Z) (s' : FixtureUpdater) (e : found) (d : timedelta) :
  forallb well_formed_item items = true ->
  distinct_keys (JList items) = true ->
  run pad_year (Ok (JList items)) now elapsed (init target) = (Ok tt, s') ->
  In e (found_dates s') ->
  delta s' = Some d ->
  d mod shown_unit (f_type e) (f_fraction_len e) = 0 ->
  exists shifted text,
    dt_add (f_dt e) d = Ok shifted
    /\ get_at (location e) (data s') = Ok (JStr text)
    /\ shown_in_full shifted (f_type e) (f_fraction_len e) = true
    /\ (pattern_is (f_type e) DATE_FIELD_PATTERN
        || four_digit_year pad_year shifted = true ->
        parse_utc_timestamp text
        = Ok (Some (shifted, f_type e, f_fraction_len e))).
Proof.
  intros W D Run I Dl Dm.
  destruct (run_shifted pad_year items target now elapsed s' W D Run)
    as (d' & Dl' & H).
  { intros E. rewrite E in I. destruct I. }
  rewrite Dl in Dl'. injection Dl' as <-.
  destruct (H e I) as ((item & _ & P) & sh & A & Vs & _ & _ & G).
  destruct (parse_result_shown _ _ _ _ P) as (Vt & Ln & F & Sf).
  pose proof (shift_shown_in_full _ _ _ _ _ Vt A F Dm) as Fs.
  exists sh, (format_utc_timestamp pad_year sh (f_type e) (f_fraction_len e)).
  split; [exact A|]. split; [exact G|]. split; [exact Fs|]. intros Y.
  apply shown_in_full_truncate in Fs.
  destruct (f_type e) eqn:T; cbn [pattern_is orb] in Y.
  - rewrite parse_rendered_datetime; [now rewrite Fs | exact Vs | exact Ln |].
    unfold four_digit_year in Y.
    apply orb_true_iff in Y as [Y | Y]; [now left | right; now apply Z.leb_le].
  - cbn [shown_fraction_len] in Sf. rewrite <- Sf.
    rewrite parse_rendered_date by exact Vs.
    cbn [truncate_to] in Fs. now rewrite Fs.
Qed.

Lemma X27_witness :
  exists text,
    get_at [KIdx 0; KStr "fields"; KStr "tags"; KIdx 0]
      (data (snd (run true (Ok (JList sample_items)) sample_now 12 (init None))))
    = Ok (JStr text)
    /\ parse_utc_timestamp text
       = Ok (Some (mkdt 2024 6 1 0 0 0 0, DATE_FIELD_PATTERN, 0%nat)).
Proof.
  assert (W : forallb well_formed_item sample_items = true)
    by (vm_compute; reflexivity).
  assert (D : distinct_keys (JList sample_items) = true)
    by (vm_compute; reflexivity).
  assert (R : run true (Ok (JList sample_items)) sample_now 12 (init None)
              = (Ok tt,
                 snd (run true (Ok (JList sample_items)) sample_now 12 (init None))))
    by (vm_compute; reflexivity).
  set (e := mkfound [KIdx 0; KStr "fields"; KStr "tags"] (KIdx 0)
              (mkdt 2023 1 1 0 0 0 0) DATE_FIELD_PATTERN 0).
  assert (I : In e (found_dates (snd (run true (Ok (JList sample_items)) sample_now
                                        12 (init None)))))
    by (vm_compute; auto).
  assert (Dl : delta (snd (run true (Ok (JList sample_items)) sample_now 12
                             (init None)))
               = Some (517 * US_PER_DAY)) by (vm_compute; reflexivity).
  destruct (X27_a_delta_of_whole_units_loses_nothing true sample_items None
              sample_now 12 _ e _ W D R I Dl eq_refl)
    as (sh & text & A & G & _ & P).
  exists text. split; [exact G|].
  vm_compute in A. injection A as <-. exact (P eq_refl).
Defined.
